(** * Explain-My-Repo: the metrics and scanning pipeline

    A shallow embedding of the static code-metrics and pattern-scanning
    pipeline of the repository (file collection, line classification,
    complexity estimation, language aggregation, secret scanning and the
    JSON history store), followed by the properties proved about it.

    Conventions.
    - A JavaScript string is a [string]: a sequence of code units, here the
      code units below 256 (Latin-1).  Every table of the program (comment
      tokens, extensions, regular expressions) is ASCII.
    - Counters are [nat] and byte sizes are [N]: integers the program
      adds, exact in a double up to 2^53.  A number that comes out of a
      division or a product is a rational [Q] rounded by an explicit
      rounding operator, for the program [Double.round].
    - Mutable objects (the [files] array of the collector, the [lastIndex]
      of a global regular expression, the history file) are threaded
      explicitly. *)

From Stdlib Require Import List String Ascii Arith PeanoNat Bool Lia.
From Stdlib Require Import NArith ZArith QArith Qabs Permutation.
From Stdlib Require Import DecimalString Lqa Qminmax Qround Qpower Sorted.
Import ListNotations.

Local Open Scope string_scope.
Local Open Scope nat_scope.

(* ================================================================== *)
(** ** JavaScript strings *)

Module JS.

Definition code (c : ascii) : nat := nat_of_ascii c.

Definition LF : ascii := ascii_of_nat 10.

(** WhiteSpace and LineTerminator code units below 256: TAB, LF, VT, FF,
    CR, SP and NBSP.  This is the set [String.prototype.trim] strips and
    the set the regular-expression escape [\s] denotes. *)
Definition whiteSpace : list nat := [9; 10; 11; 12; 13; 32; 160].

Definition isWhiteSpace (c : ascii) : bool :=
  existsb (Nat.eqb (code c)) whiteSpace.

(** [s.split(sep)] for a one-character separator.  The result is never
    empty: [''.split(sep)] is [['']]. *)
Fixpoint split (sep : ascii) (s : string) : list string :=
  match s with
  | EmptyString => [EmptyString]
  | String c rest =>
      if Ascii.eqb c sep then EmptyString :: split sep rest
      else match split sep rest with
           | [] => [String c EmptyString]
           | x :: xs => String c x :: xs
           end
  end.

Fixpoint trimStart (s : string) : string :=
  match s with
  | EmptyString => EmptyString
  | String c rest => if isWhiteSpace c then trimStart rest else s
  end.

Fixpoint trimEnd (s : string) : string :=
  match s with
  | EmptyString => EmptyString
  | String c rest =>
      match trimEnd rest with
      | EmptyString => if isWhiteSpace c then EmptyString
                       else String c EmptyString
      | rest' => String c rest'
      end
  end.

Definition trim (s : string) : string := trimEnd (trimStart s).

(** [s.startsWith(p)] *)
Definition startsWith (s p : string) : bool := String.prefix p s.

(** [s.endsWith(p)] *)
Definition endsWith (s p : string) : bool :=
  let n := String.length s in
  let k := String.length p in
  (k <=? n) && String.eqb (String.substring (n - k) k s) p.

(** [s.includes(p)] *)
Fixpoint includes (s p : string) : bool :=
  String.prefix p s ||
  match s with
  | EmptyString => false
  | String _ rest => includes rest p
  end.

Definition isUpperAscii (c : ascii) : bool :=
  (65 <=? code c) && (code c <=? 90).

Definition isLowerAscii (c : ascii) : bool :=
  (97 <=? code c) && (code c <=? 122).

(** Latin-1 letters with a Latin-1 counterpart in the other case:
    U+00C0..U+00DE but U+00D7, and U+00E0..U+00FE but U+00F7. *)
Definition isUpperLatin1 (c : ascii) : bool :=
  (192 <=? code c) && (code c <=? 222) && negb (code c =? 215).

Definition isLowerLatin1 (c : ascii) : bool :=
  (224 <=? code c) && (code c <=? 254) && negb (code c =? 247).

Definition toLowerChar (c : ascii) : ascii :=
  if isUpperAscii c || isUpperLatin1 c then ascii_of_nat (code c + 32)
  else c.

Definition toUpperChar (c : ascii) : ascii :=
  if isLowerAscii c || isLowerLatin1 c then ascii_of_nat (code c - 32)
  else c.

(** [s.toLowerCase()] *)
Fixpoint toLowerCase (s : string) : string :=
  match s with
  | EmptyString => EmptyString
  | String c rest => String (toLowerChar c) (toLowerCase rest)
  end.

(** [xs.includes(x)] on an array of strings *)
Definition arrayIncludes (xs : list string) (x : string) : bool :=
  existsb (String.eqb x) xs.

(** [xs.slice(0, n)] *)
Definition slice0 {A : Type} (n : nat) (xs : list A) : list A := firstn n xs.

(** [xs.sort(cmp)]: the sort is stable, so an element stays in front of
    the later elements it does not compare greater than. *)
Section Sort.
Context {A : Type} (cmp : A -> A -> Z).

Fixpoint insertSorted (x : A) (l : list A) : list A :=
  match l with
  | [] => [x]
  | y :: l' => if (cmp x y <=? 0)%Z then x :: l
               else y :: insertSorted x l'
  end.

Fixpoint sort (l : list A) : list A :=
  match l with
  | [] => []
  | x :: l' => insertSorted x (sort l')
  end.
End Sort.

(** A [Map] with string keys: entries in insertion order; [set] on a key
    already present keeps its position. *)
Section Map.
Context {V : Type}.

Fixpoint mapGet (m : list (string * V)) (k : string) : option V :=
  match m with
  | [] => None
  | (k', v) :: m' => if String.eqb k k' then Some v else mapGet m' k
  end.

Fixpoint mapSet (m : list (string * V)) (k : string) (v : V)
  : list (string * V) :=
  match m with
  | [] => [(k, v)]
  | (k', v') :: m' => if String.eqb k k' then (k, v) :: m'
                      else (k', v') :: mapSet m' k v
  end.
End Map.

(** Numbers that come out of a division are rationals rounded by [rnd]
    (for the program, rounding to the nearest double). *)
Section Numbers.
Variable rnd : Q -> Q.
Definition ofNat (n : nat) : Q := inject_Z (Z.of_nat n).
Definition fdiv (a b : Q) : Q := rnd (a / b).
Definition fmul (a b : Q) : Q := rnd (a * b).
End Numbers.

End JS.

(* ================================================================== *)
(** ** Rounding to double precision *)

Module Double.
Local Open Scope Q_scope.

(** The integer nearest to [y], the even one of the two when [y] is half
    way. *)
Definition nearestEven (y : Q) : Z :=
  let f := Qfloor y in
  match Qcompare (y - inject_Z f) (1 # 2) with
  | Lt => f
  | Gt => (f + 1)%Z
  | Eq => if Z.even f then f else (f + 1)%Z
  end.

(** The binade of a positive [a]: the [e] with [2^e <= a < 2^(e+1)],
    found from the binary logarithms of numerator and denominator. *)
Definition exponent (a : Q) : Z :=
  let e0 := (Z.log2 (Qnum a) - Z.log2 (Zpos (Qden a)))%Z in
  if Qle_bool (2 ^ e0) a then e0 else (e0 - 1)%Z.

(** 53 significant bits. *)
Definition precision : Z := 53.

(** The double nearest to a positive [a]: the significand of [a], scaled
    to 53 bits, is rounded to an integer. *)
Definition roundPos (a : Q) : Q :=
  let k := (precision - 1 - exponent a)%Z in
  inject_Z (nearestEven (a * 2 ^ k)) * 2 ^ (- k).

(** The double nearest to [q], ties to even.  The exponent range is not
    bounded: neither overflow nor subnormal numbers are modelled. *)
Definition round (q : Q) : Q :=
  if Qeq_bool q 0 then 0
  else if Qle_bool 0 q then roundPos (Qabs q)
       else - roundPos (Qabs q).

(** Half the gap between 1 and the next double: 2^-53. *)
Definition unitRoundoff : Q := 2 ^ (- precision).

End Double.

(* ================================================================== *)
(** ** Node's [path] module (POSIX flavour) *)

Module Path.

Definition sep : ascii := "/"%char.
Definition dot : ascii := "."%char.

(** Index of the last occurrence of [c] in [s]. *)
Fixpoint lastIndexOf (c : ascii) (s : string) : option nat :=
  match s with
  | EmptyString => None
  | String d rest =>
      match lastIndexOf c rest with
      | Some i => Some (S i)
      | None => if Ascii.eqb d c then Some 0 else None
      end
  end.

(** Drop the trailing separators, then keep what follows the last one. *)
Definition basename (p : string) : string :=
  let fix dropTrailing (s : string) : string :=
    match s with
    | EmptyString => EmptyString
    | String c rest =>
        match dropTrailing rest with
        | EmptyString => if Ascii.eqb c sep then EmptyString
                         else String c EmptyString
        | rest' => String c rest'
        end
    end in
  let q := dropTrailing p in
  match lastIndexOf sep q with
  | Some i => String.substring (S i) (String.length q - S i) q
  | None => q
  end.

(** [path.extname(p)]: from the last dot of the last path segment to its
    end; empty when the segment has no dot, when its only dot is its
    first character, and for the segment [..]. *)
Definition extname (p : string) : string :=
  let b := basename p in
  match lastIndexOf dot b with
  | None => ""
  | Some 0 => ""
  | Some i => if String.eqb b ".." then ""
              else String.substring i (String.length b - i) b
  end.

(** [path.join(dir, name)] for a relative [dir] and a plain entry name. *)
Definition join (dir name : string) : string :=
  match dir with
  | EmptyString => name
  | _ => dir ++ String sep name
  end.

End Path.

(* ================================================================== *)
(** ** Line classification and language aggregation
       ([analyzeCodeMetrics] of src/server/routes/analyze.js, which the
       server entry point repeats word for word) *)

Module Metrics.

Record SourceFile := { path : string; content : string; size : N }.

Definition languageMap : list (string * string) :=
  [ (".js", "JavaScript"); (".ts", "TypeScript");
    (".jsx", "JavaScript React"); (".tsx", "TypeScript React");
    (".py", "Python"); (".java", "Java"); (".cpp", "C++"); (".cc", "C++");
    (".cxx", "C++"); (".c", "C"); (".h", "C/C++ Header");
    (".hpp", "C++ Header"); (".cs", "C#"); (".go", "Go"); (".rs", "Rust");
    (".rb", "Ruby"); (".php", "PHP"); (".swift", "Swift");
    (".kt", "Kotlin"); (".scala", "Scala"); (".r", "R");
    (".m", "Objective-C") ].

(** [languageMap[ext] || 'Other'].  An extension is empty or starts with
    a dot, so no inherited property of the object is ever hit. *)
Definition getLanguageFromExtension (ext : string) : string :=
  match JS.mapGet languageMap ext with
  | Some language => language
  | None => "Other"
  end.

(** The three per-file counters of the inner [lines.forEach]. *)
Record FileCounts := { fileCode : nat; fileComments : nat; fileBlank : nat }.

Definition countLine (c : FileCounts) (line : string) : FileCounts :=
  let trimmed := JS.trim line in
  if String.eqb trimmed "" then
    {| fileCode := fileCode c; fileComments := fileComments c;
       fileBlank := S (fileBlank c) |}
  else if JS.startsWith trimmed "//" || JS.startsWith trimmed "#"
          || JS.startsWith trimmed "/*" then
    {| fileCode := fileCode c; fileComments := S (fileComments c);
       fileBlank := fileBlank c |}
  else
    {| fileCode := S (fileCode c); fileComments := fileComments c;
       fileBlank := fileBlank c |}.

Definition countLines (lines : list string) : FileCounts :=
  fold_left countLine lines
    {| fileCode := 0; fileComments := 0; fileBlank := 0 |}.

(** The value kept in the [languageStats] map. *)
Record LangStat := { st_files : nat; st_lines : nat; st_bytes : N }.

(** The variables the outer [files.forEach] updates. *)
Record Totals := {
  t_totalLines : nat;
  t_codeLines : nat;
  t_commentLines : nat;
  t_blankLines : nat;
  t_languageStats : list (string * LangStat)
}.

Definition initial : Totals :=
  {| t_totalLines := 0; t_codeLines := 0; t_commentLines := 0;
     t_blankLines := 0; t_languageStats := [] |}.

Definition addFile (t : Totals) (file : SourceFile) : Totals :=
  let lines := JS.split JS.LF (content file) in
  let fileLines := List.length lines in
  let c := countLines lines in
  let ext := Path.extname (path file) in
  let language := getLanguageFromExtension ext in
  let langStat :=
    match JS.mapGet (t_languageStats t) language with
    | Some st => st
    | None => {| st_files := 0; st_lines := 0; st_bytes := 0 |}
    end in
  let langStat' :=
    {| st_files := S (st_files langStat);
       st_lines := st_lines langStat + fileLines;
       st_bytes := st_bytes langStat + size file |} in
  {| t_totalLines := t_totalLines t + fileLines;
     t_codeLines := t_codeLines t + fileCode c;
     t_commentLines := t_commentLines t + fileComments c;
     t_blankLines := t_blankLines t + fileBlank c;
     t_languageStats := JS.mapSet (t_languageStats t) language langStat' |}.

Record LanguageStatistics := {
  language : string;
  files : nat;
  lines : nat;
  bytes : N;
  percentage : Q
}.

(** The result object, without [fileTypes] and [averageFileSize], which
    no property below reads. *)
Record CodeMetrics := {
  totalFiles : nat;
  totalLines : nat;
  codeLines : nat;
  commentLines : nat;
  blankLines : nat;
  languages : list LanguageStatistics
}.

Section Numbers.
Variable rnd : Q -> Q.

(** An entry of [languageStats] as the result lists it.  [total] is not
    0 when there is an entry (every file has a line), so the division
    never yields [NaN]. *)
Definition toLanguage (total : nat) (e : string * LangStat)
  : LanguageStatistics :=
  {| language := fst e;
     files := st_files (snd e);
     lines := st_lines (snd e);
     bytes := st_bytes (snd e);
     percentage :=
       JS.fmul rnd
         (JS.fdiv rnd (JS.ofNat (st_lines (snd e))) (JS.ofNat total))
         100 |}.

Definition byLinesDesc (a b : LanguageStatistics) : Z :=
  (Z.of_nat (lines b) - Z.of_nat (lines a))%Z.

Definition analyzeCodeMetrics (fs : list SourceFile) : CodeMetrics :=
  let t := fold_left addFile fs initial in
  {| totalFiles := List.length fs;
     totalLines := t_totalLines t;
     codeLines := t_codeLines t;
     commentLines := t_commentLines t;
     blankLines := t_blankLines t;
     languages :=
       JS.sort byLinesDesc
         (map (toLanguage (t_totalLines t)) (t_languageStats t)) |}.
End Numbers.

End Metrics.

(* ================================================================== *)
(** ** Regular expressions

    The backtracking matcher of the language definition, for the
    constructs the program's patterns use: characters, classes, [\s],
    [\b], [$], sequence, alternation and greedy quantifiers, with the [i]
    and [g] flags.  A match is the end index the continuation accepts. *)

Module RegExp.

Inductive ClassItem :=
| CChar (c : ascii)
| CRange (lo hi : ascii)
| CSpace.

Inductive Pattern :=
| Empty
| Char (c : ascii)
| Class (negated : bool) (items : list ClassItem)
| WordBoundary
| EndOfInput
| Seq (p q : Pattern)
| Alt (p q : Pattern)
| Repeat (min : nat) (max : option nat) (p : Pattern).

Definition members (it : ClassItem) : list ascii :=
  match it with
  | CChar c => [c]
  | CRange lo hi =>
      map ascii_of_nat (seq (JS.code lo) (S (JS.code hi) - JS.code lo))
  | CSpace => map ascii_of_nat JS.whiteSpace
  end.

Definition isWordChar (c : ascii) : bool :=
  JS.isUpperAscii c || JS.isLowerAscii c
  || ((48 <=? JS.code c) && (JS.code c <=? 57)) || (JS.code c =? 95).

Section Matcher.
Variable ignoreCase : bool.
Variable input : list ascii.

(** Canonicalize: with [i], the upper-case form of the code unit. *)
Definition canonicalize (c : ascii) : ascii :=
  if ignoreCase then JS.toUpperChar c else c.

(** CharacterSetMatcher: the character at [x] is in the set (some
    member has its canonical form) exactly when [invert] is false. *)
Definition charSet (invert : bool) (items : list ClassItem)
           (x : nat) (c : nat -> option nat) : option nat :=
  match nth_error input x with
  | None => None
  | Some ch =>
      let cc := canonicalize ch in
      let found :=
        existsb (fun a => Ascii.eqb (canonicalize a) cc)
                (flat_map members items) in
      if Bool.eqb invert found then None else c (S x)
  end.

Definition isWordAt (x : nat) : bool :=
  match nth_error input x with
  | Some ch => isWordChar ch
  | None => false
  end.

Definition isWordBefore (x : nat) : bool :=
  match x with
  | O => false
  | S x' => isWordAt x'
  end.

(** [run p x c]: match [p] at index [x], then continue with [c].
    A quantifier first runs its [min] required iterations, then up to
    [max - min] further ones, each of which must consume a character
    (the empty check of RepeatMatcher); without a [max] the number of
    such iterations is at most the length of the input. *)
Fixpoint run (p : Pattern) (x : nat) (c : nat -> option nat)
  {struct p} : option nat :=
  match p with
  | Empty => c x
  | Char a => charSet false [CChar a] x c
  | Class invert items => charSet invert items x c
  | WordBoundary =>
      if xorb (isWordBefore x) (isWordAt x) then c x else None
  | EndOfInput => if x =? List.length input then c x else None
  | Seq p1 p2 => run p1 x (fun y => run p2 y c)
  | Alt p1 p2 =>
      match run p1 x c with
      | Some e => Some e
      | None => run p2 x c
      end
  | Repeat min max p1 =>
      let further :=
        match max with
        | Some m => m - min
        | None => List.length input
        end in
      (fix required (n : nat) (x : nat) {struct n} : option nat :=
         match n with
         | S n' => run p1 x (required n')
         | O =>
             (fix extra (k : nat) (x : nat) {struct k} : option nat :=
                match k with
                | O => c x
                | S k' =>
                    match run p1 x (fun y => if y =? x then None
                                             else extra k' y) with
                    | Some e => Some e
                    | None => c x
                    end
                end) further x
         end) min x
  end.

Definition matchAt (p : Pattern) (i : nat) : option nat :=
  run p i (fun e => Some e).

(** The leftmost match that starts at [i] or within the [remaining]
    indices after it: the start and the end index. *)
Fixpoint searchFrom (p : Pattern) (remaining : nat) (i : nat)
  : option (nat * nat) :=
  match matchAt p i with
  | Some e => Some (i, e)
  | None =>
      match remaining with
      | O => None
      | S r => searchFrom p r (S i)
      end
  end.

(** All matches, as the loop of [String.prototype.match] with a global
    expression finds them: index [i] is tried when the loop's
    [lastIndex], here [next], has not passed it; after a match
    [lastIndex] is its end, one further after an empty match. *)
Fixpoint collect (p : Pattern) (remaining : nat) (i next : nat)
  : list (nat * nat) :=
  let here := if i <? next then None else matchAt p i in
  let next' :=
    match here with
    | Some e => if e =? i then S i else e
    | None => next
    end in
  let rest :=
    match remaining with
    | O => []
    | S r => collect p r (S i) next'
    end in
  match here with
  | Some e => (i, e) :: rest
  | None => rest
  end.
End Matcher.

(** A regular-expression object; [lastIndex] is its mutable property. *)
Record RegExp := {
  source : Pattern;
  global : bool;
  ignoreCase : bool;
  lastIndex : nat
}.

Definition setLastIndex (re : RegExp) (i : nat) : RegExp :=
  {| source := source re; global := global re;
     ignoreCase := ignoreCase re; lastIndex := i |}.

(** RegExpBuiltinExec: the search starts at [lastIndex] when the
    expression is global and at 0 otherwise; a global expression is left
    with [lastIndex] at the end of the match, or at 0 after a failure. *)
Definition exec (re : RegExp) (s : string)
  : option (nat * nat) * RegExp :=
  let input := list_ascii_of_string s in
  let len := List.length input in
  let start := if global re then lastIndex re else 0 in
  if len <? start then
    (None, if global re then setLastIndex re 0 else re)
  else
    match searchFrom (ignoreCase re) input (source re)
                     (len - start) start with
    | Some m => (Some m, if global re then setLastIndex re (snd m) else re)
    | None => (None, if global re then setLastIndex re 0 else re)
    end.

(** [re.test(s)] *)
Definition test (re : RegExp) (s : string) : bool * RegExp :=
  match exec re s with
  | (Some _, re') => (true, re')
  | (None, re') => (false, re')
  end.

(** [s.match(re)] for a global [re]: the matches, [[]] standing for the
    [null] of no match.  The search restarts from index 0 whatever
    [lastIndex] was. *)
Definition matchAll (s : string) (re : RegExp) : list (nat * nat) :=
  let input := list_ascii_of_string s in
  collect (ignoreCase re) input (source re) (List.length input) 0 0.

(** [s.match(re)] for an [re] that is not global: the text of the first
    match. *)
Definition matchFirst (s : string) (re : RegExp) : option string :=
  match fst (exec re s) with
  | Some (i, e) => Some (String.substring i (e - i) s)
  | None => None
  end.

(** *** Writing patterns *)

Fixpoint lit (s : string) : Pattern :=
  match s with
  | EmptyString => Empty
  | String c EmptyString => Char c
  | String c rest => Seq (Char c) (lit rest)
  end.

Fixpoint seqs (ps : list Pattern) : Pattern :=
  match ps with
  | [] => Empty
  | [p] => p
  | p :: ps' => Seq p (seqs ps')
  end.

Definition star (p : Pattern) : Pattern := Repeat 0 None p.
Definition plus (p : Pattern) : Pattern := Repeat 1 None p.
Definition opt (p : Pattern) : Pattern := Repeat 0 (Some 1) p.
Definition exactly (n : nat) (p : Pattern) : Pattern := Repeat n (Some n) p.
Definition atLeast (n : nat) (p : Pattern) : Pattern := Repeat n None p.
Definition between (n m : nat) (p : Pattern) : Pattern :=
  Repeat n (Some m) p.
Definition space : Pattern := Class false [CSpace].
Definition oneOf (s : string) : list ClassItem :=
  map CChar (list_ascii_of_string s).

Definition dquote : ascii := ascii_of_nat 34.
Definition quote : Pattern := Class false [CChar "'"%char; CChar dquote].
Definition notQuote : Pattern := Class true [CChar "'"%char; CChar dquote].

Definition digit : ClassItem := CRange "0"%char "9"%char.
Definition upper : ClassItem := CRange "A"%char "Z"%char.
Definition lower : ClassItem := CRange "a"%char "z"%char.

(** A literal [/.../g] or [/.../gi], freshly evaluated. *)
Definition g (p : Pattern) : RegExp :=
  {| source := p; global := true; ignoreCase := false; lastIndex := 0 |}.
Definition gi (p : Pattern) : RegExp :=
  {| source := p; global := true; ignoreCase := true; lastIndex := 0 |}.

(** A literal [/.../] without flags. *)
Definition plain (p : Pattern) : RegExp :=
  {| source := p; global := false; ignoreCase := false; lastIndex := 0 |}.

End RegExp.

(* ================================================================== *)
(** ** [CodeParser]: [getCodeMetrics], line counters with block
       comments, and [calculateComplexity] (the parser that follows the
       analyze page in src/pages/analyze.tsx) *)

Module CodeParser.

Record LineState := {
  codeLines : nat;
  commentLines : nat;
  blankLines : nat;
  inMultilineComment : bool
}.

Definition stepLine (st : LineState) (line : string) : LineState :=
  let trimmed := JS.trim line in
  if String.eqb trimmed "" then
    {| codeLines := codeLines st; commentLines := commentLines st;
       blankLines := S (blankLines st);
       inMultilineComment := inMultilineComment st |}
  else if JS.startsWith trimmed "/*" || JS.startsWith trimmed "/**" then
    {| codeLines := codeLines st; commentLines := S (commentLines st);
       blankLines := blankLines st;
       inMultilineComment :=
         if JS.endsWith trimmed "*/" then false else true |}
  else if inMultilineComment st then
    {| codeLines := codeLines st; commentLines := S (commentLines st);
       blankLines := blankLines st;
       inMultilineComment :=
         if JS.endsWith trimmed "*/" then false
         else inMultilineComment st |}
  else if JS.startsWith trimmed "//" then
    {| codeLines := codeLines st; commentLines := S (commentLines st);
       blankLines := blankLines st;
       inMultilineComment := inMultilineComment st |}
  else
    {| codeLines := S (codeLines st); commentLines := commentLines st;
       blankLines := blankLines st;
       inMultilineComment := inMultilineComment st |}.

(** The line counters of the returned object ([functions], [classes] and
    [complexity] come from the function parser and are left out). *)
Record LineMetrics := {
  m_totalLines : nat;
  m_codeLines : nat;
  m_commentLines : nat;
  m_blankLines : nat
}.

(** [new CodeParser(content).getCodeMetrics()] *)
Definition getCodeMetrics (content : string) : LineMetrics :=
  let lines := JS.split JS.LF content in
  let st := fold_left stepLine lines
              {| codeLines := 0; commentLines := 0; blankLines := 0;
                 inMultilineComment := false |} in
  {| m_totalLines := List.length lines;
     m_codeLines := codeLines st;
     m_commentLines := commentLines st;
     m_blankLines := blankLines st |}.

(** [calculateComplexity(code)]: one more than the number of matches
    of twelve patterns in the text. *)
Definition complexityPatterns : list RegExp.RegExp :=
  let b := RegExp.WordBoundary in
  let word (w : string) := RegExp.seqs [b; RegExp.lit w; b] in
  [ RegExp.g (word "if");
    RegExp.g (RegExp.seqs [b; RegExp.lit "else"; RegExp.plus RegExp.space;
                           RegExp.lit "if"; b]);
    RegExp.g (word "else");
    RegExp.g (word "for");
    RegExp.g (word "while");
    RegExp.g (word "do");
    RegExp.g (word "switch");
    RegExp.g (word "case");
    RegExp.g (word "catch");
    RegExp.g (RegExp.seqs [RegExp.Char "?"; RegExp.star RegExp.space;
                           RegExp.Char ":"]);
    RegExp.g (RegExp.lit "&&");
    RegExp.g (RegExp.lit "||") ].

Definition calculateComplexity (code : string) : nat :=
  fold_left
    (fun complexity pattern =>
       match RegExp.matchAll code pattern with
       | [] => complexity
       | matches => complexity + List.length matches
       end)
    complexityPatterns 1.

End CodeParser.

(* ================================================================== *)
(** ** [CodeAnalyzer]: the line classifier with per-language comment
       tokens and the ten-pattern complexity estimator (class
       [CodeAnalyzer], last source file of the ARCHITECTURE.md bundle) *)

Module CodeAnalyzer.

(** [filePath.match(/\.[^.]+$/)], lower-cased, or the empty string. *)
Definition getFileExtension (filePath : string) : string :=
  match RegExp.matchFirst filePath
          (RegExp.plain (RegExp.seqs
             [RegExp.Char "."; 
              RegExp.plus (RegExp.Class true [RegExp.CChar "."%char]);
              RegExp.EndOfInput])) with
  | Some text => JS.toLowerCase text
  | None => ""
  end.

Record CommentPatterns := {
  singleLine : list string;
  multilineStart : option string;
  multilineEnd : option string
}.

Definition tripleQuote : string :=
  String RegExp.dquote (String RegExp.dquote (String RegExp.dquote "")).

Definition cStyle : CommentPatterns :=
  {| singleLine := ["//"]; multilineStart := Some "/*";
     multilineEnd := Some "*/" |}.

Definition commentTable : list (string * CommentPatterns) :=
  [ (".js", cStyle); (".ts", cStyle); (".jsx", cStyle); (".tsx", cStyle);
    (".py", {| singleLine := ["#"]; multilineStart := Some tripleQuote;
               multilineEnd := Some tripleQuote |});
    (".java", cStyle); (".cpp", cStyle); (".c", cStyle); (".cs", cStyle);
    (".go", cStyle); (".rs", cStyle);
    (".rb", {| singleLine := ["#"]; multilineStart := Some "=begin";
               multilineEnd := Some "=end" |});
    (".php", {| singleLine := ["//"; "#"]; multilineStart := Some "/*";
                multilineEnd := Some "*/" |});
    (".html", {| singleLine := []; multilineStart := Some "<!--";
                 multilineEnd := Some "-->" |});
    (".css", {| singleLine := []; multilineStart := Some "/*";
                multilineEnd := Some "*/" |});
    (".sh", {| singleLine := ["#"]; multilineStart := None;
               multilineEnd := None |}) ].

Definition getCommentPatterns (extension : string) : CommentPatterns :=
  match JS.mapGet commentTable extension with
  | Some patterns => patterns
  | None => {| singleLine := []; multilineStart := None;
               multilineEnd := None |}
  end.

(** The counters and the flag of [analyzeLines]. *)
Record LineState := {
  code : nat;
  comments : nat;
  blank : nat;
  inMultilineComment : bool
}.

Definition hasToken (token : option string) (trimmed : string) : bool :=
  match token with
  | Some t => JS.includes trimmed t
  | None => false
  end.

Definition stepLine (commentPatterns : CommentPatterns) (st : LineState)
           (line : string) : LineState :=
  let trimmed := JS.trim line in
  if String.eqb trimmed "" then
    {| code := code st; comments := comments st; blank := S (blank st);
       inMultilineComment := inMultilineComment st |}
  else
    let inMulti :=
      if hasToken (multilineStart commentPatterns) trimmed then true
      else inMultilineComment st in
    if inMulti then
      {| code := code st; comments := S (comments st); blank := blank st;
         inMultilineComment :=
           if hasToken (multilineEnd commentPatterns) trimmed then false
           else inMulti |}
    else if existsb (JS.startsWith trimmed) (singleLine commentPatterns) then
      {| code := code st; comments := S (comments st); blank := blank st;
         inMultilineComment := inMulti |}
    else
      {| code := S (code st); comments := comments st; blank := blank st;
         inMultilineComment := inMulti |}.

Definition analyzeLines (lines : list string) (filePath : string)
  : LineState :=
  fold_left (stepLine (getCommentPatterns (getFileExtension filePath)))
            lines
            {| code := 0; comments := 0; blank := 0;
               inMultilineComment := false |}.

(** The four line totals of [analyzeCode] (its language statistics are
    those of [Metrics.analyzeCodeMetrics] with a longer table). *)
Record LineTotals := {
  totalLines : nat;
  codeLines : nat;
  commentLines : nat;
  blankLines : nat
}.

(** One iteration of the [for] loop of [analyzeCode]. *)
Definition addFile (t : LineTotals) (file : Metrics.SourceFile)
  : LineTotals :=
  let lines := JS.split JS.LF (Metrics.content file) in
  let counts := analyzeLines lines (Metrics.path file) in
  {| totalLines := totalLines t + List.length lines;
     codeLines := codeLines t + code counts;
     commentLines := commentLines t + comments counts;
     blankLines := blankLines t + blank counts |}.

Definition analyzeCode (files : list Metrics.SourceFile) : LineTotals :=
  fold_left addFile files
    {| totalLines := 0; codeLines := 0; commentLines := 0;
       blankLines := 0 |}.

Definition complexityKeywords : list RegExp.RegExp :=
  let b := RegExp.WordBoundary in
  let word (w : string) := RegExp.seqs [b; RegExp.lit w; b] in
  [ RegExp.g (word "if");
    RegExp.g (word "else");
    RegExp.g (word "for");
    RegExp.g (word "while");
    RegExp.g (word "switch");
    RegExp.g (word "case");
    RegExp.g (word "catch");
    RegExp.g (RegExp.seqs [b; RegExp.Char "?"; RegExp.star RegExp.space;
                           RegExp.Char ":"]);
    RegExp.g (RegExp.lit "&&");
    RegExp.g (RegExp.lit "||") ].

Definition calculateComplexity (content : string) : nat :=
  fold_left
    (fun complexity keyword =>
       match RegExp.matchAll content keyword with
       | [] => complexity
       | matches => complexity + List.length matches
       end)
    complexityKeywords 1.

End CodeAnalyzer.

(* ================================================================== *)
(** ** [RepositoryAnalyzer.calculateCodeMetrics]: line counters and a
       complexity counted on the lines classified as code (class
       [RepositoryAnalyzer], in the ARCHITECTURE.md bundle) *)

Module RepositoryAnalyzer.

Definition complexityPatterns : list RegExp.RegExp :=
  let b := RegExp.WordBoundary in
  let word (w : string) := RegExp.seqs [b; RegExp.lit w; b] in
  [ RegExp.g (word "if");
    RegExp.g (word "else");
    RegExp.g (word "for");
    RegExp.g (word "while");
    RegExp.g (word "switch");
    RegExp.g (word "case");
    RegExp.g (word "catch");
    RegExp.g (RegExp.seqs [RegExp.Char "?"; RegExp.star RegExp.space;
                           RegExp.Char ":"]);
    RegExp.g (RegExp.lit "&&");
    RegExp.g (RegExp.lit "||") ].

Record State := {
  codeLines : nat;
  commentLines : nat;
  blankLines : nat;
  complexity : nat;
  inMultilineComment : bool
}.

Definition stepLine (st : State) (line : string) : State :=
  let trimmed := JS.trim line in
  if String.eqb trimmed "" then
    {| codeLines := codeLines st; commentLines := commentLines st;
       blankLines := S (blankLines st); complexity := complexity st;
       inMultilineComment := inMultilineComment st |}
  else if JS.startsWith trimmed "/*" || JS.startsWith trimmed "/**" then
    {| codeLines := codeLines st; commentLines := S (commentLines st);
       blankLines := blankLines st; complexity := complexity st;
       inMultilineComment :=
         if JS.endsWith trimmed "*/" then false else true |}
  else if inMultilineComment st then
    {| codeLines := codeLines st; commentLines := S (commentLines st);
       blankLines := blankLines st; complexity := complexity st;
       inMultilineComment :=
         if JS.endsWith trimmed "*/" then false
         else inMultilineComment st |}
  else if JS.startsWith trimmed "//" || JS.startsWith trimmed "#"
          || JS.startsWith trimmed "--" then
    {| codeLines := codeLines st; commentLines := S (commentLines st);
       blankLines := blankLines st; complexity := complexity st;
       inMultilineComment := inMultilineComment st |}
  else
    {| codeLines := S (codeLines st); commentLines := commentLines st;
       blankLines := blankLines st;
       complexity :=
         fold_left
           (fun complexity pattern =>
              match RegExp.matchAll trimmed pattern with
              | [] => complexity
              | matches => complexity + List.length matches
              end)
           complexityPatterns (complexity st);
       inMultilineComment := inMultilineComment st |}.

Record FileMetrics := {
  m_lines : nat;
  m_codeLines : nat;
  m_commentLines : nat;
  m_blankLines : nat;
  m_complexity : nat
}.

Definition calculateCodeMetrics (content : string) : FileMetrics :=
  let lines := JS.split JS.LF content in
  let st := fold_left stepLine lines
              {| codeLines := 0; commentLines := 0; blankLines := 0;
                 complexity := 1; inMultilineComment := false |} in
  {| m_lines := List.length lines;
     m_codeLines := codeLines st;
     m_commentLines := commentLines st;
     m_blankLines := blankLines st;
     m_complexity := complexity st |}.

End RepositoryAnalyzer.

(* ================================================================== *)
(** ** [SecurityScanner.scanForSecrets] *)

Module SecurityScanner.

Inductive Severity := low | medium | high | critical.

Record ScannedFile := { path : string; content : string }.

Record SecretPattern := {
  name : string;
  pattern : RegExp.RegExp;
  p_severity : Severity;
  p_description : string
}.

Record SecretDetection := {
  type : string;
  file : string;
  line : nat;
  severity : Severity;
  description : string
}.

(** The array literal of the method: thirteen expressions, created anew
    (with [lastIndex] 0) by every call. *)
Definition secretPatterns : list SecretPattern :=
  let ws := RegExp.star RegExp.space in
  let ws1 := RegExp.plus RegExp.space in
  let alnum := [RegExp.lower; RegExp.upper; RegExp.digit] in
  let token := RegExp.Class false (alnum ++ RegExp.oneOf "_-") in
  let assign := RegExp.Class false (RegExp.oneOf ":=") in
  [ {| name := "AWS Access Key";
       pattern := RegExp.gi (RegExp.seqs
         [RegExp.lit "AKIA";
          RegExp.exactly 16
            (RegExp.Class false [RegExp.digit; RegExp.upper])]);
       p_severity := critical;
       p_description := "AWS access key detected" |};
    {| name := "AWS Secret Key";
       pattern := RegExp.gi (RegExp.seqs
         [RegExp.lit "aws_secret_access_key"; ws; RegExp.Char "="; ws;
          RegExp.quote; RegExp.exactly 40 RegExp.notQuote; RegExp.quote]);
       p_severity := critical;
       p_description := "AWS secret access key detected" |};
    {| name := "Generic API Key";
       pattern := RegExp.gi (RegExp.seqs
         [RegExp.lit "api";
          RegExp.opt (RegExp.Class false (RegExp.oneOf "_-"));
          RegExp.lit "key"; ws; assign; ws;
          RegExp.quote; RegExp.atLeast 20 token; RegExp.quote]);
       p_severity := high;
       p_description := "Generic API key detected" |};
    {| name := "Generic Secret";
       pattern := RegExp.gi (RegExp.seqs
         [RegExp.lit "secret"; ws; assign; ws;
          RegExp.quote; RegExp.atLeast 20 token; RegExp.quote]);
       p_severity := high;
       p_description := "Generic secret detected" |};
    {| name := "Private Key";
       pattern := RegExp.gi (RegExp.seqs
         [RegExp.lit "-----BEGIN"; ws1;
          RegExp.opt (RegExp.Seq (RegExp.lit "RSA") ws1);
          RegExp.lit "PRIVATE"; ws1; RegExp.lit "KEY-----"]);
       p_severity := critical;
       p_description := "Private key detected" |};
    {| name := "GitHub Token";
       pattern := RegExp.gi (RegExp.seqs
         [RegExp.lit "gh"; RegExp.Class false (RegExp.oneOf "ps");
          RegExp.Char "_"; RegExp.atLeast 36 (RegExp.Class false alnum)]);
       p_severity := critical;
       p_description := "GitHub personal access token detected" |};
    {| name := "GitHub OAuth Token";
       pattern := RegExp.gi (RegExp.seqs
         [RegExp.lit "gho_"; RegExp.atLeast 36 (RegExp.Class false alnum)]);
       p_severity := critical;
       p_description := "GitHub OAuth token detected" |};
    {| name := "JWT Token";
       pattern := RegExp.gi (RegExp.seqs
         [RegExp.lit "eyJ"; RegExp.star token; RegExp.Char ".";
          RegExp.lit "eyJ"; RegExp.star token; RegExp.Char ".";
          RegExp.star token]);
       p_severity := high;
       p_description := "JWT token detected" |};
    {| name := "Slack Token";
       pattern := RegExp.gi (RegExp.seqs
         [RegExp.lit "xox"; RegExp.Class false (RegExp.oneOf "baprs");
          RegExp.Char "-";
          RegExp.between 10 48
            (RegExp.Class false
               [RegExp.digit; RegExp.lower; RegExp.upper])]);
       p_severity := high;
       p_description := "Slack token detected" |};
    {| name := "Google API Key";
       pattern := RegExp.gi (RegExp.seqs
         [RegExp.lit "AIza";
          RegExp.exactly 35
            (RegExp.Class false
               ([RegExp.digit; RegExp.upper; RegExp.lower]
                  ++ RegExp.oneOf "_-"))]);
       p_severity := high;
       p_description := "Google API key detected" |};
    {| name := "Stripe API Key";
       pattern := RegExp.gi (RegExp.seqs
         [RegExp.lit "sk_live_";
          RegExp.atLeast 24
            (RegExp.Class false
               [RegExp.digit; RegExp.lower; RegExp.upper])]);
       p_severity := critical;
       p_description := "Stripe live API key detected" |};
    {| name := "Password in Code";
       pattern := RegExp.gi (RegExp.seqs
         [RegExp.lit "password"; ws; assign; ws;
          RegExp.quote; RegExp.atLeast 6 RegExp.notQuote; RegExp.quote]);
       p_severity := medium;
       p_description := "Hardcoded password detected" |};
    {| name := "Database Connection String";
       pattern := RegExp.gi (RegExp.seqs
         [RegExp.Alt (RegExp.lit "mongodb")
            (RegExp.Alt (RegExp.lit "mysql") (RegExp.lit "postgresql"));
          RegExp.lit "://"; RegExp.plus RegExp.notQuote]);
       p_severity := high;
       p_description := "Database connection string detected" |} ].

(** The state of the three nested [forEach]: the pattern objects, whose
    [lastIndex] every [test] updates, and the findings pushed so far. *)
Definition Scan : Type := (list SecretPattern * list SecretDetection)%type.

Definition withRegExp (p : SecretPattern) (re : RegExp.RegExp)
  : SecretPattern :=
  {| name := name p; pattern := re; p_severity := p_severity p;
     p_description := p_description p |}.

(** [secretPatterns.forEach(pattern => if (pattern.pattern.test(line)) ...)] *)
Fixpoint testPatterns (filePath : string) (lineIndex : nat) (lineText : string)
         (ps : list SecretPattern) (secrets : list SecretDetection) : Scan :=
  match ps with
  | [] => ([], secrets)
  | p :: ps' =>
      let (hit, re') := RegExp.test (pattern p) lineText in
      let secrets' :=
        if hit then
          (secrets ++ [ {| type := name p; file := filePath;
                           line := lineIndex + 1;
                           severity := p_severity p;
                           description := p_description p |} ])%list
        else secrets in
      let (ps'', out) :=
        testPatterns filePath lineIndex lineText ps' secrets' in
      (withRegExp p re' :: ps'', out)
  end.

(** [lines.forEach((line, lineIndex) => ...)] *)
Fixpoint scanLines (filePath : string) (lineIndex : nat)
         (lines : list string) (st : Scan) : Scan :=
  match lines with
  | [] => st
  | l :: lines' =>
      scanLines filePath (S lineIndex) lines'
        (testPatterns filePath lineIndex l (fst st) (snd st))
  end.

(** [this.files.forEach(file => ...)] *)
Definition scanFile (st : Scan) (f : ScannedFile) : Scan :=
  scanLines (path f) 0 (JS.split JS.LF (content f)) st.

Definition scanForSecrets (files : list ScannedFile)
  : list SecretDetection :=
  snd (fold_left scanFile files (secretPatterns, [])).

End SecurityScanner.

(* ================================================================== *)
(** ** The file collector ([analyzeCodeFiles] and its [collectFiles], in
       src/server/routes/analyze.js and in the server entry point) *)

Module Collector.

(** What [readdir], [stat] and [readFile] answer for the cloned tree.
    [None] stands for a rejected call. *)
#[warnings="-register-all"]
Inductive Entry :=
| FileEntry (name : string) (stat : option N) (data : option string)
| DirEntry (name : string) (listing : option (list Entry))
| OtherEntry (name : string).

Definition entryName (e : Entry) : string :=
  match e with
  | FileEntry name _ _ => name
  | DirEntry name _ => name
  | OtherEntry name => name
  end.

Definition skipDirs : list string :=
  [".git"; "node_modules"; "dist"; "build"; "out"; ".next"; "vendor";
   "target"; "__pycache__"; "venv"; ".venv"].

Definition codeExtensions : list string :=
  [".js"; ".ts"; ".jsx"; ".tsx"; ".py"; ".java"; ".cpp"; ".c"; ".cc";
   ".cxx"; ".h"; ".hpp"; ".cs"; ".go"; ".rs"; ".rb"; ".php"; ".swift";
   ".kt"; ".scala"; ".r"; ".m"].

Definition maxFileSize : N := 1024 * 1024.

(** [collectFiles(dirPath, depth)] on the directory [dir], with the
    shared array [files] threaded through.  [dirPath] is kept relative
    to the repository root, which is what [path.relative] recovers. *)
Fixpoint collectFiles (dirPath : string) (depth : nat) (dir : Entry)
         (files : list Metrics.SourceFile) {struct dir}
  : list Metrics.SourceFile :=
  match dir with
  | DirEntry _ listing =>
      if 10 <? depth then files
      else if 5000 <? List.length files then files
      else
        match listing with
        | None => files
        | Some entries =>
            (fix forEntries (es : list Entry)
                 (files : list Metrics.SourceFile) {struct es}
               : list Metrics.SourceFile :=
               match es with
               | [] => files
               | entry :: es' =>
                   forEntries es'
                     (if JS.startsWith (entryName entry) "."
                         || JS.arrayIncludes skipDirs (entryName entry)
                      then files
                      else
                        let fullPath :=
                          Path.join dirPath (entryName entry) in
                        match entry with
                        | DirEntry _ _ =>
                            collectFiles fullPath (depth + 1) entry files
                        | FileEntry name stat data =>
                            let ext :=
                              JS.toLowerCase (Path.extname name) in
                            if JS.arrayIncludes codeExtensions ext then
                              match stat with
                              | None => files
                              | Some size =>
                                  if (maxFileSize <? size)%N then files
                                  else
                                    match data with
                                    | None => files
                                    | Some content =>
                                        (files ++
                                         [ {| Metrics.path := fullPath;
                                              Metrics.content := content;
                                              Metrics.size := size |} ])%list
                                    end
                              end
                            else files
                        | OtherEntry _ => files
                        end)
               end) entries files
        end
  | FileEntry _ _ _ => files
  | OtherEntry _ => files
  end.

(** One iteration of the [for] loop of [collectFiles(dirPath, depth)]. *)
Definition visit (dirPath : string) (depth : nat)
           (files : list Metrics.SourceFile) (entry : Entry)
  : list Metrics.SourceFile :=
  if JS.startsWith (entryName entry) "."
     || JS.arrayIncludes skipDirs (entryName entry)
  then files
  else
    let fullPath := Path.join dirPath (entryName entry) in
    match entry with
    | DirEntry _ _ => collectFiles fullPath (depth + 1) entry files
    | FileEntry name stat data =>
        if JS.arrayIncludes codeExtensions
             (JS.toLowerCase (Path.extname name)) then
          match stat with
          | None => files
          | Some size =>
              if (maxFileSize <? size)%N then files
              else
                match data with
                | None => files
                | Some content =>
                    (files ++ [ {| Metrics.path := fullPath;
                                   Metrics.content := content;
                                   Metrics.size := size |} ])%list
                end
          end
        else files
    | OtherEntry _ => files
    end.

(** [analyzeCodeFiles(repoPath)], [root] being the clone's directory. *)
Definition analyzeCodeFiles (root : Entry) : list Metrics.SourceFile :=
  collectFiles "" 0 root [].

(** An entry the collector keeps when it reaches it: a readable regular
    file of at most 1 MiB, not hidden, with a source-code extension. *)
Definition qualifies (e : Entry) : bool :=
  match e with
  | FileEntry name (Some size) (Some _) =>
      negb (JS.startsWith name ".")
      && negb (JS.arrayIncludes skipDirs name)
      && JS.arrayIncludes codeExtensions
           (JS.toLowerCase (Path.extname name))
      && negb (maxFileSize <? size)%N
  | _ => false
  end.

End Collector.

(* ================================================================== *)
(** ** The history store ([HistoryService]) *)

Module HistoryService.

Record Repository := { name : string; fullName : string; url : string }.

(** The fields of the analysis [saveAnalysis] reads. *)
Record AnalysisData := {
  repository : Repository;
  a_duration : option nat;
  aiInsightsSummary : option string
}.

Record HistoryEntry := {
  id : string;
  repositoryName : string;
  repositoryFullName : string;
  repositoryUrl : string;
  status : string;
  timestamp : string;
  duration : nat;
  summary : string;
  data : AnalysisData
}.

(** What [JSON.parse] makes of the file: an array, or a value that has
    no [unshift]. *)
Inductive Json :=
| JArray (entries : list HistoryEntry)
| JOther.

(** The history file: absent ([readFile] rejects with ENOENT); present
    but [readFile] rejects with another error, whatever entries it holds;
    a text [JSON.parse] rejects; or a text that parses to [value]. *)
Inductive File :=
| Missing
| Unreadable (held : list HistoryEntry)
| Malformed (raw : string)
| Parsed (value : Json).

Definition readFails (f : File) : bool :=
  match f with
  | Parsed _ => false
  | Missing => true
  | Unreadable _ => true
  | Malformed _ => true
  end.

(** The history file and whether [writeFile] will succeed. *)
Record Disk := { historyFile : File; writable : bool }.

Inductive Result (A : Type) :=
| Returned (a : A)
| Thrown.
Arguments Returned {A} a.
Arguments Thrown {A}.

(** [Date.now()] and [new Date().toISOString()] at the call. *)
Record Clock := { now : N; iso : string }.

Definition loadHistory (d : Disk) : Json :=
  match historyFile d with
  | Parsed value => value
  | Missing => JArray []
  | Unreadable _ => JArray []
  | Malformed _ => JArray []
  end.

Definition makeEntry (analysisData : AnalysisData) (c : Clock)
  : HistoryEntry :=
  {| id := NilZero.string_of_uint (N.to_uint (now c));
     repositoryName := name (repository analysisData);
     repositoryFullName := fullName (repository analysisData);
     repositoryUrl := url (repository analysisData);
     status := "completed";
     timestamp := iso c;
     duration := match a_duration analysisData with
                 | Some n => n
                 | None => 0
                 end;
     summary := match aiInsightsSummary analysisData with
                | Some EmptyString => "No summary available"
                | Some text => text
                | None => "No summary available"
                end;
     data := analysisData |}.

Definition saveAnalysis (d : Disk) (analysisData : AnalysisData)
           (c : Clock) : Result HistoryEntry * Disk :=
  match loadHistory d with
  | JOther => (Thrown, d)
  | JArray history =>
      let historyEntry := makeEntry analysisData c in
      let history' := historyEntry :: history in
      let trimmedHistory := JS.slice0 100 history' in
      if writable d then
        (Returned historyEntry,
         {| historyFile := Parsed (JArray trimmedHistory);
            writable := writable d |})
      else (Thrown, d)
  end.

Definition deleteAnalysis (d : Disk) (ident : string) : bool * Disk :=
  match loadHistory d with
  | JOther => (false, d)
  | JArray history =>
      let filtered :=
        filter (fun entry => negb (String.eqb (id entry) ident)) history in
      if writable d then
        (true, {| historyFile := Parsed (JArray filtered);
                  writable := writable d |})
      else (false, d)
  end.

Definition clearHistory (d : Disk) : bool * Disk :=
  if writable d then
    (true, {| historyFile := Parsed (JArray []); writable := writable d |})
  else (false, d).

(** The stores the service can produce: a file that did not exist, then
    any sequence of calls, [writeFile] working or not at each. *)
Inductive reachable : Disk -> Prop :=
| reach_fresh : forall w,
    reachable {| historyFile := Missing; writable := w |}
| reach_writable : forall d w,
    reachable d ->
    reachable {| historyFile := historyFile d; writable := w |}
| reach_save : forall d a c,
    reachable d -> reachable (snd (saveAnalysis d a c))
| reach_delete : forall d ident,
    reachable d -> reachable (snd (deleteAnalysis d ident))
| reach_clear : forall d,
    reachable d -> reachable (snd (clearHistory d)).

(** The entries a reader of the store gets. *)
Definition persisted (d : Disk) : list HistoryEntry :=
  match loadHistory d with
  | JArray entries => entries
  | JOther => []
  end.

End HistoryService.

(* ================================================================== *)
(** ** The analyze handler: the [complexity] object of its result *)

Module Handler.

Record ComplexityMetrics := {
  averageComplexity : Q;
  maxComplexity : Q;
  complexFiles : list (string * nat);
  maintainabilityIndex : Q
}.

(** The three [Math.random()] results the object literal consumes. *)
Record Draws := { r1 : Q; r2 : Q; r3 : Q }.

Section Numbers.
Variable rnd : Q -> Q.

Definition fadd (a b : Q) : Q := rnd (a + b).

Definition complexity (r : Draws) : ComplexityMetrics :=
  {| averageComplexity := fadd 5 (JS.fmul rnd (r1 r) 10);
     maxComplexity := fadd 20 (JS.fmul rnd (r2 r) 30);
     complexFiles := [];
     maintainabilityIndex := fadd 60 (JS.fmul rnd (r3 r) 30) |}.

(** The part of the response the property is about: the metrics of
    the collected files and the [complexity] object next to them. *)
Record CodeAnalysis := {
  metrics : Metrics.CodeMetrics;
  complexityOf : ComplexityMetrics
}.

Definition codeAnalysis (files : list Metrics.SourceFile) (r : Draws)
  : CodeAnalysis :=
  {| metrics := Metrics.analyzeCodeMetrics rnd files;
     complexityOf := complexity r |}.
End Numbers.

Local Open Scope Q_scope.

(** Stated from the specification, to be compared with [complexity]: the
    formula of the maintainability index, over any reading [ln] and [log2] of
    the two logarithms:
    [max(0, (171 - 5.2 ln(volume) - 0.23 complexity - 16.2 ln(lines)) 100/171)]
    with [volume = log2(lines) lines]. *)
Definition specMaintainability (ln log2 : Q -> Q) (complexity lines : Q)
  : Q :=
  let volume := log2 lines * lines in
  Qmax 0 ((171 - (52 # 10) * ln volume - (23 # 100) * complexity
           - (162 # 10) * ln lines) * (100 / 171)).

(** The average number of lines per file of the analysed project. *)
Definition averageLines (m : Metrics.CodeMetrics) : Q :=
  JS.ofNat (Metrics.totalLines m) / JS.ofNat (Metrics.totalFiles m).

Definition draw (a b c : Q) : Draws := {| r1 := a; r2 := b; r3 := c |}.

End Handler.

(* ================================================================== *)
(** ** Sums the properties are stated with *)

Module Measures.
Import Metrics.

Definition counted (c : FileCounts) : nat :=
  fileCode c + fileComments c + fileBlank c.

(** The four totals as sums over the files. *)
Definition linesOf (f : SourceFile) : list string :=
  JS.split JS.LF (content f).

Definition sumOver (g : SourceFile -> nat) (fs : list SourceFile) : nat :=
  fold_right (fun f n => g f + n) 0 fs.

Definition sumLines (m : list (string * LangStat)) : nat :=
  fold_right (fun e n => st_lines (snd e) + n) 0 m.

Definition linesAt (m : list (string * LangStat)) (k : string) : nat :=
  match JS.mapGet m k with
  | Some st => st_lines st
  | None => 0
  end.

Local Open Scope Q_scope.

Definition sumQ (l : list Q) : Q := fold_right Qplus 0 l.

Definition share (total : nat) (e : string * LangStat) : Q :=
  JS.ofNat (st_lines (snd e)) / JS.ofNat total.

End Measures.

(* ================================================================== *)
(** ** The inputs of the scenarios *)

Module Scenarios.

(** The content [if (a) { } else if (b) { }], then a line feed. *)
Definition elseIfChain : string :=
  "if (a) { } else if (b) { }" ++ String JS.LF "".

Definition quoted (s : string) : string :=
  String RegExp.dquote (s ++ String RegExp.dquote "").

(** The line [const apiKey = "AKIA1234567890ABCDEF1234"]. *)
Definition apiKeyLine : string :=
  "const apiKey = " ++ quoted "AKIA1234567890ABCDEF1234".

Definition awsFinding (filePath : string) (n : nat)
  : SecurityScanner.SecretDetection :=
  {| SecurityScanner.type := "AWS Access Key";
     SecurityScanner.file := filePath;
     SecurityScanner.line := n;
     SecurityScanner.severity := SecurityScanner.critical;
     SecurityScanner.description := "AWS access key detected" |}.

Definition apiKeyFinding (filePath : string) (n : nat)
  : SecurityScanner.SecretDetection :=
  {| SecurityScanner.type := "Generic API Key";
     SecurityScanner.file := filePath;
     SecurityScanner.line := n;
     SecurityScanner.severity := SecurityScanner.high;
     SecurityScanner.description := "Generic API key detected" |}.

(** Two files with the same one-line content, an AWS access key. *)
Definition keyFileA : SecurityScanner.ScannedFile :=
  {| SecurityScanner.path := "a.js";
     SecurityScanner.content := "AKIA1234567890ABCDEF" |}.

Definition keyFileB : SecurityScanner.ScannedFile :=
  {| SecurityScanner.path := "b.js";
     SecurityScanner.content := "AKIA1234567890ABCDEF" |}.

(** The file [f<i>.js], 10 bytes, readable. *)
Definition sourceFile (i : nat) : Collector.Entry :=
  Collector.FileEntry
    ("f" ++ NilZero.string_of_uint (Nat.to_uint i) ++ ".js")
    (Some 10%N) (Some "let x = 1;").

(** A repository that is one directory of [n] such files. *)
Definition flatTree (n : nat) : Collector.Entry :=
  Collector.DirEntry "repo" (Some (map sourceFile (seq 0 n))).

Definition sixThousand : nat := 6 * 1000.

Import HistoryService.

Definition sampleAnalysis (n : string) : AnalysisData :=
  {| repository := {| name := n; fullName := "octo/" ++ n;
                      url := "https://github.com/octo/" ++ n |};
     a_duration := None;
     aiInsightsSummary := Some "A small project." |}.

Definition sampleClock (t : N) : Clock :=
  {| now := t; iso := "2026-01-06T00:00:00.000Z" |}.

(** A store that holds 100 entries, the one with id 99 at the front. *)
Definition fullDisk : Disk :=
  {| historyFile :=
       Parsed (JArray (map (fun i => makeEntry (sampleAnalysis "old")
                                       (sampleClock (N.of_nat i)))
                           (rev (seq 0 100))));
     writable := true |}.

(** A file that holds three entries but cannot be read. *)
Definition unreadableDisk : Disk :=
  {| historyFile :=
       Unreadable (map (fun i => makeEntry (sampleAnalysis "old")
                                   (sampleClock (N.of_nat i)))
                       [2; 1; 0]);
     writable := true |}.

End Scenarios.

(* ================================================================== *)
(** ** [SecurityScanner]: the dependency and permission scans, the
       scores and the rating of [scan], and [scanForInsecurePatterns] *)

Module SecurityReport.
Import SecurityScanner.

Inductive VulnerabilitySeverity :=
| v_low | v_moderate | v_high | v_critical.

Inductive Risk := r_low | r_medium | r_high.

Inductive Rating := excellent | good | fair | poor | r_critical.

Record Vulnerability := {
  id : string;
  v_severity : VulnerabilitySeverity;
  package : string;
  title : string;
  v_description : string;
  vulnerable : string;
  patched : string
}.

Record KnownVulnerability := {
  k_package : string;
  k_pattern : RegExp.RegExp;
  k_severity : VulnerabilitySeverity;
  k_title : string;
  k_description : string;
  k_vulnerable : string;
  k_patched : string
}.

Record PermissionCheck := {
  pc_file : string;
  permissions : string;
  risk : Risk;
  recommendation : string
}.

(** The key of a [package.json] entry, with its quotes and colon. *)
Definition key (packageName : string) : RegExp.Pattern :=
  RegExp.lit (String RegExp.dquote packageName
              ++ String RegExp.dquote ":").

Definition knownVulnerabilities : list KnownVulnerability :=
  let ws := RegExp.star RegExp.space in
  let dq := RegExp.Char RegExp.dquote in
  let range lo hi := RegExp.Class false [RegExp.CRange lo hi] in
  let zeroOne := RegExp.Class false (RegExp.oneOf "01") in
  [ {| k_package := "lodash";
       k_pattern := RegExp.plain (RegExp.seqs
         [key "lodash"; ws; dq;
          RegExp.star (RegExp.Class true [RegExp.CChar RegExp.dquote]);
          range "0"%char "3"%char; RegExp.Char "."]);
       k_severity := v_high;
       k_title := "Prototype Pollution in lodash";
       k_description :=
         "Versions before 4.17.21 are vulnerable to prototype pollution";
       k_vulnerable := "<4.17.21";
       k_patched := "4.17.21" |};
    {| k_package := "axios";
       k_pattern := RegExp.plain (RegExp.seqs
         [key "axios"; ws; dq; RegExp.lit "0.";
          range "0"%char "1"%char; range "0"%char "9"%char;
          RegExp.Char "."]);
       k_severity := v_moderate;
       k_title := "SSRF in axios";
       k_description := "Server-Side Request Forgery vulnerability";
       k_vulnerable := "<0.21.1";
       k_patched := "0.21.1" |};
    {| k_package := "minimist";
       k_pattern := RegExp.plain (RegExp.seqs
         [key "minimist"; ws; dq; zeroOne; RegExp.Char "."; zeroOne;
          RegExp.Char "."]);
       k_severity := v_critical;
       k_title := "Prototype Pollution in minimist";
       k_description := "Critical prototype pollution vulnerability";
       k_vulnerable := "<1.2.6";
       k_patched := "1.2.6" |} ].

(** [new RegExp(pattern)]: a copy with the source and the flags of
    [pattern] and [lastIndex] 0. *)
Definition newRegExp (re : RegExp.RegExp) : RegExp.RegExp :=
  RegExp.setLastIndex re 0.

Definition found (clock : nat -> N) (vuln : KnownVulnerability)
           (vulnerabilities : list Vulnerability) : Vulnerability :=
  {| id := k_package vuln ++ "-"
           ++ NilZero.string_of_uint
                (N.to_uint (clock (List.length vulnerabilities)));
     v_severity := k_severity vuln;
     package := k_package vuln;
     title := k_title vuln;
     v_description := k_description vuln;
     vulnerable := k_vulnerable vuln;
     patched := k_patched vuln |}.

(** [knownVulnerabilities.forEach(vuln => ...)] for one file.  [clock k]
    is what [Date.now()] returns at the push onto an array of [k]
    elements. *)
Definition checkPackageJson (clock : nat -> N)
           (vulnerabilities : list Vulnerability) (file : ScannedFile)
  : list Vulnerability :=
  fold_left
    (fun vulnerabilities vuln =>
       if fst (RegExp.test (newRegExp (k_pattern vuln)) (content file))
       then (vulnerabilities ++ [found clock vuln vulnerabilities])%list
       else vulnerabilities)
    knownVulnerabilities vulnerabilities.

Definition scanDependencies (clock : nat -> N) (files : list ScannedFile)
  : list Vulnerability :=
  let packageJsonFiles :=
    filter (fun f => JS.endsWith (path f) "package.json") files in
  fold_left (checkPackageJson clock) packageJsonFiles [].

(** The body of the [forEach] of [scanPermissions]. *)
Definition checkPermissions (permissions : list PermissionCheck)
           (file : ScannedFile) : list PermissionCheck :=
  let permissions1 :=
    if JS.includes (content file) "chmod 777"
       || JS.includes (content file) "chmod 0777"
    then (permissions ++
          [ {| pc_file := path file;
               permissions := "777";
               risk := r_high;
               recommendation :=
                 "Use more restrictive permissions like 644 or 755" |} ])%list
    else permissions in
  if JS.includes (content file) "eval("
     && JS.endsWith (path file) ".js"
  then (permissions1 ++
        [ {| pc_file := path file;
             permissions := "eval";
             risk := r_high;
             recommendation :=
               "Avoid using eval() as it can execute arbitrary code" |} ])%list
  else permissions1.

Definition scanPermissions (files : list ScannedFile)
  : list PermissionCheck :=
  fold_left checkPermissions files [].

Local Open Scope Z_scope.

Definition vulnerabilityDeduction (s : VulnerabilitySeverity) : Z :=
  match s with
  | v_critical => 20
  | v_high => 15
  | v_moderate => 10
  | v_low => 5
  end.

Definition secretDeduction (s : Severity) : Z :=
  match s with
  | critical => 25
  | high => 20
  | medium => 10
  | low => 5
  end.

Definition permissionDeduction (r : Risk) : Z :=
  match r with
  | r_high => 15
  | r_medium => 10
  | r_low => 5
  end.

Definition calculateVulnerabilityScore (vulnerabilities : list Vulnerability)
  : Z :=
  if (List.length vulnerabilities =? 0)%nat then 100
  else
    let deduction :=
      fold_left (fun deduction vuln =>
                   deduction + vulnerabilityDeduction (v_severity vuln))
                vulnerabilities 0 in
    Z.max 0 (100 - deduction).

Definition calculateSecretScore (secrets : list SecretDetection) : Z :=
  if (List.length secrets =? 0)%nat then 100
  else
    let deduction :=
      fold_left (fun deduction secret =>
                   deduction + secretDeduction (severity secret))
                secrets 0 in
    Z.max 0 (100 - deduction).

Definition calculatePermissionScore (permissions : list PermissionCheck)
  : Z :=
  if (List.length permissions =? 0)%nat then 100
  else
    let deduction :=
      fold_left (fun deduction perm =>
                   deduction + permissionDeduction (risk perm))
                permissions 0 in
    Z.max 0 (100 - deduction).

Definition calculateDependencyScore (vulnerabilities : list Vulnerability)
  : Z :=
  calculateVulnerabilityScore vulnerabilities.

Definition getRating (score : Q) : Rating :=
  if Qle_bool 90 score then excellent
  else if Qle_bool 70 score then good
  else if Qle_bool 50 score then fair
  else if Qle_bool 30 score then poor
  else r_critical.

(** The options after the defaults have been merged in. *)
Record SecurityScanOptions := {
  o_scanSecrets : bool;
  o_scanDependencies : bool;
  o_scanPermissions : bool;
  o_scanCode : bool
}.

Definition defaultOptions : SecurityScanOptions :=
  {| o_scanSecrets := true; o_scanDependencies := true;
     o_scanPermissions := true; o_scanCode := true |}.

Record ScoreBreakdown := {
  s_vulnerabilities : Z;
  s_secrets : Z;
  s_permissions : Z;
  s_dependencies : Z
}.

Record DependencyInfo := { d_name : string; d_version : string }.

Record SecurityAnalysis := {
  overallRating : Rating;
  vulnerabilities : list Vulnerability;
  secrets : list SecretDetection;
  permissions_ : list PermissionCheck;
  dependencies : list DependencyInfo;
  scoreBreakdown : ScoreBreakdown
}.

(** The mean of the four scores, a double. *)
Definition overallScore (b : ScoreBreakdown) : Q :=
  JS.fdiv Double.round
    (inject_Z (s_vulnerabilities b + s_secrets b + s_permissions b
               + s_dependencies b)) 4.

Definition scan (clock : nat -> N) (options : SecurityScanOptions)
           (files : list ScannedFile) : SecurityAnalysis :=
  let secrets :=
    if o_scanSecrets options then scanForSecrets files else [] in
  let vulnerabilities :=
    if o_scanDependencies options then scanDependencies clock files
    else [] in
  let permissions :=
    if o_scanPermissions options then scanPermissions files else [] in
  let scoreBreakdown :=
    {| s_vulnerabilities := calculateVulnerabilityScore vulnerabilities;
       s_secrets := calculateSecretScore secrets;
       s_permissions := calculatePermissionScore permissions;
       s_dependencies := calculateDependencyScore vulnerabilities |} in
  {| overallRating := getRating (overallScore scoreBreakdown);
     vulnerabilities := vulnerabilities;
     secrets := secrets;
     permissions_ := permissions;
     dependencies := [];
     scoreBreakdown := scoreBreakdown |}.

(** *** What the properties of the scans are stated with *)

(** What a pattern keeps whatever its [lastIndex] is. *)
Definition label (p : SecretPattern) : string * Severity * string :=
  (name p, p_severity p, p_description p).

Definition labelOf (d : SecretDetection) : string * Severity * string :=
  (type d, severity d, description d).

(** The run of [scanForSecrets] from the state [ps] of the expressions. *)
Definition scanFrom (ps : list SecretPattern) (fs : list ScannedFile)
  : Scan :=
  fold_left scanFile fs (ps, []).

Definition lineCount (f : ScannedFile) : nat :=
  List.length (JS.split JS.LF (content f)).

(** The rows of a table that a mask selects, in the order of the table:
    no row is selected twice. *)
Fixpoint selected {A : Type} (mask : list bool) (rows : list A) : list A :=
  match mask, rows with
  | hit :: mask', row :: rows' =>
      if hit then row :: selected mask' rows' else selected mask' rows'
  | _, _ => []
  end.

(** The finding [scanForSecrets] pushes for the pattern [p]. *)
Definition findingOf (filePath : string) (lineNumber : nat)
           (p : SecretPattern) : SecretDetection :=
  {| type := name p; file := filePath; line := lineNumber;
     severity := p_severity p; description := p_description p |}.

(** A report that has, for each line in turn, one finding for each
    pattern the mask of the line selects; the first line has index
    [lineIndex] and so the number [lineIndex + 1]. *)
Fixpoint linesReport (filePath : string) (lineIndex : nat)
         (masks : list (list bool)) : list SecretDetection :=
  match masks with
  | [] => []
  | mask :: masks' =>
      (map (findingOf filePath (lineIndex + 1)) (selected mask secretPatterns)
       ++ linesReport filePath (S lineIndex) masks')%list
  end.

(** The same for each file in turn, its lines numbered from 1. *)
Fixpoint filesReport (fs : list ScannedFile)
         (masks : list (list (list bool))) : list SecretDetection :=
  match fs, masks with
  | f :: fs', fileMasks :: masks' =>
      (linesReport (path f) 0 fileMasks ++ filesReport fs' masks')%list
  | _, _ => []
  end.

(** One mask for each line of the file, one entry for each pattern. *)
Definition masksFit (f : ScannedFile) (fileMasks : list (list bool))
  : Prop :=
  List.length fileMasks = lineCount f
  /\ Forall (fun mask => List.length mask = List.length secretPatterns)
            fileMasks.

(** The state [p] of an expression only differs from [q] in its
    [lastIndex]. *)
Definition sameBut (p q : SecretPattern) : Prop :=
  label p = label q
  /\ pattern p = RegExp.setLastIndex (pattern q) (RegExp.lastIndex (pattern p)).

(** On the empty line the expression fails and is left as it was
    created. *)
Definition quiet (q : SecretPattern) : Prop :=
  forall n, RegExp.test (RegExp.setLastIndex (pattern q) n) ""
            = (false, pattern q).

(** The last line of the file is empty: the file is empty or ends with
    a line feed. *)
Definition endsWithLineFeed (f : ScannedFile) : bool :=
  String.eqb (content f) "" || JS.endsWith (content f) (String JS.LF "").

(** The sum of the deductions, and the score as the three functions
    compute it from their deduction. *)
Definition total {A : Type} (cost : A -> Z) (l : list A) : Z :=
  fold_right (fun x d => cost x + d) 0 l.

Definition score {A : Type} (cost : A -> Z) (l : list A) : Z :=
  if (List.length l =? 0)%nat then 100
  else Z.max 0 (100 - fold_left (fun d x => d + cost x) l 0).

(** The rating as a function of the sum of the four scores. *)
Definition ratingOfSum (n : Z) : Rating :=
  if 360 <=? n then excellent
  else if 280 <=? n then good
  else if 200 <=? n then fair
  else if 120 <=? n then poor
  else r_critical.

Definition ratingAgrees (k : nat) : bool :=
  match getRating (JS.fdiv Double.round (inject_Z (Z.of_nat k)) 4),
        ratingOfSum (Z.of_nat k) with
  | excellent, excellent | good, good | fair, fair | poor, poor
  | r_critical, r_critical => true
  | _, _ => false
  end.

Definition permissionFindingOk (c : PermissionCheck) : Prop :=
  risk c = r_high
  /\ (permissions c = "777"%string
      \/ (permissions c = "eval"%string
          /\ JS.endsWith (pc_file c) ".js" = true)).

Definition isPackageJson (f : ScannedFile) : bool :=
  JS.endsWith (path f) "package.json".

(** A finding without its [id]. *)
Definition advisory (v : Vulnerability) :=
  (package v, v_severity v, title v, v_description v, vulnerable v, patched v).

Definition advisoryOf (k : KnownVulnerability) :=
  (k_package k, k_severity k, k_title k, k_description k, k_vulnerable k,
   k_patched k).

(** The advisories whose expression matches the content of [f]. *)
Definition advisoriesFor (f : ScannedFile) :=
  map advisoryOf
    (filter (fun k => fst (RegExp.test (newRegExp (k_pattern k)) (content f)))
            knownVulnerabilities).

(** *** Inputs *)

(** A one-line file with an AWS access key, closed by a line feed. *)
Definition keyFile (filePath : string) : ScannedFile :=
  {| path := filePath;
     content := "AKIA1234567890ABCDEF" ++ String JS.LF "" |}.

Definition fiveKeyFiles : list ScannedFile :=
  map keyFile ["a.js"; "b.js"; "c.js"; "d.js"; "e.js"].

Definition midnight : nat -> N := fun _ => 0%N.

End SecurityReport.

(* ================================================================== *)
(** ** The history store: the two readers, [getAnalysisById] and
       [getHistorySummary] *)

Module HistoryQueries.
Import HistoryService.

(** [history.find(entry => entry.id === id)].  [None] stands for both
    [undefined] (no such entry) and the [null] of the [catch] branch (a
    file whose value has no [find]); the route tests [!analysis]. *)
Definition getAnalysisById (d : Disk) (ident : string)
  : option HistoryEntry :=
  match loadHistory d with
  | JOther => None
  | JArray history =>
      find (fun entry => String.eqb (id entry) ident) history
  end.

Record HistorySummary := {
  s_id : string;
  s_repositoryName : string;
  s_repositoryFullName : string;
  s_repositoryUrl : string;
  s_status : string;
  s_timestamp : string;
  s_duration : nat;
  s_summary : string
}.

Definition summaryOf (entry : HistoryEntry) : HistorySummary :=
  {| s_id := id entry;
     s_repositoryName := repositoryName entry;
     s_repositoryFullName := repositoryFullName entry;
     s_repositoryUrl := repositoryUrl entry;
     s_status := status entry;
     s_timestamp := timestamp entry;
     s_duration := duration entry;
     s_summary := summary entry |}.

(** [history.map(entry => ({...}))], [[]] from the [catch] branch. *)
Definition getHistorySummary (d : Disk) : list HistorySummary :=
  match loadHistory d with
  | JOther => []
  | JArray history => map summaryOf history
  end.

(** No entry of the store has the id [ident]. *)
Definition absent (d : Disk) (ident : string) : bool :=
  forallb (fun entry => negb (String.eqb (id entry) ident)) (persisted d).

(** A writable store that holds the three entries with the ids 2, 1
    and 0. *)
Definition smallDisk : Disk :=
  {| historyFile :=
       Parsed (JArray (map (fun i => makeEntry (Scenarios.sampleAnalysis "old")
                                       (Scenarios.sampleClock (N.of_nat i)))
                           [2; 1; 0]));
     writable := true |}.

End HistoryQueries.

(* ================================================================== *)
(** ** What the collector is compared with: the source files of a tree *)

Module Tree.
Import Collector.

(** An entry the loop of [collectFiles] passes over by its name. *)
Definition skipped (e : Entry) : bool :=
  JS.startsWith (entryName e) "." || JS.arrayIncludes skipDirs (entryName e).

(** The files below [dir] a walk without the two limits would list, in
    directory order: the qualifying files of the directories that are not
    skipped and can be read. *)
Fixpoint allFiles (dirPath : string) (dir : Entry) {struct dir}
  : list Metrics.SourceFile :=
  match dir with
  | DirEntry _ (Some entries) =>
      (fix forEntries (es : list Entry) : list Metrics.SourceFile :=
         match es with
         | [] => []
         | entry :: es' =>
             ((if skipped entry then []
               else
                 match entry with
                 | DirEntry _ _ =>
                     allFiles (Path.join dirPath (entryName entry)) entry
                 | FileEntry name (Some size) (Some content) =>
                     if qualifies entry then
                       [ {| Metrics.path := Path.join dirPath name;
                            Metrics.content := content;
                            Metrics.size := size |} ]
                     else []
                 | _ => []
                 end) ++ forEntries es')%list
         end) entries
  | _ => []
  end.

(** The contribution of one entry of the directory [dirPath]. *)
Definition listed (dirPath : string) (entry : Entry)
  : list Metrics.SourceFile :=
  if skipped entry then []
  else
    match entry with
    | DirEntry _ _ => allFiles (Path.join dirPath (entryName entry)) entry
    | FileEntry name (Some size) (Some content) =>
        if qualifies entry then
          [ {| Metrics.path := Path.join dirPath name;
               Metrics.content := content;
               Metrics.size := size |} ]
        else []
    | _ => []
    end.

(** The number of directory levels of [dir], itself included, skipped
    entries left out. *)
Fixpoint height (dir : Entry) {struct dir} : nat :=
  match dir with
  | DirEntry _ (Some entries) =>
      S ((fix highest (es : list Entry) : nat :=
            match es with
            | [] => 0
            | entry :: es' =>
                Nat.max (if skipped entry then 0 else height entry)
                        (highest es')
            end) entries)
  | DirEntry _ None => 1
  | _ => 0
  end.

Definition heightOf (entry : Entry) : nat :=
  if skipped entry then 0 else height entry.

(** The largest number of qualifying files that lie directly in the
    directories of one chain of nested directories from [dir] down. *)
Fixpoint chainFiles (dir : Entry) {struct dir} : nat :=
  match dir with
  | DirEntry _ (Some entries) =>
      List.length (filter qualifies entries)
      + (fix longest (es : list Entry) : nat :=
           match es with
           | [] => 0
           | entry :: es' => Nat.max (chainFiles entry) (longest es')
           end) entries
  | _ => 0
  end.

(** An entry name as [readdir] gives it: not empty and without a
    separator. *)
Fixpoint hasSeparator (s : string) : bool :=
  match s with
  | EmptyString => false
  | String c rest => Ascii.eqb c Path.sep || hasSeparator rest
  end.

Definition plainName (name : string) : bool :=
  negb (String.eqb name "") && negb (hasSeparator name).

(** The trailing separators dropped, as [Path.basename] starts. *)
Fixpoint dropTrailing (s : string) : string :=
  match s with
  | EmptyString => EmptyString
  | String c rest =>
      match dropTrailing rest with
      | EmptyString => if Ascii.eqb c Path.sep then EmptyString
                       else String c EmptyString
      | rest' => String c rest'
      end
  end.

(** Three properties of a tree, for every state the walk can reach it
    in: within the limits it is collected whole; what is collected of it
    is among its files; and the length after it is bounded. *)
Definition complete (dir : Entry) : Prop :=
  forall dirPath depth files,
    depth + height dir <= 11 ->
    List.length files + List.length (allFiles dirPath dir) <= 5000 ->
    collectFiles dirPath depth dir files
    = (files ++ allFiles dirPath dir)%list.

Definition sound (dir : Entry) : Prop :=
  forall dirPath depth files,
    exists added,
      collectFiles dirPath depth dir files = (files ++ added)%list
      /\ incl added (allFiles dirPath dir)
      /\ List.length added <= List.length (allFiles dirPath dir).

Definition capped (dir : Entry) : Prop :=
  forall dirPath depth files,
    List.length (collectFiles dirPath depth dir files)
    <= Nat.max (List.length files) (5000 + chainFiles dir).

(** A repository with a source directory, a hidden directory, a
    dependency directory, an unreadable directory and an oversized
    file. *)
Definition sampleTree : Entry :=
  DirEntry "repo"
    (Some [ FileEntry "index.js" (Some 12%N) (Some "let a = 1;");
            FileEntry "README.md" (Some 5%N) (Some "hello");
            DirEntry ".git" (Some [FileEntry "hook.js" (Some 1%N) (Some "x")]);
            DirEntry "node_modules"
              (Some [FileEntry "dep.js" (Some 1%N) (Some "y")]);
            DirEntry "src"
              (Some [ FileEntry "main.py" (Some 9%N) (Some "print(1)");
                      FileEntry "big.ts" (Some (2 * 1024 * 1024)%N)
                                (Some "z");
                      DirEntry "locked" None ]);
            OtherEntry "socket" ]).

End Tree.

(* ================================================================== *)
(** ** The analyze handler: [largestFiles], the structure tree with
       [countDirectories] and [calculateMaxDepth], and
       [generateAIInsights] *)

Module Report.
Import Metrics.

Record LargeFile := {
  lf_path : string;
  lf_size : N;
  lf_lines : nat;
  lf_language : string
}.

Definition bySizeDesc (a b : SourceFile) : Z :=
  (Z.of_N (size b) - Z.of_N (size a))%Z.

Definition toLargeFile (f : SourceFile) : LargeFile :=
  {| lf_path := path f;
     lf_size := size f;
     lf_lines := List.length (JS.split JS.LF (content f));
     lf_language := getLanguageFromExtension (Path.extname (path f)) |}.

(** [files.sort((a, b) => b.size - a.size).slice(0, 10).map(...)] *)
Definition largestFiles (files : list SourceFile) : list LargeFile :=
  map toLargeFile (JS.slice0 10 (JS.sort bySizeDesc files)).

(** *** The structure tree *)

(** What [readdir] and [stat] answer below the clone: an entry is a
    directory with its listing, or anything else with the size [stat]
    reports; [None] stands for a rejected call. *)
#[warnings="-register-all"]
Inductive FsEntry :=
| Plain (name : string) (stat : option N)
| Directory (name : string) (listing : option (list FsEntry)).

Definition fsName (e : FsEntry) : string :=
  match e with
  | Plain name _ => name
  | Directory name _ => name
  end.

(** A node of the result: [type] is ['file'] (no [children] property)
    or ['directory']. *)
#[warnings="-register-all"]
Inductive Node :=
| FileNode (name path : string) (size : N)
| DirectoryNode (name path : string) (children : list Node).

Definition ignored (e : FsEntry) : bool :=
  JS.startsWith (fsName e) "." || String.eqb (fsName e) "node_modules".

(** [walkDirectory(dirPath, node)]: the children pushed onto [node].
    A rejected [readdir] leaves the node without children; a rejected
    [stat] leaves the loop of its directory, which keeps the children
    pushed so far. *)
Fixpoint walkDirectory (dirPath : string) (dir : FsEntry) {struct dir}
  : list Node :=
  match dir with
  | Directory _ (Some entries) =>
      (fix forEntries (es : list FsEntry) : list Node :=
         match es with
         | [] => []
         | entry :: es' =>
             if ignored entry then forEntries es'
             else
               let fullPath := Path.join dirPath (fsName entry) in
               match entry with
               | Directory name _ =>
                   DirectoryNode name fullPath (walkDirectory fullPath entry)
                   :: forEntries es'
               | Plain name (Some size) =>
                   FileNode name fullPath size :: forEntries es'
               | Plain name None => []
               end
         end) entries
  | _ => []
  end.

Definition analyzeRepositoryStructure (repoPath : string) (root : FsEntry)
  : Node :=
  DirectoryNode (Path.basename repoPath) repoPath
                (walkDirectory repoPath root).

Fixpoint countDirectories (node : Node) : nat :=
  match node with
  | FileNode _ _ _ => 0
  | DirectoryNode _ _ children =>
      fold_left (fun count child => count + countDirectories child)
                children 1
  end.

Fixpoint calculateMaxDepth (node : Node) (currentDepth : nat) : nat :=
  match node with
  | FileNode _ _ _ => currentDepth
  | DirectoryNode _ _ children =>
      fold_left (fun maxDepth child =>
                   Nat.max maxDepth
                           (calculateMaxDepth child (currentDepth + 1)))
                children currentDepth
  end.

(** The names of the nodes below [node]. *)
Fixpoint namesBelow (node : Node) : list string :=
  match node with
  | FileNode _ _ _ => []
  | DirectoryNode _ _ children =>
      flat_map (fun child =>
                  match child with
                  | FileNode name _ _ => name :: namesBelow child
                  | DirectoryNode name _ _ => name :: namesBelow child
                  end) children
  end.

(** *** The insights computed from the metrics *)

(** The fields of the handler's [repository] object that the insights
    below read. *)
Record Repository := {
  stars : nat;
  forks : nat;
  openIssues : nat
}.

(** The result without [summary], [purpose] and [codeQualityInsights]
    (formatted with [toLocaleString] and [toFixed]) and without the
    constant lists. *)
Record Insights := {
  techStack : list string;
  strengths : list string;
  weaknesses : list string;
  complexity : string;
  maturity : string;
  keyFeatures : list string;
  architectureInsights : list string
}.

Definition decimal (n : nat) : string :=
  NilZero.string_of_uint (Nat.to_uint n).

Definition primaryLanguage (codeAnalysis : CodeMetrics) : string :=
  match languages codeAnalysis with
  | l :: _ => if String.eqb (language l) "" then "Unknown" else language l
  | [] => "Unknown"
  end.

Definition hasTests (codeAnalysis : CodeMetrics) : bool :=
  existsb (fun l => JS.includes (JS.toLowerCase (language l)) "test")
          (languages codeAnalysis).

Section Numbers.
Variable rnd : Q -> Q.

(** [commentLines < codeLines * 0.1], the literal and the product
    rounded. *)
Definition fewComments (codeAnalysis : CodeMetrics) : bool :=
  negb (Qle_bool (JS.fmul rnd (JS.ofNat (codeLines codeAnalysis))
                              (rnd (1 # 10)))
                 (JS.ofNat (commentLines codeAnalysis))).

Definition generateAIInsights (repository : Repository)
           (codeAnalysis : CodeMetrics) : Insights :=
  {| techStack := map language (JS.slice0 5 (languages codeAnalysis));
     strengths :=
       [ "Well-organized codebase with "
           ++ decimal (totalFiles codeAnalysis) ++ " files";
         "Active development with " ++ decimal (stars repository)
           ++ " stars";
         "Community engagement with " ++ decimal (forks repository)
           ++ " forks";
         if hasTests codeAnalysis then "Includes test coverage"
         else "Growing project" ];
     weaknesses :=
       filter (fun s => negb (String.eqb s ""))
         [ if fewComments codeAnalysis
           then "Could benefit from more code comments" else "";
           if negb (hasTests codeAnalysis)
           then "Consider adding automated tests" else "";
           if 50 <? openIssues repository
           then "High number of open issues" else "" ];
     complexity :=
       if totalFiles codeAnalysis <? 50 then "beginner"
       else if totalFiles codeAnalysis <? 200 then "intermediate"
       else "advanced";
     maturity :=
       if 1000 <? stars repository then "mature"
       else if 100 <? stars repository then "stable"
       else "development";
     keyFeatures :=
       [ primaryLanguage codeAnalysis ++ " implementation";
         decimal (totalFiles codeAnalysis) ++ " code files";
         "Multiple language support" ];
     architectureInsights :=
       [ "Primary language: " ++ primaryLanguage codeAnalysis;
         "Multi-language project with "
           ++ decimal (List.length (languages codeAnalysis))
           ++ " languages" ] |}.
End Numbers.

(** The names [getLanguageFromExtension] can return. *)
Definition languageNames : list string :=
  (map snd languageMap ++ ["Other"])%list.

(** Sums over the language entries. *)
Definition sumFiles (ls : list LanguageStatistics) : nat :=
  fold_right (fun l n => files l + n) 0 ls.

Definition sumLinesOf (ls : list LanguageStatistics) : nat :=
  fold_right (fun l n => lines l + n) 0 ls.

Definition sumBytes (ls : list LanguageStatistics) : N :=
  fold_right (fun l n => (bytes l + n)%N) 0%N ls.

Definition totalBytes (fs : list SourceFile) : N :=
  fold_left (fun sum f => (sum + size f)%N) fs 0%N.

(** *** What the properties are stated with *)

(** The order a comparator that subtracts keys sorts into. *)
Definition descending {A : Type} (key : A -> Z) (a b : A) : Prop :=
  (key b <= key a)%Z.

Definition filesIn (m : list (string * LangStat)) : nat :=
  fold_right (fun e n => st_files (snd e) + n) 0 m.

Definition bytesIn (m : list (string * LangStat)) : N :=
  fold_right (fun e n => (st_bytes (snd e) + n)%N) 0%N m.

(** What holds of the map of language statistics after any number of
    files. *)
Definition entryOk (e : string * LangStat) : Prop :=
  1 <= st_files (snd e) <= st_lines (snd e) /\ In (fst e) languageNames.

Record statsOk (t : Totals) : Prop := {
  ok_keys : NoDup (map fst (t_languageStats t));
  ok_entries : Forall entryOk (t_languageStats t)
}.

(** A name the structure walk does not pass over. *)
Definition shown (name : string) : Prop :=
  JS.startsWith name "." = false /\ name <> "node_modules".

(** Every [stat] of a listed entry that is not ignored succeeds. *)
Definition statsSucceed (es : list FsEntry) : bool :=
  forallb (fun e => match e with
                    | Plain _ None => ignored e
                    | _ => true
                    end) es.

End Report.

(* ================================================================== *)
(** ** [CodeParser.extractFunctionBody] *)

Module Bodies.

(** [content.substring(startIndex)]: what is left of [content] from
    [startIndex] on. *)
Definition from (startIndex : nat) (content : string) : string :=
  String.substring startIndex (String.length content - startIndex) content.

(** The [while] loop of [extractFunctionBody] on the text that is left:
    the number of characters it passes. *)
Fixpoint scanBraces (braceCount : Z) (rest : string) : nat :=
  if (0 <? braceCount)%Z then
    match rest with
    | EmptyString => 0
    | String c rest' =>
        let braceCount1 :=
          if Ascii.eqb c "{" then (braceCount + 1)%Z else braceCount in
        let braceCount2 :=
          if Ascii.eqb c "}" then (braceCount1 - 1)%Z else braceCount1 in
        S (scanBraces braceCount2 rest')
    end
  else 0.

(** [extractFunctionBody(startIndex, content)] *)
Definition extractFunctionBody (startIndex : nat) (content : string)
  : string :=
  let endIndex := startIndex + scanBraces 1 (from startIndex content) in
  String.substring startIndex (endIndex - startIndex) content.

(** The brace count after the character [c], and after the text [s]. *)
Definition next (braceCount : Z) (c : ascii) : Z :=
  (if Ascii.eqb c "{" then braceCount + 1
   else if Ascii.eqb c "}" then braceCount - 1
   else braceCount)%Z.

Fixpoint braceLevel (braceCount : Z) (s : string) : Z :=
  match s with
  | EmptyString => braceCount
  | String c s' => braceLevel (next braceCount c) s'
  end.

(** The first [k] characters of [s]. *)
Definition take (k : nat) (s : string) : string := String.substring 0 k s.

End Bodies.

(** ** The line classifiers side by side *)

Module Lines.

Definition isBlank (line : string) : bool := String.eqb (JS.trim line) "".

Definition blanks (lines : list string) : nat :=
  List.length (filter isBlank lines).

(** The states of the two classifiers that follow block comments, after
    the same lines: the same blank count and flag, and the classifier that
    also knows [#] and [--] has the comments of the other and more. *)
Definition together (p : CodeParser.LineState) (r : RepositoryAnalyzer.State)
  : Prop :=
  CodeParser.blankLines p = RepositoryAnalyzer.blankLines r
  /\ CodeParser.inMultilineComment p = RepositoryAnalyzer.inMultilineComment r
  /\ CodeParser.commentLines p <= RepositoryAnalyzer.commentLines r
  /\ RepositoryAnalyzer.codeLines r <= CodeParser.codeLines p.

(** No code line so far, no complexity added so far. *)
Definition quietState (st : RepositoryAnalyzer.State) : Prop :=
  RepositoryAnalyzer.codeLines st = 0 -> RepositoryAnalyzer.complexity st = 1.

(** Two comment lines full of keywords. *)
Definition commentedOut : string :=
  "// if (a && b) { while (c) { } }" ++ String JS.LF "# for x in y: if z".

End Lines.

(* ################################################################## *)
(** * Properties *)

(* ================================================================== *)
(** ** The built-ins on small inputs *)

Module BuiltinFacts.

Example split_trailing_newline :
  JS.split JS.LF ("a" ++ String JS.LF ("b" ++ String JS.LF ""))
  = ["a"; "b"; ""].
Proof. reflexivity. Qed.

Example split_empty : JS.split JS.LF "" = [""].
Proof. reflexivity. Qed.

Example trim_both_ends : JS.trim "   // note  " = "// note".
Proof. reflexivity. Qed.

Example extname_cases :
  map Path.extname
      ["index.js"; "src/util/a.test.TS"; ".gitignore"; "Makefile";
       "lib.d/readme"; "x."; ".."]
  = [".js"; ".TS"; ""; ""; ""; "."; ""].
Proof. reflexivity. Qed.

Example language_cases :
  map (fun p => Metrics.getLanguageFromExtension (Path.extname p))
      ["a.py"; "b.cc"; "c.JS"; "d"]
  = ["Python"; "C++"; "Other"; "Other"].
Proof. reflexivity. Qed.

(** [/a*/g] on [aaa baab]: greedy matches, and an empty match wherever no
    [a] starts. *)
Example match_star :
  RegExp.matchAll "aaa baab" (RegExp.g (RegExp.star (RegExp.Char "a")))
  = [(0, 3); (3, 3); (4, 4); (5, 7); (7, 7); (8, 8)].
Proof. vm_compute. reflexivity. Qed.

(** [/\bif\b/g] does not match inside [elif] or [iffy]. *)
Example match_word_boundary :
  RegExp.matchAll "if elif iffy (if)"
    (RegExp.g (RegExp.seqs [RegExp.WordBoundary; RegExp.lit "if";
                            RegExp.WordBoundary]))
  = [(0, 2); (14, 16)].
Proof. vm_compute. reflexivity. Qed.

(** A quantifier gives characters back: [/a{2,}ab/] on [aaaab]. *)
Example match_backtracks :
  RegExp.matchAll "aaaab"
    (RegExp.g (RegExp.seqs [RegExp.atLeast 2 (RegExp.Char "a");
                            RegExp.lit "ab"]))
  = [(0, 5)].
Proof. vm_compute. reflexivity. Qed.

(** [test] on a global expression resumes at [lastIndex] and resets it to
    0 when it fails. *)
Example test_is_stateful :
  let re0 := RegExp.gi (RegExp.lit "key") in
  let (hit1, re1) := RegExp.test re0 "API KEY" in
  let (hit2, re2) := RegExp.test re1 "API KEY" in
  let (hit3, re3) := RegExp.test re2 "API KEY" in
  (hit1, RegExp.lastIndex re1, hit2, RegExp.lastIndex re2,
   hit3, RegExp.lastIndex re3)
  = (true, 7, false, 0, true, 7).
Proof. vm_compute. reflexivity. Qed.

Example getFileExtension_cases :
  map CodeAnalyzer.getFileExtension
      ["a.JS"; "x/y.tar.gz"; "noext"; "x."; ".bashrc"]
  = [".js"; ".gz"; ""; ""; ".bashrc"].
Proof. vm_compute. reflexivity. Qed.

(** A block comment of three lines, a code line with a trailing comment,
    a blank line and a line comment, in a TypeScript file. *)
Example analyzeLines_block_comment :
  let c := CodeAnalyzer.analyzeLines
             ["/* a"; "b"; "c */"; "x = 1; // y"; ""; "// z"] "m.ts" in
  (CodeAnalyzer.code c, CodeAnalyzer.comments c, CodeAnalyzer.blank c)
  = (1, 4, 1).
Proof. vm_compute. reflexivity. Qed.

Example collector_skips :
  map Metrics.path
    (Collector.analyzeCodeFiles
       (Collector.DirEntry "repo" (Some
          [ Collector.FileEntry "main.js" (Some 5%N) (Some "x");
            Collector.DirEntry "src" (Some
              [ Collector.FileEntry "A.TS" (Some 3%N) (Some "y");
                Collector.FileEntry "big.py" (Some 2000000%N) (Some "z");
                Collector.FileEntry "locked.go" (Some 1%N) None;
                Collector.FileEntry "notes.md" (Some 1%N) (Some "m") ]);
            Collector.DirEntry "node_modules" (Some
              [ Collector.FileEntry "dep.js" (Some 1%N) (Some "d") ]);
            Collector.DirEntry "private" None;
            Collector.FileEntry ".hidden.js" (Some 1%N) (Some "h") ])))
  = ["main.js"; "src/A.TS"].
Proof. vm_compute. reflexivity. Qed.

End BuiltinFacts.

(* ================================================================== *)
(** ** Double precision *)

Module DoubleFacts.
Local Open Scope Q_scope.

Ltac qcompare H :=
  first [apply Qeq_alt in H | apply Qlt_alt in H | apply Qgt_alt in H].
Import Double.

Lemma abs_le_iff x y : Qabs x <= y <-> - y <= x /\ x <= y.
Proof. apply Qabs_Qle_condition. Qed.

Lemma nearestEven_error y :
  Qabs (inject_Z (nearestEven y) - y) <= 1 # 2.
Proof.
  unfold nearestEven.
  pose proof (Qfloor_le y) as Hlo. pose proof (Qlt_floor y) as Hhi.
  rewrite inject_Z_plus in Hhi. change (inject_Z 1) with 1 in Hhi.
  set (f := Qfloor y) in *.
  apply abs_le_iff.
  destruct (Qcompare (y - inject_Z f) (1 # 2)) eqn:Hc.
  - apply Qeq_alt in Hc.
    destruct (Z.even f);
      [|rewrite inject_Z_plus; change (inject_Z 1) with 1]; lra.
  - apply Qlt_alt in Hc. lra.
  - apply Qgt_alt in Hc.
    rewrite inject_Z_plus. change (inject_Z 1) with 1. lra.
Qed.

Lemma two_pow_pos k : 0 < 2 ^ k.
Proof. apply Qpower_0_lt. reflexivity. Qed.

Lemma two_pow_add j k : 2 ^ (j + k) == 2 ^ j * 2 ^ k.
Proof. apply Qpower_plus. discriminate. Qed.

Lemma two_pow_log2 n : (0 < n)%Z -> 2 ^ (Z.log2 n) <= inject_Z n.
Proof.
  intros Hn. pose proof (Z.log2_spec n Hn) as [Hlo _].
  rewrite <- (Zpower_Qpower 2) by apply Z.log2_nonneg.
  now rewrite <- Zle_Qle.
Qed.

Lemma log2_two_pow n : (0 < n)%Z -> inject_Z n <= 2 ^ (Z.log2 n + 1).
Proof.
  intros Hn. pose proof (Z.log2_spec n Hn) as [_ Hhi].
  assert (H0 : (0 <= Z.log2 n + 1)%Z) by (pose proof (Z.log2_nonneg n); lia).
  rewrite <- (Zpower_Qpower 2) by exact H0.
  rewrite <- Zle_Qle. unfold Z.succ in Hhi. lia.
Qed.

(** [exponent] finds the binade. *)
Lemma exponent_le a : 0 < a -> 2 ^ (exponent a) <= a.
Proof.
  intros Ha. unfold exponent.
  set (n := Qnum a). set (d := Zpos (Qden a)).
  destruct (Qle_bool (2 ^ (Z.log2 n - Z.log2 d)) a) eqn:Hb.
  - now apply Qle_bool_iff.
  - assert (Hn : (0 < n)%Z).
    { unfold n. destruct a as [num den]. unfold Qlt in Ha. simpl in *. lia. }
    assert (Hd : (0 < d)%Z) by (unfold d; lia).
    pose proof (two_pow_log2 n Hn) as H1.
    pose proof (log2_two_pow d Hd) as H2.
    assert (Ea : a == inject_Z n / inject_Z d).
    { unfold n, d. destruct a as [num den]. simpl. apply Qmake_Qdiv. }
    replace (Z.log2 n - Z.log2 d - 1)%Z
      with (Z.log2 n + - (Z.log2 d + 1))%Z by lia.
    rewrite two_pow_add, Qpower_opp, Ea.
    pose proof (two_pow_pos (Z.log2 n)) as P1.
    pose proof (two_pow_pos (Z.log2 d + 1)) as P2.
    assert (Dpos : 0 < inject_Z d).
    { change 0 with (inject_Z 0). now rewrite <- Zlt_Qlt. }
    set (A := 2 ^ Z.log2 n) in *. set (B := 2 ^ (Z.log2 d + 1)) in *.
    set (N := inject_Z n) in *. set (D := inject_Z d) in *.
    apply Qle_shift_div_l; [exact Dpos|].
    assert (HB : A * / B * B == A) by (field; lra).
    assert (H3 : A * / B * D <= A * / B * B).
    { apply Qmult_le_l.
      - apply Qmult_lt_0_compat; [exact P1 | now apply Qinv_lt_0_compat].
      - exact H2. }
    lra.
Qed.

Lemma exponent_lt a : 0 < a -> a < 2 ^ (exponent a + 1).
Proof.
  intros Ha. unfold exponent.
  set (n := Qnum a). set (d := Zpos (Qden a)).
  destruct (Qle_bool (2 ^ (Z.log2 n - Z.log2 d)) a) eqn:Hb.
  - assert (Hn : (0 < n)%Z).
    { unfold n. destruct a as [num den]. unfold Qlt in Ha. simpl in *. lia. }
    assert (Hd : (0 < d)%Z) by (unfold d; lia).
    pose proof (Z.log2_spec n Hn) as [_ H1].
    pose proof (two_pow_log2 d Hd) as H2.
    assert (H1q : inject_Z n < 2 ^ (Z.log2 n + 1)).
    { assert (H0 : (0 <= Z.log2 n + 1)%Z)
        by (pose proof (Z.log2_nonneg n); lia).
      rewrite <- (Zpower_Qpower 2) by exact H0.
      rewrite <- Zlt_Qlt. exact H1. }
    assert (Ea : a == inject_Z n / inject_Z d).
    { unfold n, d. destruct a as [num den]. simpl. apply Qmake_Qdiv. }
    replace (Z.log2 n - Z.log2 d + 1)%Z
      with ((Z.log2 n + 1) + - Z.log2 d)%Z by lia.
    rewrite two_pow_add, Qpower_opp, Ea.
    pose proof (two_pow_pos (Z.log2 n + 1)) as P1.
    pose proof (two_pow_pos (Z.log2 d)) as P2.
    assert (Dpos : 0 < inject_Z d).
    { change 0 with (inject_Z 0). now rewrite <- Zlt_Qlt. }
    set (A := 2 ^ (Z.log2 n + 1)) in *. set (B := 2 ^ Z.log2 d) in *.
    set (N := inject_Z n) in *. set (D := inject_Z d) in *.
    apply Qlt_shift_div_r; [exact Dpos|].
    assert (HB : A * / B * B == A) by (field; lra).
    assert (H3 : A * / B * B <= A * / B * D).
    { apply Qmult_le_l.
      - apply Qmult_lt_0_compat; [exact P1 | now apply Qinv_lt_0_compat].
      - exact H2. }
    lra.
  - replace (Z.log2 n - Z.log2 d - 1 + 1)%Z
      with (Z.log2 n - Z.log2 d)%Z by lia.
    destruct (Qlt_le_dec a (2 ^ (Z.log2 n - Z.log2 d))) as [H|H];
      [exact H|].
    apply Qle_bool_iff in H. congruence.
Qed.
(** Rounding to double precision has relative error at most 2^-53. *)
Lemma round_error x : Qabs (round x - x) <= unitRoundoff * Qabs x.
Proof.
  unfold round, roundPos.
  destruct (Qeq_bool x 0) eqn:Hz.
  - apply Qeq_bool_iff in Hz. rewrite Hz. apply abs_le_iff.
    change (Qabs 0) with 0. split; [|]; unfold unitRoundoff; lra.
  - assert (Hx : ~ x == 0) by now apply Qeq_bool_neq.
    set (a := Qabs x).
    assert (Ha : 0 < a).
    { unfold a. destruct (Qlt_le_dec 0 (Qabs x)) as [H|H]; [exact H|].
      exfalso. apply Hx. apply Qabs_Qle_condition in H. lra. }
    set (k := (precision - 1 - exponent a)%Z).
    pose proof (nearestEven_error (a * 2 ^ k)) as Hm.
    set (m := inject_Z (nearestEven (a * 2 ^ k))) in *.
    pose proof (exponent_le a Ha) as He.
    pose proof (two_pow_pos k) as Pk.
    pose proof (two_pow_pos (- k)) as Pk'.
    assert (Hinv : 2 ^ k * 2 ^ (- k) == 1).
    { rewrite <- two_pow_add. replace (k + - k)%Z with 0%Z by lia.
      reflexivity. }
    assert (HE : 2 ^ (exponent a) == 2 ^ (precision - 1) * 2 ^ (- k)).
    { rewrite <- two_pow_add. unfold k.
      replace (precision - 1 + - (precision - 1 - exponent a))%Z
        with (exponent a) by lia. reflexivity. }
    assert (Hu : unitRoundoff * 2 ^ (precision - 1) == 1 # 2) by reflexivity.
    set (P := 2 ^ k) in *. set (P' := 2 ^ (- k)) in *.
    set (E := 2 ^ exponent a) in *. set (T := 2 ^ (precision - 1)) in *.
    set (u := unitRoundoff) in *.
    assert (Hu0 : 0 < u) by reflexivity.
    apply abs_le_iff in Hm.
    assert (Hr : - (u * a) <= m * P' - a /\ m * P' - a <= u * a).
    { assert (H1 : (m - a * P) * P' == m * P' - a).
      { setoid_replace ((m - a * P) * P') with (m * P' - a * (P * P')) by ring.
        rewrite Hinv. ring. }
      assert (H2 : u * E == (1 # 2) * P').
      { rewrite HE. setoid_replace (u * (T * P')) with ((u * T) * P') by ring.
        rewrite Hu. reflexivity. }
      assert (H3 : u * E <= u * a) by (apply Qmult_le_l; assumption).
      assert (H4 : - ((1 # 2) * P') <= (m - a * P) * P'
                   /\ (m - a * P) * P' <= (1 # 2) * P').
      { split; nra. }
      lra. }
    destruct (Qle_bool 0 x) eqn:Hs.
    + apply Qle_bool_iff in Hs.
      assert (Hax : a == x) by (unfold a; now apply Qabs_pos).
      apply abs_le_iff. fold a. lra.
    + assert (Hneg : x < 0).
      { destruct (Qlt_le_dec x 0) as [H|H]; [exact H|].
        apply Qle_bool_iff in H. congruence. }
      assert (Hax : a == - x) by (unfold a; apply Qabs_neg; lra).
      apply abs_le_iff. fold a. lra.
Qed.

Lemma nearestEven_bounds y :
  (Qfloor y <= nearestEven y <= Qfloor y + 1)%Z.
Proof.
  unfold nearestEven.
  destruct (Qcompare (y - inject_Z (Qfloor y)) (1 # 2)); [|lia|lia].
  destruct (Z.even (Qfloor y)); lia.
Qed.

Lemma nearestEven_mono y1 y2 :
  y1 <= y2 -> (nearestEven y1 <= nearestEven y2)%Z.
Proof.
  intros H.
  pose proof (Qfloor_resp_le _ _ H) as Hf.
  pose proof (nearestEven_bounds y1) as B1.
  pose proof (nearestEven_bounds y2) as B2.
  destruct (Z.eq_dec (Qfloor y1) (Qfloor y2)) as [E|E]; [|lia].
  unfold nearestEven. rewrite <- E.
  destruct (Qcompare (y1 - inject_Z (Qfloor y1)) (1 # 2)) eqn:C1;
    destruct (Qcompare (y2 - inject_Z (Qfloor y1)) (1 # 2)) eqn:C2;
    try (destruct (Z.even (Qfloor y1))); try lia; exfalso;
    qcompare C1; qcompare C2; lra.
Qed.

Lemma nearestEven_Z n : nearestEven (inject_Z n) = n.
Proof.
  unfold nearestEven. rewrite Qfloor_Z.
  destruct (Qcompare (inject_Z n - inject_Z n) (1 # 2)) eqn:C;
    [exfalso; qcompare C; lra | reflexivity | exfalso; qcompare C; lra].
Qed.

Lemma two_pow_le j k : (j <= k)%Z -> 2 ^ j <= 2 ^ k.
Proof. intros H. apply Qpower_le_compat_l; [exact H | discriminate]. Qed.

Lemma two_pow_lt_inv j k : 2 ^ j < 2 ^ k -> (j < k)%Z.
Proof.
  intros H. apply (Qpower_lt_compat_l_inv 2); [exact H | reflexivity].
Qed.

Lemma exponent_mono a b : 0 < a -> a <= b -> (exponent a <= exponent b)%Z.
Proof.
  intros Ha Hab.
  pose proof (exponent_le a Ha) as H1.
  assert (Hb : 0 < b) by lra.
  pose proof (exponent_lt b Hb) as H2.
  assert (H : 2 ^ exponent a < 2 ^ (exponent b + 1)) by lra.
  apply two_pow_lt_inv in H. lia.
Qed.

Lemma roundPos_bounds a :
  0 < a -> 2 ^ exponent a <= roundPos a <= 2 ^ (exponent a + 1).
Proof.
  intros Ha. unfold roundPos.
  set (e := exponent a). set (k := (precision - 1 - e)%Z).
  pose proof (exponent_le a Ha) as Hlo. pose proof (exponent_lt a Ha) as Hhi.
  fold e in Hlo, Hhi.
  pose proof (two_pow_pos k) as Pk. pose proof (two_pow_pos (- k)) as Pk'.
  assert (E1 : 2 ^ e * 2 ^ k == inject_Z (2 ^ 52)).
  { rewrite <- two_pow_add. unfold k.
    replace (e + (precision - 1 - e))%Z with 52%Z by (unfold precision; lia).
    reflexivity. }
  assert (E2 : 2 ^ (e + 1) * 2 ^ k == inject_Z (2 ^ 53)).
  { rewrite <- two_pow_add. unfold k.
    replace (e + 1 + (precision - 1 - e))%Z with 53%Z
      by (unfold precision; lia).
    reflexivity. }
  assert (Y1 : inject_Z (2 ^ 52) <= a * 2 ^ k).
  { rewrite <- E1. apply Qmult_le_compat_r; lra. }
  assert (Y2 : a * 2 ^ k <= inject_Z (2 ^ 53)).
  { rewrite <- E2. apply Qmult_le_compat_r; lra. }
  apply nearestEven_mono in Y1, Y2. rewrite nearestEven_Z in Y1, Y2.
  rewrite Zle_Qle in Y1, Y2.
  set (m := inject_Z (nearestEven (a * 2 ^ k))) in *.
  assert (Hinv : 2 ^ k * 2 ^ (- k) == 1).
  { rewrite <- two_pow_add. replace (k + - k)%Z with 0%Z by lia.
    reflexivity. }
  assert (F1 : 2 ^ e == inject_Z (2 ^ 52) * 2 ^ (- k)).
  { rewrite <- E1.
    setoid_replace (2 ^ e * 2 ^ k * 2 ^ (- k))
      with (2 ^ e * (2 ^ k * 2 ^ (- k))) by ring.
    rewrite Hinv. ring. }
  assert (F2 : 2 ^ (e + 1) == inject_Z (2 ^ 53) * 2 ^ (- k)).
  { rewrite <- E2.
    setoid_replace (2 ^ (e + 1) * 2 ^ k * 2 ^ (- k))
      with (2 ^ (e + 1) * (2 ^ k * 2 ^ (- k))) by ring.
    rewrite Hinv. ring. }
  rewrite F1, F2. split; apply Qmult_le_compat_r; lra.
Qed.

Lemma roundPos_mono a b : 0 < a -> a <= b -> roundPos a <= roundPos b.
Proof.
  intros Ha Hab. assert (Hb : 0 < b) by lra.
  pose proof (exponent_mono a b Ha Hab) as He.
  destruct (Z.eq_dec (exponent a) (exponent b)) as [E|E].
  - unfold roundPos. rewrite E.
    set (k := (precision - 1 - exponent b)%Z).
    pose proof (two_pow_pos k) as Pk. pose proof (two_pow_pos (- k)) as Pk'.
    apply Qmult_le_compat_r; [|lra].
    rewrite <- Zle_Qle. apply nearestEven_mono.
    apply Qmult_le_compat_r; lra.
  - destruct (roundPos_bounds a Ha) as [_ H1].
    destruct (roundPos_bounds b Hb) as [H2 _].
    assert (H3 : 2 ^ (exponent a + 1) <= 2 ^ exponent b)
      by (apply two_pow_le; lia).
    lra.
Qed.

Lemma roundPos_pos a : 0 < a -> 0 < roundPos a.
Proof.
  intros Ha. destruct (roundPos_bounds a Ha) as [H _].
  pose proof (two_pow_pos (exponent a)). lra.
Qed.

Lemma sign_cases q :
  (q == 0 /\ round q = 0)
  \/ (0 < q /\ round q = roundPos (Qabs q) /\ Qabs q == q)
  \/ (q < 0 /\ round q = - roundPos (Qabs q) /\ Qabs q == - q).
Proof.
  unfold round.
  destruct (Qeq_bool q 0) eqn:Hz.
  - left. split; [now apply Qeq_bool_iff | reflexivity].
  - assert (Hq : ~ q == 0) by now apply Qeq_bool_neq.
    destruct (Qle_bool 0 q) eqn:Hs.
    + apply Qle_bool_iff in Hs. right; left.
      split; [|split; [reflexivity | now apply Qabs_pos]].
      destruct (Qlt_le_dec 0 q) as [H|H]; [exact H|]. exfalso. apply Hq. lra.
    + right; right.
      assert (Hneg : q < 0).
      { destruct (Qlt_le_dec q 0) as [H|H]; [exact H|].
        apply Qle_bool_iff in H. congruence. }
      split; [exact Hneg | split; [reflexivity | apply Qabs_neg; lra]].
Qed.

(** Rounding to double precision is monotone. *)
Lemma round_monotone x y : x <= y -> round x <= round y.
Proof.
  intros H.
  destruct (sign_cases x) as [[X ->] | [(X & -> & Ax) | (X & -> & Ax)]];
    destruct (sign_cases y) as [[Y ->] | [(Y & -> & Ay) | (Y & -> & Ay)]];
    try lra.
  - assert (P : 0 < Qabs y) by lra. pose proof (roundPos_pos _ P). lra.
  - apply roundPos_mono; lra.
  - assert (P : 0 < Qabs x) by lra. pose proof (roundPos_pos _ P). lra.
  - assert (P : 0 < Qabs x) by lra. assert (P' : 0 < Qabs y) by lra.
    pose proof (roundPos_pos _ P). pose proof (roundPos_pos _ P'). lra.
  - assert (P : 0 < Qabs y) by lra.
    assert (L : Qabs y <= Qabs x) by lra.
    pose proof (roundPos_mono _ _ P L). lra.
Qed.

(** The integers from 0 to 100 are doubles. *)
Lemma round_integer (n : nat) :
  (n <=? 100)%nat = true -> round (JS.ofNat n) == JS.ofNat n.
Proof.
  intros H. apply Nat.leb_le in H.
  do 101 (destruct n as [|n]; [vm_compute; reflexivity|]). lia.
Qed.

(** The doubles of 1/3, of 0.1 and of -7/3, and 1/3 * 100 as the program
    computes a percentage. *)
Example round_cases :
  map (fun q => Qred (round q))
      [1 # 3; 1 # 10; - (7 # 3); 100; round (1 # 3) * 100]
  = [ 6004799503160661 # 18014398509481984;
      3602879701896397 # 36028797018963968;
      - (5254199565265579 # 2251799813685248);
      100;
      2345624805922133 # 70368744177664 ].
Proof. vm_compute. reflexivity. Qed.

End DoubleFacts.

(* ================================================================== *)
(** ** Line counts *)

Module LineFacts.
Import Metrics Measures.

Lemma split_not_nil sep s : JS.split sep s <> [].
Proof.
  destruct s as [|c rest]; simpl; [discriminate|].
  destruct (Ascii.eqb c sep); [discriminate|].
  destruct (JS.split sep rest); discriminate.
Qed.

Lemma split_length_pos sep s : 1 <= List.length (JS.split sep s).
Proof.
  pose proof (split_not_nil sep s) as H.
  destruct (JS.split sep s); [congruence | simpl; lia].
Qed.

Lemma countLine_counted c l : counted (countLine c l) = S (counted c).
Proof.
  unfold countLine, counted.
  destruct (String.eqb (JS.trim l) ""); simpl; [lia|].
  destruct (JS.startsWith (JS.trim l) "//" || JS.startsWith (JS.trim l) "#"
            || JS.startsWith (JS.trim l) "/*"); simpl; lia.
Qed.

Lemma fold_countLine_counted lines : forall c,
  counted (fold_left countLine lines c) = counted c + List.length lines.
Proof.
  induction lines as [|l lines IH]; intros c; simpl; [lia|].
  rewrite IH, countLine_counted. lia.
Qed.

Lemma countLines_counted lines :
  counted (countLines lines) = List.length lines.
Proof. unfold countLines. now rewrite fold_countLine_counted. Qed.

Lemma sumOver_app g fs1 fs2 :
  sumOver g (fs1 ++ fs2) = sumOver g fs1 + sumOver g fs2.
Proof. induction fs1 as [|f fs1 IH]; simpl; [reflexivity | lia]. Qed.

Lemma fold_addFile_totals fs : forall t,
  let t' := fold_left addFile fs t in
  t_totalLines t'
  = t_totalLines t + sumOver (fun f => List.length (linesOf f)) fs
  /\ t_codeLines t'
     = t_codeLines t
       + sumOver (fun f => fileCode (countLines (linesOf f))) fs
  /\ t_commentLines t'
     = t_commentLines t
       + sumOver (fun f => fileComments (countLines (linesOf f))) fs
  /\ t_blankLines t'
     = t_blankLines t
       + sumOver (fun f => fileBlank (countLines (linesOf f))) fs.
Proof.
  induction fs as [|f fs IH]; intros t; simpl.
  - repeat split; lia.
  - destruct (IH (addFile t f)) as (H1 & H2 & H3 & H4).
    rewrite H1, H2, H3, H4. unfold addFile, linesOf; simpl.
    repeat split; lia.
Qed.

Lemma sumOver_counted fs :
  sumOver (fun f => fileCode (countLines (linesOf f))) fs
  + sumOver (fun f => fileComments (countLines (linesOf f))) fs
  + sumOver (fun f => fileBlank (countLines (linesOf f))) fs
  = sumOver (fun f => List.length (linesOf f)) fs.
Proof.
  induction fs as [|g fs IH]; simpl; [reflexivity|].
  pose proof (countLines_counted (linesOf g)) as Hg.
  unfold counted in Hg. lia.
Qed.

Lemma stepLine_counted st l :
  CodeParser.codeLines (CodeParser.stepLine st l)
  + CodeParser.commentLines (CodeParser.stepLine st l)
  + CodeParser.blankLines (CodeParser.stepLine st l)
  = S (CodeParser.codeLines st + CodeParser.commentLines st
       + CodeParser.blankLines st).
Proof.
  unfold CodeParser.stepLine.
  destruct (String.eqb (JS.trim l) ""); simpl; [lia|].
  destruct (JS.startsWith (JS.trim l) "/*"
            || JS.startsWith (JS.trim l) "/**"); simpl; [lia|].
  destruct (CodeParser.inMultilineComment st); simpl; [lia|].
  destruct (JS.startsWith (JS.trim l) "//"); simpl; lia.
Qed.

Lemma fold_stepLine_counted lines : forall st,
  let st' := fold_left CodeParser.stepLine lines st in
  CodeParser.codeLines st' + CodeParser.commentLines st'
  + CodeParser.blankLines st'
  = CodeParser.codeLines st + CodeParser.commentLines st
    + CodeParser.blankLines st + List.length lines.
Proof.
  induction lines as [|l lines IH]; intros st; simpl; [lia|].
  rewrite IH, stepLine_counted. lia.
Qed.

Lemma analyzer_stepLine_counted cp st l :
  CodeAnalyzer.code (CodeAnalyzer.stepLine cp st l)
  + CodeAnalyzer.comments (CodeAnalyzer.stepLine cp st l)
  + CodeAnalyzer.blank (CodeAnalyzer.stepLine cp st l)
  = S (CodeAnalyzer.code st + CodeAnalyzer.comments st
       + CodeAnalyzer.blank st).
Proof.
  unfold CodeAnalyzer.stepLine.
  destruct (String.eqb (JS.trim l) ""); simpl; [lia|].
  destruct (if CodeAnalyzer.hasToken (CodeAnalyzer.multilineStart cp)
                 (JS.trim l)
            then true else CodeAnalyzer.inMultilineComment st);
    simpl; [lia|].
  destruct (existsb (JS.startsWith (JS.trim l))
                    (CodeAnalyzer.singleLine cp)); simpl; lia.
Qed.

Lemma analyzeLines_counted lines filePath :
  let c := CodeAnalyzer.analyzeLines lines filePath in
  CodeAnalyzer.code c + CodeAnalyzer.comments c + CodeAnalyzer.blank c
  = List.length lines.
Proof.
  unfold CodeAnalyzer.analyzeLines.
  set (cp := CodeAnalyzer.getCommentPatterns _).
  assert (H : forall st,
             let st' := fold_left (CodeAnalyzer.stepLine cp) lines st in
             CodeAnalyzer.code st' + CodeAnalyzer.comments st'
             + CodeAnalyzer.blank st'
             = CodeAnalyzer.code st + CodeAnalyzer.comments st
               + CodeAnalyzer.blank st + List.length lines).
  { induction lines as [|l lines IH]; intros st; simpl; [lia|].
    rewrite IH, analyzer_stepLine_counted. lia. }
  cbn zeta in *. rewrite H. reflexivity.
Qed.

Lemma analyzeCode_counted fs :
  let t := CodeAnalyzer.analyzeCode fs in
  CodeAnalyzer.codeLines t + CodeAnalyzer.commentLines t
  + CodeAnalyzer.blankLines t = CodeAnalyzer.totalLines t.
Proof.
  unfold CodeAnalyzer.analyzeCode.
  assert (H : forall t,
             CodeAnalyzer.codeLines t + CodeAnalyzer.commentLines t
             + CodeAnalyzer.blankLines t = CodeAnalyzer.totalLines t ->
             let t' := fold_left CodeAnalyzer.addFile fs t in
             CodeAnalyzer.codeLines t' + CodeAnalyzer.commentLines t'
             + CodeAnalyzer.blankLines t' = CodeAnalyzer.totalLines t').
  { induction fs as [|f fs IH]; intros t Ht; cbn [fold_left]; [exact Ht|].
    apply IH. unfold CodeAnalyzer.addFile.
    cbn [CodeAnalyzer.codeLines CodeAnalyzer.commentLines
         CodeAnalyzer.blankLines CodeAnalyzer.totalLines].
    pose proof (analyzeLines_counted
                  (JS.split JS.LF (Metrics.content f)) (Metrics.path f)).
    cbn zeta in *. lia. }
  apply H. reflexivity.
Qed.

Lemma repository_stepLine_counted st l :
  RepositoryAnalyzer.codeLines (RepositoryAnalyzer.stepLine st l)
  + RepositoryAnalyzer.commentLines (RepositoryAnalyzer.stepLine st l)
  + RepositoryAnalyzer.blankLines (RepositoryAnalyzer.stepLine st l)
  = S (RepositoryAnalyzer.codeLines st + RepositoryAnalyzer.commentLines st
       + RepositoryAnalyzer.blankLines st).
Proof.
  unfold RepositoryAnalyzer.stepLine.
  destruct (String.eqb (JS.trim l) ""); simpl; [lia|].
  destruct (JS.startsWith (JS.trim l) "/*"
            || JS.startsWith (JS.trim l) "/**"); simpl; [lia|].
  destruct (RepositoryAnalyzer.inMultilineComment st); simpl; [lia|].
  destruct (JS.startsWith (JS.trim l) "//" || JS.startsWith (JS.trim l) "#"
            || JS.startsWith (JS.trim l) "--"); simpl; lia.
Qed.

Lemma repository_fold_counted lines : forall st,
  let st' := fold_left RepositoryAnalyzer.stepLine lines st in
  RepositoryAnalyzer.codeLines st' + RepositoryAnalyzer.commentLines st'
  + RepositoryAnalyzer.blankLines st'
  = RepositoryAnalyzer.codeLines st + RepositoryAnalyzer.commentLines st
    + RepositoryAnalyzer.blankLines st + List.length lines.
Proof.
  induction lines as [|l lines IH]; intros st; cbn [fold_left List.length];
    cbn zeta; [lia|].
  cbn zeta in IH. rewrite IH, repository_stepLine_counted. lia.
Qed.

Lemma calculateCodeMetrics_counted text :
  let m := RepositoryAnalyzer.calculateCodeMetrics text in
  RepositoryAnalyzer.m_codeLines m + RepositoryAnalyzer.m_commentLines m
  + RepositoryAnalyzer.m_blankLines m = RepositoryAnalyzer.m_lines m.
Proof.
  unfold RepositoryAnalyzer.calculateCodeMetrics.
  cbn [RepositoryAnalyzer.m_codeLines RepositoryAnalyzer.m_commentLines
       RepositoryAnalyzer.m_blankLines RepositoryAnalyzer.m_lines].
  pose proof (repository_fold_counted (JS.split JS.LF text)) as H.
  cbn zeta in *. rewrite H. reflexivity.
Qed.

(** C1.  Whatever the list of files (and whatever the rounding of the
    number type): for each file, the code, comment and blank counters of
    [analyzeCodeMetrics] add up to that file's number of lines; the
    project totals [codeLines + commentLines + blankLines] add up to
    [totalLines]; and the counters [CodeParser.getCodeMetrics] returns
    for a content add up to its [totalLines].  The same holds of the two
    other line classifiers of the repository: [CodeAnalyzer.analyzeLines]
    with the totals of [CodeAnalyzer.analyzeCode], and
    [RepositoryAnalyzer.calculateCodeMetrics]. *)
Theorem line_counts_add_up :
  forall (rnd : Q -> Q) (fs : list SourceFile) (f : SourceFile)
         (text : string),
    (let lines := JS.split JS.LF (content f) in
     let c := countLines lines in
     fileCode c + fileComments c + fileBlank c = List.length lines)
    /\ (let m := analyzeCodeMetrics rnd fs in
        codeLines m + commentLines m + blankLines m = totalLines m)
    /\ (let m := CodeParser.getCodeMetrics text in
        CodeParser.m_codeLines m + CodeParser.m_commentLines m
        + CodeParser.m_blankLines m = CodeParser.m_totalLines m)
    /\ (let lines := JS.split JS.LF (content f) in
        let c := CodeAnalyzer.analyzeLines lines (path f) in
        CodeAnalyzer.code c + CodeAnalyzer.comments c + CodeAnalyzer.blank c
        = List.length lines)
    /\ (let t := CodeAnalyzer.analyzeCode fs in
        CodeAnalyzer.codeLines t + CodeAnalyzer.commentLines t
        + CodeAnalyzer.blankLines t = CodeAnalyzer.totalLines t)
    /\ (let m := RepositoryAnalyzer.calculateCodeMetrics text in
        RepositoryAnalyzer.m_codeLines m
        + RepositoryAnalyzer.m_commentLines m
        + RepositoryAnalyzer.m_blankLines m = RepositoryAnalyzer.m_lines m).
Proof.
  intros rnd fs f text. split; [|split; [|split; [|split; [|split]]]].
  - exact (countLines_counted _).
  - cbn -[fold_left].
    destruct (fold_addFile_totals fs initial) as (H1 & H2 & H3 & H4).
    rewrite H1, H2, H3, H4. simpl.
    apply sumOver_counted.
  - unfold CodeParser.getCodeMetrics; cbn -[fold_left JS.split].
    now rewrite fold_stepLine_counted.
  - apply analyzeLines_counted.
  - apply analyzeCode_counted.
  - apply calculateCodeMetrics_counted.
Qed.

(** C9.  A file whose content is the empty string adds exactly one line
    to [totalLines] and one to [blankLines] and nothing to [codeLines]
    and [commentLines], wherever it stands in the list; and every file
    adds at least one line to [totalLines]. *)
Theorem empty_file_is_one_blank_line :
  forall (rnd : Q -> Q) (before after : list SourceFile) (f : SourceFile),
    content f = "" ->
    let m0 := analyzeCodeMetrics rnd (before ++ after) in
    let m := analyzeCodeMetrics rnd (before ++ f :: after) in
    totalLines m = totalLines m0 + 1
    /\ blankLines m = blankLines m0 + 1
    /\ codeLines m = codeLines m0
    /\ commentLines m = commentLines m0
    /\ (forall g : SourceFile,
          totalLines (analyzeCodeMetrics rnd (before ++ g :: after))
          >= totalLines m0 + 1).
Proof.
  intros rnd before after f Hf. cbn -[fold_left].
  destruct (fold_addFile_totals (before ++ after) initial)
    as (A1 & A2 & A3 & A4).
  destruct (fold_addFile_totals (before ++ f :: after) initial)
    as (B1 & B2 & B3 & B4).
  rewrite A1, A2, A3, A4, B1, B2, B3, B4.
  rewrite !sumOver_app. simpl. unfold linesOf. rewrite Hf. simpl.
  repeat split; try lia.
  intros g.
  destruct (fold_addFile_totals (before ++ g :: after) initial)
    as (C1 & _).
  rewrite C1, sumOver_app. simpl.
  pose proof (split_length_pos JS.LF (content g)). unfold linesOf. lia.
Qed.

Lemma empty_file_is_one_blank_line_witness :
  let f := {| path := "empty.js"; content := ""; size := 0 |} in
  let g := {| path := "a.py"; content := "# c"; size := 3 |} in
  let m0 := analyzeCodeMetrics Double.round [g] in
  let m := analyzeCodeMetrics Double.round [g; f] in
  totalLines m = totalLines m0 + 1 /\ blankLines m = blankLines m0 + 1.
Proof.
  intros f g.
  destruct (empty_file_is_one_blank_line Double.round [g] [] f eq_refl)
    as (H1 & H2 & _).
  split; [exact H1 | exact H2].
Defined.

End LineFacts.

(* ================================================================== *)
(** ** Language percentages *)

Module LanguageFacts.
Import Metrics Measures LineFacts DoubleFacts.

Lemma sumLines_mapSet m k v :
  sumLines (JS.mapSet m k v) + linesAt m k = sumLines m + st_lines v.
Proof.
  unfold linesAt.
  induction m as [|[k' v'] m IH]; simpl; [lia|].
  destruct (String.eqb k k'); simpl; lia.
Qed.

Lemma sumLines_addFile t f :
  sumLines (t_languageStats (addFile t f))
  = sumLines (t_languageStats t) + List.length (linesOf f).
Proof.
  unfold addFile; cbn [t_languageStats].
  set (k := getLanguageFromExtension (Path.extname (path f))).
  match goal with
  | |- sumLines (JS.mapSet ?m ?k ?v) = _ =>
      pose proof (sumLines_mapSet m k v) as H
  end.
  unfold linesAt in H. unfold linesOf.
  destruct (JS.mapGet (t_languageStats t) k); cbn [st_lines] in *; lia.
Qed.

Lemma sumLines_fold fs : forall t,
  sumLines (t_languageStats (fold_left addFile fs t))
  = sumLines (t_languageStats t)
    + sumOver (fun f => List.length (linesOf f)) fs.
Proof.
  induction fs as [|f fs IH]; intros t; simpl; [lia|].
  rewrite IH, sumLines_addFile. lia.
Qed.

(** The languages partition the lines of the project. *)
Lemma languages_partition_lines fs :
  let t := fold_left addFile fs initial in
  sumLines (t_languageStats t) = t_totalLines t.
Proof.
  cbn zeta. rewrite sumLines_fold.
  destruct (fold_addFile_totals fs initial) as (H1 & _).
  rewrite H1. reflexivity.
Qed.

Lemma totalLines_pos fs :
  fs <> [] -> 0 < t_totalLines (fold_left addFile fs initial).
Proof.
  intros Hne.
  destruct (fold_addFile_totals fs initial) as (H1 & _). rewrite H1.
  destruct fs as [|f fs]; [congruence|]. simpl.
  pose proof (split_length_pos JS.LF (content f)). unfold linesOf. lia.
Qed.

Section Sorting.
Context {A : Type} (cmp : A -> A -> Z).

Lemma insertSorted_perm x l :
  Permutation (JS.insertSorted cmp x l) (x :: l).
Proof.
  induction l as [|y l IH]; simpl; [reflexivity|].
  destruct (cmp x y <=? 0)%Z; [reflexivity|].
  rewrite IH. apply perm_swap.
Qed.

Lemma sort_perm l : Permutation (JS.sort cmp l) l.
Proof.
  induction l as [|x l IH]; simpl; [constructor|].
  rewrite insertSorted_perm. now constructor.
Qed.
End Sorting.

Local Open Scope Q_scope.

Lemma sumQ_cons x l : sumQ (x :: l) = x + sumQ l.
Proof. reflexivity. Qed.

Lemma sumQ_perm l l' : Permutation l l' -> sumQ l == sumQ l'.
Proof.
  induction 1; simpl; try lra.
Qed.

Section Rounding.
Variable rnd : Q -> Q.
Variable u : Q.
Hypothesis u_nonneg : 0 <= u.
Hypothesis rnd_error : forall x, Qabs (rnd x - x) <= u * Qabs x.

(** A quotient rounded, multiplied by 100 and rounded again. *)
Lemma percentage_error a :
  0 <= a ->
  Qabs (rnd (rnd a * 100) - 100 * a) <= (u * (2 + u)) * (100 * a).
Proof.
  intros Ha.
  pose proof (rnd_error a) as H1.
  pose proof (rnd_error (rnd a * 100)) as H2.
  rewrite (Qabs_pos a Ha) in H1. apply abs_le_iff in H1.
  assert (Hw : Qabs (rnd a * 100) <= 100 * (a + u * a)).
  { apply abs_le_iff. nra. }
  set (w := Qabs (rnd a * 100)) in *.
  assert (Hw0 : 0 <= w) by apply Qabs_nonneg.
  apply abs_le_iff in H2. apply abs_le_iff.
  set (y := rnd a) in *. set (p := rnd (y * 100)) in *.
  nra.
Qed.

Lemma share_nonneg total e : (0 < total)%nat -> 0 <= share total e.
Proof.
  intros Ht. unfold share, JS.ofNat.
  apply Qle_shift_div_l.
  - change 0 with (inject_Z 0). rewrite <- Zlt_Qlt. lia.
  - rewrite Qmult_0_l. change 0 with (inject_Z 0).
    rewrite <- Zle_Qle. lia.
Qed.

Lemma sum_shares total m :
  (0 < total)%nat ->
  sumQ (map (share total) m) == JS.ofNat (sumLines m) / JS.ofNat total.
Proof.
  intros Ht.
  assert (Hd : ~ JS.ofNat total == 0).
  { unfold JS.ofNat. change 0 with (inject_Z 0).
    rewrite inject_Z_injective. lia. }
  induction m as [|e m IH]; simpl.
  - unfold JS.ofNat at 1. simpl. field. exact Hd.
  - rewrite IH. unfold share, JS.ofNat.
    rewrite Nat2Z.inj_add, inject_Z_plus. field. exact Hd.
Qed.

Lemma sum_percentage_error total m :
  (0 < total)%nat ->
  Qabs (sumQ (map (fun e => percentage (toLanguage rnd total e)) m)
        - 100 * sumQ (map (share total) m))
  <= (u * (2 + u)) * (100 * sumQ (map (share total) m)).
Proof.
  intros Ht.
  induction m as [|e m IH].
  - apply abs_le_iff. cbn [map sumQ fold_right]. split; nra.
  - pose proof (percentage_error _ (share_nonneg total e Ht)) as He.
    rewrite !map_cons, !sumQ_cons.
    apply abs_le_iff in He. apply abs_le_iff in IH. apply abs_le_iff.
    set (P := sumQ (map (fun e0 => percentage (toLanguage rnd total e0))
                        m)) in *.
    set (S := sumQ (map (share total) m)) in *.
    clearbody P S.
    cbn [percentage toLanguage]. unfold JS.fmul, JS.fdiv.
    fold (share total e).
    set (a := share total e) in *.
    set (p := rnd (rnd a * 100)) in *.
    clearbody p a.
    nra.
Qed.
End Rounding.

(** C8.  For a project of at least one file, the percentages of the
    language entries [analyzeCodeMetrics] returns add up to 100 up to
    the rounding of the two floating-point operations behind each of
    them: when every operation is rounded with relative error at most
    [u], the sum is within [100 * u * (2 + u)] of 100.  Rounding to
    double precision is such a rounding with [u] = 2^-53
    ([DoubleFacts.round_error]); without rounding, [u] is 0 and the sum
    is exactly 100. *)
Theorem language_percentages_sum_to_100 :
  forall (rnd : Q -> Q) (u : Q),
    0 <= u ->
    (forall x, Qabs (rnd x - x) <= u * Qabs x) ->
    forall fs : list SourceFile,
      fs <> [] ->
      Qabs (sumQ (map percentage (languages (analyzeCodeMetrics rnd fs)))
            - 100)
      <= 100 * (u * (2 + u)).
Proof.
  intros rnd u Hu Hr fs Hne.
  unfold analyzeCodeMetrics; cbn [languages].
  set (t := fold_left addFile fs initial).
  assert (Ht : (0 < t_totalLines t)%nat) by now apply totalLines_pos.
  assert (Hperm : sumQ (map percentage
                    (JS.sort (byLinesDesc)
                       (map (toLanguage rnd (t_totalLines t))
                            (t_languageStats t))))
                  == sumQ (map (fun e => percentage
                                 (toLanguage rnd (t_totalLines t) e))
                               (t_languageStats t))).
  { rewrite <- (map_map (toLanguage rnd (t_totalLines t)) percentage).
    apply sumQ_perm, Permutation_map, sort_perm. }
  rewrite Hperm.
  pose proof (sum_percentage_error rnd u Hu Hr (t_totalLines t)
                (t_languageStats t) Ht) as H.
  assert (Hs : sumQ (map (share (t_totalLines t)) (t_languageStats t))
               == 1).
  { rewrite (sum_shares _ _ Ht).
    unfold t. rewrite languages_partition_lines. fold t.
    field. unfold JS.ofNat. change 0 with (inject_Z 0).
    rewrite inject_Z_injective. lia. }
  rewrite Hs in H.
  apply abs_le_iff in H. apply abs_le_iff. lra.
Qed.

(** With double rounding the sum is not 100 on the nose: for a file of one
    line and a file of two lines in another language it is 100 - 2^-46. *)
Lemma language_percentages_sum_to_100_witness :
  let fs := [ {| path := "src/a.js"; content := "x"; size := 1 |};
              {| path := "b.py";
                 content := "# y" ++ String JS.LF "z"; size := 5 |} ] in
  let total :=
    sumQ (map percentage (languages (analyzeCodeMetrics Double.round fs))) in
  Qabs (total - 100)
  <= 100 * (Double.unitRoundoff * (2 + Double.unitRoundoff))
  /\ total == 100 - 2 ^ (- 46).
Proof.
  intros fs total. split.
  - apply (language_percentages_sum_to_100 Double.round Double.unitRoundoff).
    + vm_compute. discriminate.
    + exact round_error.
    + discriminate.
  - vm_compute. reflexivity.
Defined.

End LanguageFacts.

(* ================================================================== *)
(** ** Complexity of the [else if] scenario *)

Module ComplexityFacts.
Import Scenarios.

(** The matches of each of the twelve patterns of [CodeParser] in it. *)
Lemma elseIfChain_matches :
  map (fun re => List.length (RegExp.matchAll elseIfChain re))
      CodeParser.complexityPatterns
  = [2; 1; 1; 0; 0; 0; 0; 0; 0; 0; 0; 0].
Proof. vm_compute. reflexivity. Qed.



End ComplexityFacts.

(* ================================================================== *)
(** ** Secret scanning *)

Module ScannerFacts.
Import SecurityScanner Scenarios.

(** The claim of C6 fails: the scan of the one-line file is not a single
    finding. *)
Lemma apiKeyLine_not_one_finding :
  ~ (exists d : SecretDetection,
       scanForSecrets [ {| path := "config.js"; content := apiKeyLine |} ]
       = [d]).
Proof.
  intros [d H]. vm_compute in H. discriminate H.
Qed.

(** C6, amended.  Scanning a file that consists of the single line
    [const apiKey = "AKIA1234567890ABCDEF1234"] produces exactly two
    findings, both on line 1: one of type "AWS Access Key" with severity
    critical, then one of type "Generic API Key" with severity high: the
    line also matches the third pattern of the table ([api], an optional
    [_] or [-], [key], an assignment and a quoted token of 20 characters
    or more, letter case ignored), and findings are not deduplicated. *)
Theorem apiKeyLine_two_findings :
  forall filePath : string,
    scanForSecrets [ {| path := filePath; content := apiKeyLine |} ]
    = [awsFinding filePath 1; apiKeyFinding filePath 1].
Proof. intros filePath. vm_compute. reflexivity. Qed.

(** C2, at the failing input.  Each of the files [a.js] and [b.js],
    scanned alone, gives its AWS finding, and a second scan of the same
    file gives the same list; but one pass over [a.js] then [b.js] gives
    only the finding of [a.js]: the expression that matched in [a.js] is
    left with [lastIndex] 20, and its [test] on the first line of [b.js]
    starts there. *)
Theorem one_pass_misses_second_file :
  scanForSecrets [keyFileA] = [awsFinding "a.js" 1]
  /\ scanForSecrets [keyFileB] = [awsFinding "b.js" 1]
  /\ scanForSecrets [keyFileA; keyFileB] = [awsFinding "a.js" 1]
  /\ ~ In (awsFinding "b.js" 1) (scanForSecrets [keyFileA; keyFileB]).
Proof.
  vm_compute. repeat split.
  intros [H | []]. discriminate H.
Qed.

End ScannerFacts.

(* ================================================================== *)
(** ** The file collector *)

Module CollectorFacts.
Import Collector Scenarios.

(** [collectFiles] on a readable directory: the two guards, tested once
    on entry, then the loop over the entries. *)
Lemma collectFiles_listing dirPath depth name entries files :
  collectFiles dirPath depth (DirEntry name (Some entries)) files
  = if 10 <? depth then files
    else if 5000 <? List.length files then files
    else fold_left (visit dirPath depth) entries files.
Proof.
  cbn [collectFiles].
  destruct (10 <? depth); [reflexivity|].
  destruct (5000 <? List.length files); [reflexivity|].
  revert files. induction entries as [|e es IH]; intros files.
  - reflexivity.
  - exact (IH (visit dirPath depth files e)).
Qed.

Lemma visit_qualifying dirPath depth files entry :
  qualifies entry = true ->
  List.length (visit dirPath depth files entry) = S (List.length files).
Proof.
  unfold qualifies, visit.
  destruct entry as [name [size|] [content|] | name listing | name];
    try discriminate.
  cbn [entryName]. intros H.
  apply andb_prop in H as [H Hsize]. apply andb_prop in H as [H Hext].
  apply andb_prop in H as [Hdot Hskip].
  apply negb_true_iff in Hdot, Hskip, Hsize.
  rewrite Hdot, Hskip, Hext, Hsize. cbn [orb].
  rewrite length_app. simpl. lia.
Qed.

Lemma fold_visit_qualifying dirPath depth entries : forall files,
  forallb qualifies entries = true ->
  List.length (fold_left (visit dirPath depth) entries files)
  = List.length files + List.length entries.
Proof.
  induction entries as [|e es IH]; intros files H; simpl in *.
  - lia.
  - apply andb_prop in H as [He Hes].
    rewrite (IH _ Hes), (visit_qualifying _ _ _ _ He). lia.
Qed.

(** A repository whose root directory holds only qualifying files is
    collected whole, however many they are: the length guard is read once,
    when the directory is entered and the array is still empty. *)
Lemma flat_directory_collected_whole name entries :
  forallb qualifies entries = true ->
  List.length (analyzeCodeFiles (DirEntry name (Some entries)))
  = List.length entries.
Proof.
  intros H. unfold analyzeCodeFiles.
  rewrite collectFiles_listing. cbn [Nat.ltb Nat.leb List.length].
  now rewrite fold_visit_qualifying.
Qed.

(** C3, at the failing input.  The tree is one directory with the 6000
    qualifying files [f0.js] ... [f5999.js]; the collector returns 6000
    files, not 5000. *)
Theorem six_thousand_files_all_collected :
  forallb qualifies (map sourceFile (seq 0 sixThousand)) = true
  /\ List.length (analyzeCodeFiles (flatTree sixThousand)) = 6 * 1000
  /\ 5000 < List.length (analyzeCodeFiles (flatTree sixThousand)).
Proof.
  assert (Hq : forallb qualifies (map sourceFile (seq 0 sixThousand)) = true)
    by (vm_compute; reflexivity).
  assert (Hlen : List.length (analyzeCodeFiles (flatTree sixThousand))
                 = 6 * 1000).
  { unfold flatTree. rewrite (flat_directory_collected_whole _ _ Hq).
    rewrite length_map, length_seq. reflexivity. }
  split; [exact Hq | split; [exact Hlen |]].
  rewrite Hlen. apply Nat.ltb_lt. vm_compute. reflexivity.
Qed.

End CollectorFacts.

(* ================================================================== *)
(** ** The history store *)

Module HistoryFacts.
Import HistoryService Scenarios.

Lemma slice0_length {A : Type} (n : nat) (xs : list A) :
  List.length (JS.slice0 n xs) <= n.
Proof. unfold JS.slice0. rewrite length_firstn. lia. Qed.

Lemma firstn_all_but_last {A : Type} (xs : list A) :
  firstn (List.length xs - 1) xs = removelast xs.
Proof.
  induction xs as [|x xs IH]; [reflexivity|].
  destruct xs as [|y xs]; [reflexivity|].
  replace (List.length (x :: y :: xs) - 1)
    with (S (List.length (y :: xs) - 1)) by (simpl; lia).
  cbn [firstn]. rewrite IH. reflexivity.
Qed.

(** What a completed [saveAnalysis] leaves in the file. *)
Lemma saveAnalysis_returned d a c e d' :
  saveAnalysis d a c = (Returned e, d') ->
  e = makeEntry a c
  /\ persisted d' = JS.slice0 100 (e :: persisted d).
Proof.
  unfold saveAnalysis, persisted.
  destruct (loadHistory d) as [history|] eqn:Hload; [|discriminate].
  destruct (writable d); [|discriminate].
  intros H. injection H as He Hd. subst e d'. split; reflexivity.
Qed.

Lemma saveAnalysis_thrown d a c d' :
  saveAnalysis d a c = (Thrown, d') -> d' = d.
Proof.
  unfold saveAnalysis.
  destruct (loadHistory d) as [history|].
  - destruct (writable d); [discriminate|]. now intros [= <-].
  - now intros [= <-].
Qed.

Lemma filter_length_le {A : Type} (f : A -> bool) (xs : list A) :
  List.length (filter f xs) <= List.length xs.
Proof.
  induction xs as [|x xs IH]; simpl; [lia|].
  destruct (f x); simpl; lia.
Qed.

Lemma saveAnalysis_bound d a c :
  List.length (persisted d) <= 100 ->
  List.length (persisted (snd (saveAnalysis d a c))) <= 100.
Proof.
  intros Hbound.
  destruct (saveAnalysis d a c) as [[e|] d'] eqn:H; cbn [snd].
  - apply saveAnalysis_returned in H as [_ H]. rewrite H.
    apply slice0_length.
  - apply saveAnalysis_thrown in H. now subst d'.
Qed.

Lemma deleteAnalysis_bound d ident :
  List.length (persisted d) <= 100 ->
  List.length (persisted (snd (deleteAnalysis d ident))) <= 100.
Proof.
  unfold deleteAnalysis, persisted.
  destruct (loadHistory d) as [history|] eqn:Hload; cbn [snd];
    [|now rewrite Hload].
  destruct (writable d); cbn [snd]; [|now rewrite Hload].
  intros Hbound. cbn [loadHistory historyFile].
  pose proof (filter_length_le
                (fun entry => negb (String.eqb (id entry) ident)) history).
  lia.
Qed.

Lemma clearHistory_bound d :
  List.length (persisted d) <= 100 ->
  List.length (persisted (snd (clearHistory d))) <= 100.
Proof.
  unfold clearHistory. destruct (writable d); cbn [snd]; [|easy].
  intros _. cbn. lia.
Qed.

(** No sequence of calls of the service makes the history longer than 100
    entries. *)
Lemma reachable_bound d : reachable d -> List.length (persisted d) <= 100.
Proof.
  induction 1 as [w | d w _ IH | d a c _ IH | d ident _ IH | d _ IH].
  - cbn. lia.
  - exact IH.
  - now apply saveAnalysis_bound.
  - now apply deleteAnalysis_bound.
  - now apply clearHistory_bound.
Qed.

(** C7.  A [saveAnalysis] that completes leaves in the file the new entry
    followed by the entries it found, cut to the first 100: at most 100
    entries; and when it found exactly 100, the new entry followed by all
    of them but the last, which is the oldest since new entries go to the
    front.  A [saveAnalysis] that throws leaves the file as it was, so
    the bound of 100 holds after every call when it held before, as it
    does in every store the service itself has written. *)
Theorem history_capped_at_100 :
  forall (d : Disk) (a : AnalysisData) (c : Clock),
    (List.length (persisted d) <= 100 ->
     List.length (persisted (snd (saveAnalysis d a c))) <= 100)
    /\ (reachable d ->
        List.length (persisted (snd (saveAnalysis d a c))) <= 100)
    /\ (forall (e : HistoryEntry) (d' : Disk),
          saveAnalysis d a c = (Returned e, d') ->
          List.length (persisted d') <= 100
          /\ persisted d' = firstn 100 (e :: persisted d)
          /\ (List.length (persisted d) = 100 ->
              persisted d' = e :: removelast (persisted d)
              /\ exists oldest : HistoryEntry,
                   persisted d
                   = (removelast (persisted d) ++ [oldest])%list)).
Proof.
  intros d a c.
  split; [apply saveAnalysis_bound|].
  split; [intros Hr; apply saveAnalysis_bound, reachable_bound, Hr|].
  intros e d' H. apply saveAnalysis_returned in H as [_ Heq].
  change (JS.slice0 100 (e :: persisted d))
    with (firstn 100 (e :: persisted d)) in Heq.
  split; [rewrite Heq; apply slice0_length | split; [exact Heq|]].
  intros Hfull. split.
  - rewrite Heq. change 100 with (S 99). cbn [firstn].
    f_equal. rewrite <- firstn_all_but_last, Hfull. reflexivity.
  - destruct (persisted d) as [|x xs] eqn:Hp; [discriminate Hfull|].
    exists (last (x :: xs) x). apply app_removelast_last. discriminate.
Qed.

Lemma history_capped_at_100_witness :
  let e := makeEntry (sampleAnalysis "new") (sampleClock 100) in
  let d' := snd (saveAnalysis fullDisk (sampleAnalysis "new")
                              (sampleClock 100)) in
  List.length (persisted d') <= 100
  /\ persisted d' = e :: removelast (persisted fullDisk)
  /\ map id (persisted d')
     = map (fun i => NilZero.string_of_uint (Nat.to_uint i))
           (rev (seq 1 100)).
Proof.
  intros e d'.
  destruct (history_capped_at_100 fullDisk (sampleAnalysis "new")
              (sampleClock 100)) as (_ & _ & H).
  destruct (H e d' eq_refl) as (Hlen & _ & Hfull).
  destruct (Hfull eq_refl) as [Heq _].
  split; [exact Hlen | split; [exact Heq |]].
  vm_compute. reflexivity.
Defined.

(** C10.  When reading or parsing the history file fails (the file is
    missing, [readFile] rejects, or the text is not JSON), [loadHistory]
    returns the empty array; and the next [saveAnalysis], if its write
    succeeds, returns the new entry and leaves a history that holds only
    that entry, whatever the file held before. *)
Theorem failed_load_then_save_keeps_only_new_entry :
  forall (d : Disk) (a : AnalysisData) (c : Clock),
    readFails (historyFile d) = true ->
    loadHistory d = JArray []
    /\ (writable d = true ->
        saveAnalysis d a c
        = (Returned (makeEntry a c),
           {| historyFile := Parsed (JArray [makeEntry a c]);
              writable := true |})
        /\ persisted (snd (saveAnalysis d a c)) = [makeEntry a c]).
Proof.
  intros [f w] a c Hfail. cbn [historyFile writable] in *.
  assert (Hload : loadHistory {| historyFile := f; writable := w |}
                  = JArray []).
  { unfold loadHistory. cbn [historyFile].
    destruct f; [reflexivity | reflexivity | reflexivity | discriminate]. }
  split; [exact Hload|].
  intros ->. unfold saveAnalysis. rewrite Hload. cbn [writable].
  split; reflexivity.
Qed.

Lemma failed_load_then_save_keeps_only_new_entry_witness :
  loadHistory unreadableDisk = JArray []
  /\ persisted (snd (saveAnalysis unreadableDisk (sampleAnalysis "new")
                                  (sampleClock 3)))
     = [makeEntry (sampleAnalysis "new") (sampleClock 3)].
Proof.
  destruct (failed_load_then_save_keeps_only_new_entry unreadableDisk
              (sampleAnalysis "new") (sampleClock 3) eq_refl) as [Hload H].
  destruct (H eq_refl) as [_ Hkept].
  split; [exact Hload | exact Hkept].
Defined.

End HistoryFacts.

(* ================================================================== *)
(** ** The maintainability index of the analyze handler *)

Module HandlerFacts.
Import Handler.
Local Open Scope Q_scope.

Lemma maintainability_at_0 files a b :
  maintainabilityIndex
    (complexityOf (codeAnalysis Double.round files (draw a b 0)))
  == 60.
Proof.
  cbn [codeAnalysis complexityOf complexity maintainabilityIndex draw r3].
  unfold fadd, JS.fmul. vm_compute. reflexivity.
Qed.

Lemma maintainability_at_half files a b :
  maintainabilityIndex
    (complexityOf (codeAnalysis Double.round files (draw a b (1 # 2))))
  == 75.
Proof.
  cbn [codeAnalysis complexityOf complexity maintainabilityIndex draw r3].
  unfold fadd, JS.fmul. vm_compute. reflexivity.
Qed.

(** No function of the analysed files and of the other two numbers of the
    [complexity] object gives the reported index: two results that agree
    on all of these report 60 and 75. *)
Lemma maintainability_not_a_function_of_the_project :
  forall F : Metrics.CodeMetrics -> Q -> Q -> Q,
    ~ (forall files r,
         let a := codeAnalysis Double.round files r in
         maintainabilityIndex (complexityOf a)
         == F (metrics a) (averageComplexity (complexityOf a))
              (maxComplexity (complexityOf a))).
Proof.
  intros F H.
  pose proof (H [] (draw 0 0 0)) as H0.
  pose proof (H [] (draw 0 0 (1 # 2))) as H1.
  cbv zeta in H0, H1.
  rewrite maintainability_at_0 in H0.
  rewrite maintainability_at_half in H1.
  change (F (metrics (codeAnalysis Double.round [] (draw 0 0 (1 # 2))))
            (averageComplexity
               (complexityOf
                  (codeAnalysis Double.round [] (draw 0 0 (1 # 2)))))
            (maxComplexity
               (complexityOf
                  (codeAnalysis Double.round [] (draw 0 0 (1 # 2))))))
    with (F (metrics (codeAnalysis Double.round [] (draw 0 0 0)))
            (averageComplexity
               (complexityOf (codeAnalysis Double.round [] (draw 0 0 0))))
            (maxComplexity
               (complexityOf (codeAnalysis Double.round [] (draw 0 0 0)))))
    in H1.
  rewrite <- H0 in H1. discriminate H1.
Qed.

(** The formula is not what the handler reports: whatever the two logarithms
    are, the reported index is not the formula evaluated on the average
    complexity and the average number of lines of the result. *)
Lemma maintainability_is_not_the_formula :
  ~ (exists ln log2 : Q -> Q,
       forall files r,
         let a := codeAnalysis Double.round files r in
         maintainabilityIndex (complexityOf a)
         == specMaintainability ln log2
              (averageComplexity (complexityOf a))
              (averageLines (metrics a))).
Proof.
  intros (ln & log2 & H).
  apply (maintainability_not_a_function_of_the_project
           (fun m avg _ => specMaintainability ln log2 avg (averageLines m))).
  exact H.
Qed.

(** What the handler reports instead: [60 + r * 30] for the third
    [Math.random()] draw [r] of the [complexity] object.  With a rounding
    that is monotone and exact on 0, 30, 60 and 90 (as rounding to double
    precision is) and [r] between 0 and 1, the number lies between 60 and
    90, whatever files were analysed. *)
Lemma reported_index_between_60_and_90 :
  forall rnd : Q -> Q,
    (forall x y, x <= y -> rnd x <= rnd y) ->
    rnd 0 == 0 -> rnd 30 == 30 -> rnd 60 == 60 -> rnd 90 == 90 ->
    forall (files : list Metrics.SourceFile) (r : Draws),
      0 <= r3 r -> r3 r <= 1 ->
      60 <= maintainabilityIndex (complexityOf (codeAnalysis rnd files r))
         <= 90.
Proof.
  intros rnd Hmono H0 H30 H60 H90 files r Hlo Hhi.
  cbn. unfold fadd, JS.fmul.
  assert (A0 : rnd 0 <= rnd (r3 r * 30)) by (apply Hmono; lra).
  assert (A30 : rnd (r3 r * 30) <= rnd 30) by (apply Hmono; lra).
  assert (B60 : rnd 60 <= rnd (60 + rnd (r3 r * 30))) by (apply Hmono; lra).
  assert (B90 : rnd (60 + rnd (r3 r * 30)) <= rnd 90) by (apply Hmono; lra).
  split; lra.
Qed.

(** C4, at the failing input.  Two results of the handler for one
    project report different maintainability indices.  The results [a]
    and [b] are computed from the same files, with the same first two
    draws and the third draw 0 and 1/2: they agree on the metrics of the
    project and on the average and the maximum complexity, and report the
    indices 60 and 75.  So no function of the project's numbers gives the
    index in both, and in particular, whatever the two logarithms are,
    the formula of the specification on the average complexity and the
    average number of lines does not. *)
Theorem maintainability_differs_between_two_runs_on_one_project :
  forall (files : list Metrics.SourceFile) (u v : Q),
    let a := codeAnalysis Double.round files (draw u v 0) in
    let b := codeAnalysis Double.round files (draw u v (1 # 2)) in
    metrics a = metrics b
    /\ averageComplexity (complexityOf a) = averageComplexity (complexityOf b)
    /\ maxComplexity (complexityOf a) = maxComplexity (complexityOf b)
    /\ maintainabilityIndex (complexityOf a) == 60
    /\ maintainabilityIndex (complexityOf b) == 75
    /\ (forall F : Metrics.CodeMetrics -> Q -> Q -> Q,
          ~ (maintainabilityIndex (complexityOf a)
             == F (metrics a) (averageComplexity (complexityOf a))
                  (maxComplexity (complexityOf a))
             /\ maintainabilityIndex (complexityOf b)
                == F (metrics b) (averageComplexity (complexityOf b))
                     (maxComplexity (complexityOf b))))
    /\ (forall ln log2 : Q -> Q,
          ~ (maintainabilityIndex (complexityOf a)
             == specMaintainability ln log2
                  (averageComplexity (complexityOf a))
                  (averageLines (metrics a))
             /\ maintainabilityIndex (complexityOf b)
                == specMaintainability ln log2
                     (averageComplexity (complexityOf b))
                     (averageLines (metrics b)))).
Proof.
  intros files u v a b.
  assert (Ha : maintainabilityIndex (complexityOf a) == 60)
    by apply maintainability_at_0.
  assert (Hb : maintainabilityIndex (complexityOf b) == 75)
    by apply maintainability_at_half.
  assert (Hm : metrics a = metrics b) by reflexivity.
  assert (Havg : averageComplexity (complexityOf a)
                 = averageComplexity (complexityOf b)) by reflexivity.
  assert (Hmax : maxComplexity (complexityOf a)
                 = maxComplexity (complexityOf b)) by reflexivity.
  assert (Hno : forall F : Metrics.CodeMetrics -> Q -> Q -> Q,
    ~ (maintainabilityIndex (complexityOf a)
       == F (metrics a) (averageComplexity (complexityOf a))
            (maxComplexity (complexityOf a))
       /\ maintainabilityIndex (complexityOf b)
          == F (metrics b) (averageComplexity (complexityOf b))
               (maxComplexity (complexityOf b)))).
  { intros F [Fa Fb]. rewrite <- Hm, <- Havg, <- Hmax in Fb.
    rewrite Ha in Fa. rewrite Hb in Fb. rewrite <- Fa in Fb.
    discriminate Fb. }
  repeat (split; [assumption|]).
  intros ln log2.
  exact (Hno (fun m avg _ => specMaintainability ln log2 avg (averageLines m))).
Qed.

End HandlerFacts.

(* ================================================================== *)
(** ** The secret scan across lines and files *)

Module SecretScanFacts.
Import SecurityScanner SecurityReport.

Lemma testPatterns_acc filePath i l ps acc :
  testPatterns filePath i l ps acc
  = (fst (testPatterns filePath i l ps []),
     (acc ++ snd (testPatterns filePath i l ps []))%list).
Proof.
  revert acc. induction ps as [|p ps IH]; intros acc; simpl.
  - now rewrite app_nil_r.
  - destruct (RegExp.test (pattern p) l) as [hit re'].
    destruct hit.
    + rewrite (IH (acc ++ _)%list). rewrite (IH [_]).
      destruct (testPatterns filePath i l ps []) as [ps'' out]; simpl.
      now rewrite <- app_assoc.
    + rewrite (IH acc).
      destruct (testPatterns filePath i l ps []) as [ps'' out]; simpl.
      reflexivity.
Qed.

Lemma scanLines_acc filePath ls : forall i ps acc,
  scanLines filePath i ls (ps, acc)
  = (fst (scanLines filePath i ls (ps, [])),
     (acc ++ snd (scanLines filePath i ls (ps, [])))%list).
Proof.
  induction ls as [|l ls IH]; intros i ps acc; simpl.
  - now rewrite app_nil_r.
  - rewrite (testPatterns_acc filePath i l ps acc).
    rewrite IH.
    destruct (testPatterns filePath i l ps []) as [ps1 out1] eqn:E1; simpl.
    rewrite (IH (S i) ps1 out1).
    destruct (scanLines filePath (S i) ls (ps1, [])) as [ps2 out2]; simpl.
    now rewrite app_assoc.
Qed.

Lemma fold_scanFile_acc fs : forall ps acc,
  fold_left scanFile fs (ps, acc)
  = (fst (scanFrom ps fs), (acc ++ snd (scanFrom ps fs))%list).
Proof.
  unfold scanFrom.
  induction fs as [|f fs IH]; intros ps acc; simpl.
  - now rewrite app_nil_r.
  - unfold scanFile at 2 4 6. simpl.
    rewrite (scanLines_acc (path f) (JS.split JS.LF (content f)) 0 ps acc).
    destruct (scanLines (path f) 0 (JS.split JS.LF (content f)) (ps, []))
      as [ps1 out1] eqn:E1; simpl.
    rewrite (IH ps1 (acc ++ out1)%list), (IH ps1 out1).
    simpl. now rewrite app_assoc.
Qed.

Lemma scanFrom_app ps fs gs :
  scanFrom ps (fs ++ gs)
  = (fst (scanFrom (fst (scanFrom ps fs)) gs),
     (snd (scanFrom ps fs) ++ snd (scanFrom (fst (scanFrom ps fs)) gs))%list).
Proof.
  unfold scanFrom at 1. rewrite fold_left_app.
  fold (scanFrom ps fs).
  destruct (scanFrom ps fs) as [ps1 out1]; simpl.
  apply fold_scanFile_acc.
Qed.

(** *** Labels and line numbers *)

Lemma testPatterns_labels filePath i l ps acc :
  map label (fst (testPatterns filePath i l ps acc)) = map label ps.
Proof.
  revert acc. induction ps as [|p ps IH]; intros acc; simpl; [reflexivity|].
  destruct (RegExp.test (pattern p) l) as [hit re'].
  match goal with |- context [testPatterns filePath i l ps ?a] =>
    specialize (IH a); destruct (testPatterns filePath i l ps a) end.
  simpl in *. now rewrite IH.
Qed.

Lemma testPatterns_findings filePath i l ps acc d :
  In d (snd (testPatterns filePath i l ps acc)) ->
  In d acc \/
  (file d = filePath /\ line d = i + 1 /\ In (labelOf d) (map label ps)).
Proof.
  revert acc. induction ps as [|p ps IH]; intros acc; simpl; [tauto|].
  destruct (RegExp.test (pattern p) l) as [hit re'].
  match goal with |- context [testPatterns filePath i l ps ?a] =>
    specialize (IH a); destruct (testPatterns filePath i l ps a) end.
  simpl in *. intros H. destruct (IH H) as [Hin | (Hf & Hl & Hlab)].
  - destruct hit; [|now left].
    apply in_app_or in Hin. destruct Hin as [Hin | [<- | []]];
      [now left | right; simpl; auto].
  - right; auto.
Qed.

Lemma testPatterns_length filePath i l ps acc :
  List.length (snd (testPatterns filePath i l ps acc))
  <= List.length acc + List.length ps.
Proof.
  revert acc. induction ps as [|p ps IH]; intros acc; simpl; [lia|].
  destruct (RegExp.test (pattern p) l) as [hit re'].
  match goal with |- context [testPatterns filePath i l ps ?a] =>
    specialize (IH a); destruct (testPatterns filePath i l ps a) end.
  simpl in *. destruct hit; [rewrite length_app in IH; simpl in IH|]; lia.
Qed.

Lemma scanLines_labels filePath ls : forall i st,
  map label (fst (scanLines filePath i ls st)) = map label (fst st).
Proof.
  induction ls as [|l ls IH]; intros i st; simpl; [reflexivity|].
  rewrite IH. apply testPatterns_labels.
Qed.

Lemma scanLines_findings filePath ls : forall i st d,
  In d (snd (scanLines filePath i ls st)) ->
  In d (snd st) \/
  (file d = filePath /\ i + 1 <= line d <= i + List.length ls
   /\ In (labelOf d) (map label (fst st))).
Proof.
  induction ls as [|l ls IH]; intros i st d; simpl; [tauto|].
  intros H. apply IH in H. destruct H as [H | (Hf & Hl & Hlab)].
  - apply testPatterns_findings in H.
    destruct H as [H | (Hf & Hl & Hlab)]; [now left|].
    right. repeat split; auto; lia.
  - rewrite testPatterns_labels in Hlab. right. repeat split; auto; lia.
Qed.

Lemma scanLines_length filePath ls : forall i st,
  List.length (snd (scanLines filePath i ls st))
  <= List.length (snd st) + List.length (fst st) * List.length ls.
Proof.
  induction ls as [|l ls IH]; intros i st; simpl; [lia|].
  etransitivity; [apply IH|].
  assert (Hl : List.length (fst (testPatterns filePath i l (fst st) (snd st)))
               = List.length (fst st)).
  { rewrite <- (length_map label), testPatterns_labels.
    apply length_map. }
  rewrite Hl.
  pose proof (testPatterns_length filePath i l (fst st) (snd st)). lia.
Qed.

Lemma fold_scanFile_labels fs : forall st,
  map label (fst (fold_left scanFile fs st)) = map label (fst st).
Proof.
  induction fs as [|f fs IH]; intros st; simpl; [reflexivity|].
  rewrite IH. apply scanLines_labels.
Qed.

Lemma fold_scanFile_findings fs : forall st d,
  In d (snd (fold_left scanFile fs st)) ->
  In d (snd st) \/
  exists f, In f fs /\ file d = path f
            /\ 1 <= line d <= lineCount f
            /\ In (labelOf d) (map label (fst st)).
Proof.
  induction fs as [|f fs IH]; intros st d; simpl; [tauto|].
  intros H. apply IH in H. destruct H as [H | (g & Hin & Hrest)].
  - apply scanLines_findings in H.
    destruct H as [H | (Hf & Hl & Hlab)]; [now left|].
    right. exists f. unfold lineCount. repeat split; auto; lia.
  - right. exists g. unfold scanFile in Hrest.
    rewrite scanLines_labels in Hrest. tauto.
Qed.

Lemma fold_scanFile_length fs : forall st,
  List.length (snd (fold_left scanFile fs st))
  <= List.length (snd st)
     + List.length (fst st) * list_sum (map lineCount fs).
Proof.
  induction fs as [|f fs IH]; intros st; simpl; [lia|].
  etransitivity; [apply IH|].
  assert (Hl : List.length (fst (scanFile st f)) = List.length (fst st)).
  { rewrite <- (length_map label). unfold scanFile.
    rewrite scanLines_labels. apply length_map. }
  rewrite Hl.
  pose proof (scanLines_length (path f) (JS.split JS.LF (content f)) 0 st).
  unfold scanFile, lineCount. simpl in *. nia.
Qed.

(** X1.  Every finding names a scanned file, one of its lines and one of
    the thirteen patterns of the table: what the scan reports is never
    invented, whatever state the expressions are in. *)
Theorem secret_findings_come_from_files_and_table fs d :
  In d (scanForSecrets fs) ->
  exists f p,
    In f fs /\ In p secretPatterns
    /\ file d = path f
    /\ 1 <= line d <= lineCount f
    /\ type d = name p /\ severity d = p_severity p
    /\ description d = p_description p.
Proof.
  unfold scanForSecrets. intros H.
  apply fold_scanFile_findings in H. simpl fst in H; simpl snd in H.
  destruct H as [[] | (f & Hin & Hf & Hl & Hlab)].
  apply in_map_iff in Hlab. destruct Hlab as (p & Hp & Hinp).
  exists f, p. unfold label, labelOf in Hp. inversion Hp.
  repeat split; auto; lia.
Qed.

Lemma secret_findings_come_from_files_and_table_witness :
  exists f p,
    In f [Scenarios.keyFileA] /\ In p secretPatterns
    /\ file (Scenarios.awsFinding "a.js" 1) = path f
    /\ 1 <= line (Scenarios.awsFinding "a.js" 1) <= lineCount f
    /\ type (Scenarios.awsFinding "a.js" 1) = name p
    /\ severity (Scenarios.awsFinding "a.js" 1) = p_severity p
    /\ description (Scenarios.awsFinding "a.js" 1) = p_description p.
Proof.
  apply (secret_findings_come_from_files_and_table [Scenarios.keyFileA]).
  vm_compute. left. reflexivity.
Defined.

(** *** One finding per line and pattern *)

Lemma map_selected {A B} (g : A -> B) mask (rows : list A) :
  map g (selected mask rows) = selected mask (map g rows).
Proof.
  revert rows. induction mask as [|hit mask IH]; intros [|row rows];
    simpl; try reflexivity.
  destruct hit; simpl; now rewrite IH.
Qed.

Lemma findingOf_label filePath n p :
  findingOf filePath n p
  = {| type := fst (fst (label p)); file := filePath; line := n;
       severity := snd (fst (label p)); description := snd (label p) |}.
Proof. reflexivity. Qed.

Lemma findings_by_label filePath n mask ps qs :
  map label ps = map label qs ->
  map (findingOf filePath n) (selected mask ps)
  = map (findingOf filePath n) (selected mask qs).
Proof.
  intros H.
  assert (E : forall rows,
    map (findingOf filePath n) (selected mask rows)
    = map (fun lab => {| type := fst (fst lab); file := filePath; line := n;
                         severity := snd (fst lab);
                         description := snd lab |})
          (selected mask (map label rows))).
  { intros rows. rewrite <- map_selected, map_map. reflexivity. }
  now rewrite !E, H.
Qed.

(** The findings of one line: those the mask of the hits selects. *)
Lemma testPatterns_selected filePath i l ps :
  snd (testPatterns filePath i l ps [])
  = map (findingOf filePath (i + 1))
        (selected (map (fun p => fst (RegExp.test (pattern p) l)) ps) ps).
Proof.
  induction ps as [|p ps IH]; [reflexivity|].
  cbn [testPatterns map selected].
  destruct (RegExp.test (pattern p) l) as [hit re']. cbn [fst].
  destruct hit.
  - rewrite testPatterns_acc.
    destruct (testPatterns filePath i l ps []) as [ps'' out].
    cbn [snd fst app map] in *. now rewrite IH.
  - destruct (testPatterns filePath i l ps []) as [ps'' out].
    cbn [snd] in *. exact IH.
Qed.

Lemma scanLines_report filePath ls : forall i ps,
  map label ps = map label secretPatterns ->
  exists masks,
    (List.length masks = List.length ls
     /\ Forall (fun mask => List.length mask = List.length secretPatterns)
               masks)
    /\ snd (scanLines filePath i ls (ps, [])) = linesReport filePath i masks.
Proof.
  induction ls as [|l ls IH]; intros i ps Hlab.
  - exists []. repeat split; constructor.
  - cbn [scanLines fst snd].
    pose proof (testPatterns_selected filePath i l ps) as Hsel.
    pose proof (testPatterns_labels filePath i l ps []) as Hl.
    destruct (testPatterns filePath i l ps []) as [ps1 out1].
    cbn [fst snd] in *.
    destruct (IH (S i) ps1) as (masks & (Hlen & Hall) & Hrep);
      [congruence|].
    rewrite scanLines_acc. cbn [snd]. rewrite Hrep, Hsel.
    exists (map (fun p => fst (RegExp.test (pattern p) l)) ps :: masks).
    split; [split|].
    + simpl. now rewrite Hlen.
    + constructor; [|exact Hall].
      rewrite length_map, <- (length_map label ps), Hlab.
      apply length_map.
    + cbn [linesReport].
      now rewrite (findings_by_label _ _ _ ps secretPatterns Hlab).
Qed.

Lemma scanFrom_report fs : forall ps,
  map label ps = map label secretPatterns ->
  exists masks,
    Forall2 masksFit fs masks
    /\ snd (scanFrom ps fs) = filesReport fs masks.
Proof.
  induction fs as [|f fs IH]; intros ps Hlab.
  - exists []. split; [constructor | reflexivity].
  - unfold scanFrom. cbn [fold_left]. unfold scanFile at 2. cbn [fst snd].
    destruct (scanLines_report (path f) (JS.split JS.LF (content f)) 0 ps Hlab)
      as (fileMasks & Hfit & Hrep).
    pose proof (scanLines_labels (path f) (JS.split JS.LF (content f)) 0
                  (ps, [])) as Hl.
    destruct (scanLines (path f) 0 (JS.split JS.LF (content f)) (ps, []))
      as [ps1 out1].
    cbn [fst snd] in *.
    destruct (IH ps1) as (masks & Hfits & Hreps); [congruence|].
    rewrite fold_scanFile_acc. cbn [snd]. rewrite Hreps, Hrep.
    exists (fileMasks :: masks). split; [|reflexivity].
    constructor; [exact Hfit | exact Hfits].
Qed.

Lemma secretPatterns_names_distinct : NoDup (map name secretPatterns).
Proof.
  apply (NoDup_count_occ' string_dec). intros x Hx.
  simpl in Hx.
  repeat (destruct Hx as [<- | Hx]; [vm_compute; reflexivity|]).
  contradiction.
Qed.

(** X2.  A pattern reports a line at most once.  The findings are, file
    after file and line after line, one finding for each pattern that a
    mask of the line selects from the table of thirteen patterns, in the
    order of the table and under the number of that line; the names of
    the table are distinct, so a line has at most thirteen findings and
    no two of the same type.  And the findings for the files scanned so
    far are final: scanning further files only appends to them. *)
Theorem secret_findings_once_per_line_and_pattern fs gs :
  (exists masks,
     Forall2 masksFit fs masks
     /\ scanForSecrets fs = filesReport fs masks)
  /\ NoDup (map name secretPatterns)
  /\ List.length (scanForSecrets fs) <= 13 * list_sum (map lineCount fs)
  /\ exists later, scanForSecrets (fs ++ gs) = (scanForSecrets fs ++ later)%list.
Proof.
  split; [|split; [|split]].
  - exact (scanFrom_report fs secretPatterns eq_refl).
  - exact secretPatterns_names_distinct.
  - unfold scanForSecrets.
    pose proof (fold_scanFile_length fs (secretPatterns, [])) as H.
    simpl in H. exact H.
  - unfold scanForSecrets. fold (scanFrom secretPatterns (fs ++ gs)).
    rewrite scanFrom_app. simpl. eexists. reflexivity.
Qed.

(** *** Files that end with a line feed *)

Lemma secretPatterns_quiet : Forall quiet secretPatterns.
Proof.
  repeat constructor; intros [|n]; reflexivity.
Qed.

Lemma secretPatterns_sameBut : Forall2 sameBut secretPatterns secretPatterns.
Proof.
  repeat constructor.
Qed.

Lemma setLastIndex_twice re n m :
  RegExp.setLastIndex (RegExp.setLastIndex re n) m = RegExp.setLastIndex re m.
Proof. reflexivity. Qed.

Lemma test_sameSource re l :
  snd (RegExp.test re l)
  = RegExp.setLastIndex re (RegExp.lastIndex (snd (RegExp.test re l)))
  \/ snd (RegExp.test re l) = re.
Proof.
  unfold RegExp.test, RegExp.exec.
  destruct (_ <? _).
  - destruct (RegExp.global re); simpl; auto.
  - destruct (RegExp.searchFrom _ _ _ _ _); destruct (RegExp.global re);
      simpl; auto.
Qed.

Lemma testPatterns_sameBut filePath i l ps qs acc :
  Forall2 sameBut ps qs ->
  Forall2 sameBut (fst (testPatterns filePath i l ps acc)) qs.
Proof.
  intros H. revert acc. induction H as [|p q ps qs [Hlab Hpat] H IH];
    intros acc; simpl; [constructor|].
  destruct (RegExp.test (pattern p) l) as [hit re'] eqn:E.
  match goal with |- context [testPatterns filePath i l ps ?a] =>
    specialize (IH a); destruct (testPatterns filePath i l ps a) end.
  simpl in *. constructor; [|exact IH].
  split; [exact Hlab|]. simpl.
  pose proof (test_sameSource (pattern p) l) as Hs. rewrite E in Hs.
  simpl in Hs. destruct Hs as [Hs | Hs].
  - rewrite Hs at 1. rewrite Hpat. reflexivity.
  - rewrite Hs. exact Hpat.
Qed.

Lemma scanLines_sameBut filePath ls qs : forall i st,
  Forall2 sameBut (fst st) qs ->
  Forall2 sameBut (fst (scanLines filePath i ls st)) qs.
Proof.
  induction ls as [|l ls IH]; intros i st H; simpl; [exact H|].
  apply IH. now apply testPatterns_sameBut.
Qed.

Lemma withRegExp_sameBut p q :
  sameBut p q -> withRegExp p (pattern q) = q.
Proof.
  intros [Hlab _]. destruct p, q. unfold label in Hlab. simpl in *.
  inversion Hlab. subst. reflexivity.
Qed.

Lemma testPatterns_empty_line filePath i ps qs acc :
  Forall2 sameBut ps qs -> Forall quiet qs ->
  testPatterns filePath i "" ps acc = (qs, acc).
Proof.
  intros H. revert acc. induction H as [|p q ps qs Hpq H IH];
    intros acc Hq; simpl; [reflexivity|].
  inversion Hq as [|? ? Hq1 Hq2]; subst.
  destruct Hpq as [Hlab Hpat]. rewrite Hpat, Hq1.
  rewrite (IH acc Hq2). f_equal. f_equal.
  apply withRegExp_sameBut. split; [exact Hlab | exact Hpat].
Qed.

Lemma scanLines_app filePath ls ms : forall i st,
  scanLines filePath i (ls ++ ms) st
  = scanLines filePath (i + List.length ls) ms (scanLines filePath i ls st).
Proof.
  induction ls as [|l ls IH]; intros i st; simpl.
  - now rewrite Nat.add_0_r.
  - rewrite IH. f_equal. lia.
Qed.

Lemma split_snoc_LF s :
  JS.split JS.LF (s ++ String JS.LF "") = (JS.split JS.LF s ++ [""])%list.
Proof.
  induction s as [|c s IH]; simpl; [reflexivity|].
  destruct (Ascii.eqb c JS.LF).
  - now rewrite IH.
  - rewrite IH. pose proof (LineFacts.split_not_nil JS.LF s) as Hne.
    destruct (JS.split JS.LF s); [congruence | reflexivity].
Qed.

Lemma substring_last c s :
  String.substring (String.length s - 1) 1 s = String c "" ->
  exists s', s = s' ++ String c "".
Proof.
  induction s as [|a s IH]; [discriminate|].
  replace (String.length (String a s) - 1) with (String.length s)
    by (simpl; lia).
  destruct s as [|b s].
  - simpl. intros H. inversion H. exists "". reflexivity.
  - replace (String.length (String b s) - 1) with (String.length s) in IH
      by (simpl; lia).
    simpl String.length. simpl String.substring at 1.
    intros H. destruct (IH H) as [s' Hs']. exists (String a s').
    simpl. now rewrite Hs'.
Qed.

Lemma endsWithLineFeed_split f :
  endsWithLineFeed f = true ->
  exists ls, JS.split JS.LF (content f) = (ls ++ [""])%list.
Proof.
  unfold endsWithLineFeed. intros H. apply orb_true_iff in H.
  destruct H as [H | H].
  - apply String.eqb_eq in H. rewrite H. exists []. reflexivity.
  - unfold JS.endsWith in H. apply andb_true_iff in H. destruct H as [_ H].
    apply String.eqb_eq in H. simpl String.length in H.
    apply substring_last in H. destruct H as [s' ->].
    exists (JS.split JS.LF s'). apply split_snoc_LF.
Qed.

Lemma scanFile_resets st f qs :
  Forall2 sameBut (fst st) qs -> Forall quiet qs ->
  endsWithLineFeed f = true ->
  fst (scanFile st f) = qs.
Proof.
  intros Hs Hq He. unfold scanFile.
  destruct (endsWithLineFeed_split f He) as [ls ->].
  rewrite scanLines_app. simpl.
  rewrite (testPatterns_empty_line _ _ _ qs); [reflexivity | | exact Hq].
  now apply scanLines_sameBut.
Qed.

Lemma fold_scanFile_resets fs : forall st qs,
  Forall2 sameBut (fst st) qs -> Forall quiet qs ->
  forallb endsWithLineFeed fs = true ->
  fs <> [] ->
  fst (fold_left scanFile fs st) = qs.
Proof.
  induction fs as [|f fs IH]; intros st qs Hs Hq He Hne; [congruence|].
  simpl in *. apply andb_true_iff in He. destruct He as [He1 He2].
  pose proof (scanFile_resets st f qs Hs Hq He1) as H1.
  destruct fs as [|g fs]; [exact H1|].
  apply IH; auto; [|discriminate].
  rewrite H1. clear. induction qs as [|q qs IH]; constructor; auto.
  split; [reflexivity|]. now destruct (pattern q).
Qed.

(** X3.  When every file of a first batch ends with a line feed (or is
    empty), scanning the two batches in one run reports what two separate
    runs report: the empty last line leaves every expression as it was
    created, so nothing carries over to the next file. *)
Theorem files_ending_with_line_feed_scan_independently fs gs :
  forallb endsWithLineFeed fs = true ->
  scanForSecrets (fs ++ gs) = (scanForSecrets fs ++ scanForSecrets gs)%list.
Proof.
  intros He. unfold scanForSecrets.
  fold (scanFrom secretPatterns (fs ++ gs)).
  rewrite scanFrom_app. simpl snd.
  destruct fs as [|f fs]; [reflexivity|].
  assert (Hr : fst (scanFrom secretPatterns (f :: fs)) = secretPatterns).
  { apply fold_scanFile_resets;
      auto using secretPatterns_sameBut, secretPatterns_quiet.
    discriminate. }
  rewrite Hr. reflexivity.
Qed.

Lemma files_ending_with_line_feed_scan_independently_witness :
  scanForSecrets ([keyFile "a.js"] ++ [Scenarios.keyFileB])
  = (scanForSecrets [keyFile "a.js"]
     ++ scanForSecrets [Scenarios.keyFileB])%list.
Proof.
  apply (files_ending_with_line_feed_scan_independently
           [keyFile "a.js"] [Scenarios.keyFileB]).
  reflexivity.
Defined.

End SecretScanFacts.

(* ================================================================== *)
(** ** The scores and the rating of the security scan *)

Module SecurityReportFacts.
Import SecurityScanner SecurityReport.

Local Open Scope Z_scope.

Section Scores.
Context {A : Type} (cost : A -> Z).
Hypothesis cost_min : forall x, 5 <= cost x.

Lemma fold_cost l : forall d,
  fold_left (fun d x => d + cost x) l d = d + total cost l.
Proof.
  induction l as [|x l IH]; intros d; simpl; [lia|]. rewrite IH. lia.
Qed.

Lemma total_nonneg l : 0 <= total cost l.
Proof.
  induction l as [|x l IH]; simpl; [lia|]. pose proof (cost_min x). lia.
Qed.

Lemma total_app l l' : total cost (l ++ l') = total cost l + total cost l'.
Proof. induction l as [|x l IH]; simpl; [reflexivity|]. rewrite IH. lia. Qed.

Lemma score_closed l : score cost l = Z.max 0 (100 - total cost l).
Proof.
  unfold score. destruct l as [|x l]; [reflexivity|].
  simpl List.length. simpl Nat.eqb. cbv iota. now rewrite fold_cost.
Qed.

Lemma score_facts l l' x :
  0 <= score cost l <= 100
  /\ score cost (l ++ l') <= score cost l
  /\ score cost (l ++ [x]) <= Z.max 0 (score cost l - 5)
  /\ score cost (l ++ l') = score cost (l' ++ l).
Proof.
  rewrite !score_closed, !total_app.
  pose proof (total_nonneg l). pose proof (total_nonneg l').
  pose proof (cost_min x).
  assert (Hx : total cost [x] = cost x) by (unfold total; simpl; lia).
  rewrite Hx. lia.
Qed.
End Scores.

Lemma vulnerabilityScore_score vs :
  calculateVulnerabilityScore vs
  = score (fun v => vulnerabilityDeduction (v_severity v)) vs.
Proof. reflexivity. Qed.

Lemma secretScore_score ss :
  calculateSecretScore ss = score (fun s => secretDeduction (severity s)) ss.
Proof. reflexivity. Qed.

Lemma permissionScore_score ps :
  calculatePermissionScore ps
  = score (fun p => permissionDeduction (risk p)) ps.
Proof. reflexivity. Qed.

(** X4.  Each of the three scores lies between 0 and 100, never rises
    when findings are added, loses at least 5 points with every further
    finding until it is 0, and does not depend on the order in which
    two batches of findings are listed. *)
Theorem scores_bounded_and_decreasing :
  (forall l l' x,
     0 <= calculateVulnerabilityScore l <= 100
     /\ calculateVulnerabilityScore (l ++ l') <= calculateVulnerabilityScore l
     /\ calculateVulnerabilityScore (l ++ [x])
        <= Z.max 0 (calculateVulnerabilityScore l - 5)
     /\ calculateVulnerabilityScore (l ++ l')
        = calculateVulnerabilityScore (l' ++ l))
  /\ (forall l l' x,
     0 <= calculateSecretScore l <= 100
     /\ calculateSecretScore (l ++ l') <= calculateSecretScore l
     /\ calculateSecretScore (l ++ [x])
        <= Z.max 0 (calculateSecretScore l - 5)
     /\ calculateSecretScore (l ++ l') = calculateSecretScore (l' ++ l))
  /\ (forall l l' x,
     0 <= calculatePermissionScore l <= 100
     /\ calculatePermissionScore (l ++ l') <= calculatePermissionScore l
     /\ calculatePermissionScore (l ++ [x])
        <= Z.max 0 (calculatePermissionScore l - 5)
     /\ calculatePermissionScore (l ++ l')
        = calculatePermissionScore (l' ++ l)).
Proof.
  split; [|split]; intros l l' x.
  - rewrite !vulnerabilityScore_score. apply score_facts.
    intros v. destruct (v_severity v); simpl; lia.
  - rewrite !secretScore_score. apply score_facts.
    intros s. destruct (severity s); simpl; lia.
  - rewrite !permissionScore_score. apply score_facts.
    intros p. destruct (risk p); simpl; lia.
Qed.

(** *** The rating *)

Lemma ratingAgrees_upto_400 : forallb ratingAgrees (seq 0 401) = true.
Proof. vm_compute. reflexivity. Qed.

Lemma getRating_of_sum n :
  0 <= n <= 400 ->
  getRating (JS.fdiv Double.round (inject_Z n) 4) = ratingOfSum n.
Proof.
  intros Hn.
  pose proof ratingAgrees_upto_400 as H.
  rewrite forallb_forall in H.
  specialize (H (Z.to_nat n)).
  assert (Hin : In (Z.to_nat n) (seq 0 401)) by (apply in_seq; lia).
  specialize (H Hin). unfold ratingAgrees in H.
  rewrite Z2Nat.id in H by lia.
  destruct (getRating _), (ratingOfSum n); congruence.
Qed.

Lemma vulnerabilityScore_range l : 0 <= calculateVulnerabilityScore l <= 100.
Proof.
  rewrite vulnerabilityScore_score, score_closed.
  assert (Hc : forall v, 5 <= vulnerabilityDeduction (v_severity v))
    by (intros v; destruct (v_severity v); simpl; lia).
  pose proof (total_nonneg _ Hc l). lia.
Qed.

Lemma secretScore_range l : 0 <= calculateSecretScore l <= 100.
Proof.
  rewrite secretScore_score, score_closed.
  assert (Hc : forall s, 5 <= secretDeduction (severity s))
    by (intros s; destruct (severity s); simpl; lia).
  pose proof (total_nonneg _ Hc l). lia.
Qed.

Lemma permissionScore_range l : 0 <= calculatePermissionScore l <= 100.
Proof.
  rewrite permissionScore_score, score_closed.
  assert (Hc : forall p, 5 <= permissionDeduction (risk p))
    by (intros p; destruct (risk p); simpl; lia).
  pose proof (total_nonneg _ Hc l). lia.
Qed.

Lemma scan_rating clock options files :
  let r := scan clock options files in
  overallRating r
  = ratingOfSum (2 * s_vulnerabilities (scoreBreakdown r)
                 + s_secrets (scoreBreakdown r)
                 + s_permissions (scoreBreakdown r)).
Proof.
  cbv zeta. unfold scan. cbn [overallRating scoreBreakdown s_vulnerabilities
    s_secrets s_permissions]. unfold overallScore.
  cbn [s_vulnerabilities s_secrets s_permissions s_dependencies].
  unfold calculateDependencyScore.
  set (v := calculateVulnerabilityScore _).
  set (s := calculateSecretScore _).
  set (p := calculatePermissionScore _).
  assert (Hv : 0 <= v <= 100) by apply vulnerabilityScore_range.
  assert (Hs : 0 <= s <= 100) by apply secretScore_range.
  assert (Hp : 0 <= p <= 100) by apply permissionScore_range.
  rewrite getRating_of_sum by lia. f_equal. lia.
Qed.

(** X5.  The rating of [scan] is fixed by twice the vulnerability score
    plus the secret score plus the permission score (the dependency score
    is the vulnerability score once more), with the thresholds 360, 280,
    200 and 120 on that sum; the mean is exact in double precision.  The
    list of dependencies is always empty. *)
Theorem scan_rating_counts_vulnerabilities_twice clock options files :
  let r := scan clock options files in
  s_dependencies (scoreBreakdown r) = s_vulnerabilities (scoreBreakdown r)
  /\ overallRating r
     = ratingOfSum (2 * s_vulnerabilities (scoreBreakdown r)
                    + s_secrets (scoreBreakdown r)
                    + s_permissions (scoreBreakdown r))
  /\ dependencies r = [].
Proof.
  split; [reflexivity|]. split; [apply scan_rating | reflexivity].
Qed.

(** X6.  Secrets alone never bring the rating below [good]: when the
    dependency scan and the permission scan report nothing, the rating is
    [excellent] for a secret score of 60 or more and [good] otherwise,
    however many secrets were found. *)
Theorem secrets_alone_never_rate_below_good clock options files :
  vulnerabilities (scan clock options files) = [] ->
  permissions_ (scan clock options files) = [] ->
  overallRating (scan clock options files)
  = if 60 <=? s_secrets (scoreBreakdown (scan clock options files))
    then excellent else good.
Proof.
  intros Hv Hp. rewrite scan_rating.
  unfold scan in *. cbn [vulnerabilities permissions_ scoreBreakdown
    s_vulnerabilities s_secrets s_permissions] in *.
  rewrite Hv, Hp.
  change (calculateVulnerabilityScore []) with 100.
  change (calculatePermissionScore []) with 100.
  set (s := calculateSecretScore _).
  assert (Hs : 0 <= s <= 100) by apply secretScore_range.
  unfold ratingOfSum.
  destruct (60 <=? s) eqn:E.
  - apply Z.leb_le in E.
    replace (360 <=? 2 * 100 + s + 100) with true
      by (symmetry; apply Z.leb_le; lia). reflexivity.
  - apply Z.leb_gt in E.
    replace (360 <=? 2 * 100 + s + 100) with false
      by (symmetry; apply Z.leb_gt; lia).
    replace (280 <=? 2 * 100 + s + 100) with true
      by (symmetry; apply Z.leb_le; lia). reflexivity.
Qed.

Lemma secrets_alone_never_rate_below_good_witness :
  overallRating (scan midnight defaultOptions fiveKeyFiles)
  = if 60 <=? s_secrets (scoreBreakdown
                           (scan midnight defaultOptions fiveKeyFiles))
    then excellent else good.
Proof.
  apply (secrets_alone_never_rate_below_good midnight defaultOptions
           fiveKeyFiles); vm_compute; reflexivity.
Defined.

(** *** The permission scan *)

Lemma checkPermissions_acc acc f :
  checkPermissions acc f = (acc ++ checkPermissions [] f)%list.
Proof.
  unfold checkPermissions.
  destruct (_ || _), (_ && _); simpl;
    rewrite <- ?app_assoc, ?app_nil_r; reflexivity.
Qed.

Lemma fold_checkPermissions fs : forall acc,
  fold_left checkPermissions fs acc
  = (acc ++ flat_map (checkPermissions []) fs)%list.
Proof.
  induction fs as [|f fs IH]; intros acc; simpl.
  - now rewrite app_nil_r.
  - rewrite IH, (checkPermissions_acc acc f). now rewrite app_assoc.
Qed.

Lemma checkPermissions_ok f :
  Forall permissionFindingOk (checkPermissions [] f)
  /\ (List.length (checkPermissions [] f) <= 2)%nat.
Proof.
  unfold checkPermissions.
  destruct (_ || _); destruct (_ && _) eqn:E; simpl;
    try apply andb_true_iff in E;
    (split; [repeat constructor; simpl; tauto | lia]).
Qed.

Lemma total_high (l : list PermissionCheck) :
  Forall permissionFindingOk l ->
  total (fun p => permissionDeduction (risk p)) l
  = 15 * Z.of_nat (List.length l).
Proof.
  induction 1 as [|c l [Hc _] _ IH]; [reflexivity|].
  cbn [total fold_right List.length]. fold (total (fun p => permissionDeduction (risk p)) l).
  rewrite IH, Hc. simpl permissionDeduction. lia.
Qed.

(** X7.  The permission scan looks at each file on its own, so the
    findings of two batches are those of the first followed by those of the
    second; a file gives at most two findings, every finding is of high
    risk, an [eval] finding names a file whose path ends in [.js], and the
    permission score is 100 less 15 per finding, not below 0. *)
Theorem permission_scan_is_per_file fs gs :
  scanPermissions (fs ++ gs) = (scanPermissions fs ++ scanPermissions gs)%list
  /\ Forall permissionFindingOk (scanPermissions fs)
  /\ (List.length (scanPermissions fs) <= 2 * List.length fs)%nat
  /\ calculatePermissionScore (scanPermissions fs)
     = Z.max 0 (100 - 15 * Z.of_nat (List.length (scanPermissions fs))).
Proof.
  unfold scanPermissions. rewrite !fold_checkPermissions. simpl.
  assert (Hok : Forall permissionFindingOk
                  (flat_map (checkPermissions []) fs)).
  { induction fs as [|f fs IH]; simpl; [constructor|].
    apply Forall_app. split; [apply checkPermissions_ok | exact IH]. }
  split; [apply flat_map_app|]. split; [exact Hok|]. split.
  - clear Hok. induction fs as [|f fs IH]; simpl; [lia|].
    rewrite length_app.
    pose proof (proj2 (checkPermissions_ok f)). lia.
  - rewrite permissionScore_score, score_closed.
    now rewrite total_high.
Qed.

(** *** The dependency scan *)

Lemma fold_known clock f ks : forall acc,
  map advisory
    (fold_left
       (fun vulnerabilities vuln =>
          if fst (RegExp.test (newRegExp (k_pattern vuln)) (content f))
          then (vulnerabilities ++ [found clock vuln vulnerabilities])%list
          else vulnerabilities) ks acc)
  = (map advisory acc
     ++ map advisoryOf
          (filter (fun k => fst (RegExp.test (newRegExp (k_pattern k))
                                             (content f))) ks))%list.
Proof.
  induction ks as [|k ks IH]; intros acc; simpl.
  - now rewrite app_nil_r.
  - rewrite IH. destruct (fst (RegExp.test _ _)); [|reflexivity].
    rewrite map_app. simpl. now rewrite <- app_assoc.
Qed.

Lemma fold_checkPackageJson clock fs : forall acc,
  map advisory (fold_left (checkPackageJson clock) fs acc)
  = (map advisory acc ++ flat_map advisoriesFor fs)%list.
Proof.
  induction fs as [|f fs IH]; intros acc; simpl.
  - now rewrite app_nil_r.
  - rewrite IH. unfold checkPackageJson. rewrite fold_known.
    unfold advisoriesFor. now rewrite <- app_assoc.
Qed.

Lemma scanDependencies_advisories clock fs :
  map advisory (scanDependencies clock fs)
  = flat_map advisoriesFor (filter isPackageJson fs).
Proof.
  unfold scanDependencies. now rewrite fold_checkPackageJson.
Qed.

Lemma advisoriesFor_length f : (List.length (advisoriesFor f) <= 3)%nat.
Proof.
  unfold advisoriesFor. rewrite length_map.
  etransitivity; [apply HistoryFacts.filter_length_le|]. simpl. lia.
Qed.

(** X8.  The dependency scan reads only the files whose path ends in
    [package.json] and reports each of them on its own: at most three
    findings per such file, the findings of two batches one after the
    other, and nothing but the [id] of a finding depends on the clock (so
    neither does the vulnerability score). *)
Theorem dependency_scan_reads_package_json_only clock clock' fs gs :
  map advisory (scanDependencies clock (fs ++ gs))
  = (map advisory (scanDependencies clock fs)
     ++ map advisory (scanDependencies clock gs))%list
  /\ map advisory (scanDependencies clock fs)
     = map advisory (scanDependencies clock' fs)
  /\ (List.length (scanDependencies clock fs)
      <= 3 * List.length (filter isPackageJson fs))%nat
  /\ calculateVulnerabilityScore (scanDependencies clock fs)
     = calculateVulnerabilityScore (scanDependencies clock' fs).
Proof.
  rewrite !scanDependencies_advisories.
  split; [|split; [reflexivity|split]].
  - now rewrite filter_app, flat_map_app.
  - rewrite <- (length_map advisory), scanDependencies_advisories.
    induction (filter isPackageJson fs) as [|f l IH]; simpl; [lia|].
    rewrite length_app. pose proof (advisoriesFor_length f). lia.
  - rewrite (vulnerabilityScore_score (scanDependencies clock fs)).
    rewrite (vulnerabilityScore_score (scanDependencies clock' fs)).
    rewrite !score_closed. f_equal. f_equal.
    assert (Ht : forall l,
      total (fun v => vulnerabilityDeduction (v_severity v)) l
      = fold_right (fun a d => vulnerabilityDeduction (snd (fst (fst (fst (fst a))))) + d)
          0 (map advisory l)).
    { induction l as [|v l IH]; simpl; [reflexivity|]. now rewrite <- IH. }
    now rewrite !Ht, !scanDependencies_advisories.
Qed.

End SecurityReportFacts.

(* ================================================================== *)
(** ** Reading the history back *)

Module HistoryQueryFacts.
Import HistoryService HistoryQueries.

Lemma find_filter_other (ident other : string) (l : list HistoryEntry) :
  find (fun e => String.eqb (id e) other)
       (filter (fun e => negb (String.eqb (id e) ident)) l)
  = if String.eqb other ident then None
    else find (fun e => String.eqb (id e) other) l.
Proof.
  induction l as [|e l IH]; simpl.
  - now destruct (String.eqb other ident).
  - destruct (String.eqb (id e) ident) eqn:E1; simpl.
    + rewrite IH. destruct (String.eqb other ident) eqn:E2; [reflexivity|].
      destruct (String.eqb (id e) other) eqn:E3; [|reflexivity].
      apply String.eqb_eq in E1, E3. rewrite <- E3, E1 in E2.
      now rewrite String.eqb_refl in E2.
    + destruct (String.eqb (id e) other) eqn:E3.
      * apply String.eqb_eq in E3. rewrite <- E3, E1. reflexivity.
      * exact IH.
Qed.

Lemma filter_filter_same (ident : string) (l : list HistoryEntry) :
  filter (fun e => negb (String.eqb (id e) ident))
         (filter (fun e => negb (String.eqb (id e) ident)) l)
  = filter (fun e => negb (String.eqb (id e) ident)) l.
Proof.
  induction l as [|e l IH]; simpl; [reflexivity|].
  destruct (negb _) eqn:E; simpl; [rewrite E, IH|]; auto.
Qed.

Lemma filter_absent (ident : string) (l : list HistoryEntry) :
  forallb (fun e => negb (String.eqb (id e) ident)) l = true ->
  filter (fun e => negb (String.eqb (id e) ident)) l = l.
Proof.
  induction l as [|e l IH]; simpl; [reflexivity|].
  intros H. apply andb_true_iff in H. destruct H as [H1 H2].
  rewrite H1, IH; auto.
Qed.

(** X9.  A [deleteAnalysis] that reports success has removed every
    entry with that id and no other: afterwards the id is not found, every
    other id is found as before, and deleting the id again changes
    nothing and still reports success. *)
Theorem delete_removes_the_id_and_nothing_else d ident other :
  fst (deleteAnalysis d ident) = true ->
  let d' := snd (deleteAnalysis d ident) in
  getAnalysisById d' other
  = (if String.eqb other ident then None else getAnalysisById d other)
  /\ deleteAnalysis d' ident = (true, d')
  /\ List.length (persisted d') <= List.length (persisted d).
Proof.
  unfold deleteAnalysis, getAnalysisById, persisted.
  destruct (loadHistory d) as [history|] eqn:E; [|discriminate].
  destruct (writable d) eqn:W; [|discriminate].
  intros _. cbv zeta. simpl. rewrite filter_filter_same.
  split; [apply find_filter_other|]. split; [reflexivity|].
  apply HistoryFacts.filter_length_le.
Qed.

Lemma delete_removes_the_id_and_nothing_else_witness :
  let d' := snd (deleteAnalysis smallDisk "1") in
  getAnalysisById d' "2"
  = (if String.eqb "2" "1" then None else getAnalysisById smallDisk "2")
  /\ deleteAnalysis d' "1" = (true, d')
  /\ List.length (persisted d') <= List.length (persisted smallDisk).
Proof.
  apply (delete_removes_the_id_and_nothing_else smallDisk "1" "2").
  reflexivity.
Defined.

Lemma saved_disk d a c e :
  fst (saveAnalysis d a c) = Returned e ->
  snd (saveAnalysis d a c)
  = {| historyFile := Parsed (JArray (JS.slice0 100 (e :: persisted d)));
       writable := true |}.
Proof.
  unfold saveAnalysis, persisted.
  destruct (loadHistory d) as [history|] eqn:E; [|discriminate].
  destruct (writable d) eqn:W; [|discriminate].
  cbv zeta. cbn [fst snd]. intros H. inversion H. reflexivity.
Qed.

(** X10.  After a [saveAnalysis] that returns, the returned entry is
    what [getAnalysisById] finds under its id (also when an older entry
    has the same id, the id being the clock reading), it is the first line
    of the summary, and the other ids are found among the 99 newest of the
    entries held before. *)
Theorem saved_entry_is_found_first d a c e ident :
  fst (saveAnalysis d a c) = Returned e ->
  let d' := snd (saveAnalysis d a c) in
  getAnalysisById d' (id e) = Some e
  /\ getAnalysisById d' ident
     = (if String.eqb (id e) ident then Some e
        else find (fun x => String.eqb (id x) ident)
                  (firstn 99 (persisted d)))
  /\ getHistorySummary d'
     = summaryOf e :: firstn 99 (getHistorySummary d).
Proof.
  intros H. cbv zeta. rewrite (saved_disk d a c e H).
  unfold getAnalysisById, getHistorySummary, persisted.
  cbn [loadHistory historyFile].
  change (JS.slice0 100 (e :: ?l)) with (e :: firstn 99 l).
  cbn [find map]. rewrite String.eqb_refl.
  split; [reflexivity|]. split; [reflexivity|].
  destruct (loadHistory d); [now rewrite firstn_map | now rewrite firstn_nil].
Qed.

Lemma saved_entry_is_found_first_witness :
  let a := Scenarios.sampleAnalysis "new" in
  let c := Scenarios.sampleClock 7 in
  let e := makeEntry a c in
  let d' := snd (saveAnalysis smallDisk a c) in
  getAnalysisById d' (id e) = Some e
  /\ getAnalysisById d' "1"
     = (if String.eqb (id e) "1" then Some e
        else find (fun x => String.eqb (id x) "1")
                  (firstn 99 (persisted smallDisk)))
  /\ getHistorySummary d'
     = summaryOf e :: firstn 99 (getHistorySummary smallDisk).
Proof.
  intros a c e.
  apply (saved_entry_is_found_first smallDisk a c e "1"). reflexivity.
Defined.

(** X11.  Saving an analysis and then deleting the returned id gives
    back the entries held before, when the store held fewer than 100
    entries and none of them had that id. *)
Theorem save_then_delete_restores d a c e :
  fst (saveAnalysis d a c) = Returned e ->
  List.length (persisted d) < 100 ->
  absent d (id e) = true ->
  let d' := snd (saveAnalysis d a c) in
  fst (deleteAnalysis d' (id e)) = true
  /\ persisted (snd (deleteAnalysis d' (id e))) = persisted d.
Proof.
  intros H Hlen Habs. cbv zeta. rewrite (saved_disk d a c e H).
  unfold deleteAnalysis. cbn [loadHistory historyFile writable fst snd].
  split; [reflexivity|].
  unfold persisted at 1. cbn [loadHistory historyFile].
  unfold JS.slice0. rewrite firstn_all2 by (simpl; lia).
  cbn [filter]. rewrite String.eqb_refl. cbn [negb].
  now apply filter_absent.
Qed.

Lemma save_then_delete_restores_witness :
  let a := Scenarios.sampleAnalysis "new" in
  let c := Scenarios.sampleClock 7 in
  let e := makeEntry a c in
  let d' := snd (saveAnalysis smallDisk a c) in
  fst (deleteAnalysis d' (id e)) = true
  /\ persisted (snd (deleteAnalysis d' (id e))) = persisted smallDisk.
Proof.
  intros a c e.
  apply (save_then_delete_restores smallDisk a c e).
  - reflexivity.
  - apply Nat.ltb_lt. reflexivity.
  - reflexivity.
Defined.

(** A store the service has produced holds an array, or no file yet. *)
Lemma reachable_array d :
  reachable d -> exists history, loadHistory d = JArray history.
Proof.
  induction 1 as [w | d w _ IH | d a c _ IH | d ident _ IH | d _ IH].
  - exists []. reflexivity.
  - exact IH.
  - destruct IH as [history IH]. unfold saveAnalysis. rewrite IH.
    destruct (writable d); [eexists; reflexivity | now exists history].
  - destruct IH as [history IH]. unfold deleteAnalysis. rewrite IH.
    destruct (writable d); [eexists; reflexivity | now exists history].
  - destruct IH as [history IH]. unfold clearHistory.
    destruct (writable d); [eexists; reflexivity | now exists history].
Qed.

(** X12.  On a store the service itself has produced (no file yet, then
    any saves, deletions and clearings, written or not), an operation
    fails only when its write fails: with a working write [saveAnalysis]
    returns the new entry, [deleteAnalysis] and [clearHistory] report
    success, and the summary has one line per entry. *)
Theorem operations_succeed_when_the_write_does d a c ident :
  reachable d ->
  writable d = true ->
  fst (saveAnalysis d a c) = Returned (makeEntry a c)
  /\ fst (deleteAnalysis d ident) = true
  /\ fst (clearHistory d) = true
  /\ List.length (getHistorySummary d) = List.length (persisted d).
Proof.
  intros Hr Hw. destruct (reachable_array d Hr) as [history Hh].
  unfold saveAnalysis, deleteAnalysis, clearHistory, getHistorySummary,
    persisted.
  rewrite Hh, Hw. cbn [fst]. rewrite length_map. auto.
Qed.

Lemma operations_succeed_when_the_write_does_witness :
  let d := snd (deleteAnalysis
                  (snd (saveAnalysis
                          {| historyFile := Missing; writable := true |}
                          (Scenarios.sampleAnalysis "first")
                          (Scenarios.sampleClock 1)))
                  "0") in
  let a := Scenarios.sampleAnalysis "second" in
  let c := Scenarios.sampleClock 2 in
  fst (saveAnalysis d a c) = Returned (makeEntry a c)
  /\ fst (deleteAnalysis d "1") = true
  /\ fst (clearHistory d) = true
  /\ List.length (getHistorySummary d) = List.length (persisted d).
Proof.
  intros d a c.
  apply (operations_succeed_when_the_write_does d a c "1").
  - apply reach_delete, reach_save, reach_fresh.
  - reflexivity.
Defined.

End HistoryQueryFacts.

(* ================================================================== *)
(** ** The collector on whole trees *)

Module TreeFacts.
Import Collector Tree.

(** Induction on a tree, with the property for every entry of a
    listing. *)
Section EntryInduction.
Variable P : Entry -> Prop.
Hypothesis Hfile : forall name stat data, P (FileEntry name stat data).
Hypothesis Hother : forall name, P (OtherEntry name).
Hypothesis Hunreadable : forall name, P (DirEntry name None).
Hypothesis Hdir : forall name entries,
  Forall P entries -> P (DirEntry name (Some entries)).

Lemma entry_induction (e : Entry) : P e.
Proof.
  revert e. fix IH 1. intros [name stat data | name [entries|] | name].
  - apply Hfile.
  - apply Hdir. induction entries as [|x es IHes]; constructor;
      [apply IH | exact IHes].
  - apply Hunreadable.
  - apply Hother.
Qed.
End EntryInduction.

Lemma allFiles_listing dirPath name entries :
  allFiles dirPath (DirEntry name (Some entries))
  = flat_map (listed dirPath) entries.
Proof.
  cbn [allFiles]. induction entries as [|e es IH]; [reflexivity|].
  cbn [flat_map]. rewrite <- IH. reflexivity.
Qed.

Lemma height_listing name entries :
  height (DirEntry name (Some entries))
  = S (list_max (map heightOf entries)).
Proof.
  cbn [height]. f_equal. induction entries as [|e es IH]; [reflexivity|].
  cbn [map list_max fold_right]. rewrite IH. reflexivity.
Qed.

Lemma chainFiles_listing name entries :
  chainFiles (DirEntry name (Some entries))
  = List.length (filter qualifies entries)
    + list_max (map chainFiles entries).
Proof.
  cbn [chainFiles]. f_equal. induction entries as [|e es IH]; [reflexivity|].
  cbn [map list_max fold_right]. rewrite IH. reflexivity.
Qed.

(** One entry that is not a directory: it is appended when it
    qualifies. *)
Lemma visit_file dirPath depth files name stat data :
  visit dirPath depth files (FileEntry name stat data)
  = (files ++ listed dirPath (FileEntry name stat data))%list.
Proof.
  unfold visit, listed, skipped, qualifies. cbn [entryName].
  destruct (JS.startsWith name "." || JS.arrayIncludes skipDirs name) eqn:Hs.
  - now rewrite app_nil_r.
  - apply orb_false_iff in Hs. destruct Hs as [-> ->]. cbn [negb andb].
    destruct stat as [size|], data as [content|];
      destruct (JS.arrayIncludes codeExtensions _); cbn [andb];
      rewrite ?app_nil_r; try reflexivity.
    + destruct (maxFileSize <? size)%N; cbn [negb];
        now rewrite ?app_nil_r.
    + destruct (maxFileSize <? size)%N; reflexivity.
Qed.

Lemma visit_other dirPath depth files name :
  visit dirPath depth files (OtherEntry name) = files.
Proof. unfold visit. now destruct (_ || _). Qed.

Lemma visit_dir dirPath depth files name listing :
  visit dirPath depth files (DirEntry name listing)
  = if skipped (DirEntry name listing) then files
    else collectFiles (Path.join dirPath name) (depth + 1)
           (DirEntry name listing) files.
Proof. reflexivity. Qed.

Lemma listed_file_length name stat data dirPath :
  List.length (listed dirPath (FileEntry name stat data))
  = if qualifies (FileEntry name stat data) then 1 else 0.
Proof.
  unfold listed, skipped. cbn [entryName].
  destruct (_ || _) eqn:Hs.
  - unfold qualifies. destruct stat, data; try reflexivity.
    apply orb_true_iff in Hs. destruct Hs as [-> | ->]; cbn [negb andb];
      [reflexivity|]. now rewrite andb_false_r.
  - destruct stat, data; try reflexivity.
    now destruct (qualifies _).
Qed.

(** *** Within the limits the walk is complete *)

Lemma heightOf_le_list_max e es :
  In e es -> heightOf e <= list_max (map heightOf es).
Proof.
  intros H. pose proof (list_max_le (map heightOf es)
                          (list_max (map heightOf es))) as [Hle _].
  specialize (Hle (Nat.le_refl _)). rewrite Forall_forall in Hle.
  apply Hle. now apply in_map.
Qed.

Lemma fold_visit_complete dirPath depth h entries :
  Forall complete entries ->
  forall files,
    Forall (fun e => heightOf e <= h) entries ->
    depth + 1 + h <= 11 ->
    List.length files + List.length (flat_map (listed dirPath) entries)
    <= 5000 ->
    fold_left (visit dirPath depth) entries files
    = (files ++ flat_map (listed dirPath) entries)%list.
Proof.
  induction 1 as [|e es He Hes IH]; intros files Hh Hd Hlen.
  - simpl. now rewrite app_nil_r.
  - cbn [fold_left flat_map] in *. rewrite length_app in Hlen.
    inversion Hh as [|? ? Hhe Hhes]; subst.
    assert (Hv : visit dirPath depth files e
                 = (files ++ listed dirPath e)%list).
    { destruct e as [name stat data | name listing | name].
      - apply visit_file.
      - rewrite visit_dir. unfold listed, heightOf in *.
        destruct (skipped _); [now rewrite app_nil_r|].
        apply He; cbn [entryName] in *; lia.
      - rewrite visit_other. unfold listed.
        destruct (skipped _); now rewrite app_nil_r. }
    rewrite Hv, IH; auto.
    + now rewrite app_assoc.
    + rewrite length_app. lia.
Qed.

Lemma every_tree_complete e : complete e.
Proof.
  induction e using entry_induction; intros dirPath depth files Hd Hlen;
    try (cbn [collectFiles allFiles]; now rewrite app_nil_r).
  - cbn [collectFiles allFiles]. rewrite app_nil_r.
    destruct (10 <? depth); [reflexivity|].
    now destruct (5000 <? List.length files).
  - rewrite CollectorFacts.collectFiles_listing, allFiles_listing in *.
    rewrite height_listing in Hd.
    replace (10 <? depth) with false by (symmetry; apply Nat.ltb_ge; lia).
    replace (5000 <? List.length files) with false
      by (symmetry; apply Nat.ltb_ge; lia).
    apply (fold_visit_complete dirPath depth
             (list_max (map heightOf entries))); auto; [|lia].
    apply Forall_forall. intros e He. now apply heightOf_le_list_max.
Qed.

(** X13.  A tree with at most eleven levels of directories (the root and
    ten below it) and at most 5000 qualifying files is collected whole, in
    directory order: neither limit of [collectFiles] is met. *)
Theorem tree_within_limits_is_collected_whole root :
  height root <= 11 ->
  List.length (allFiles "" root) <= 5000 ->
  analyzeCodeFiles root = allFiles "" root.
Proof.
  intros Hh Hlen. unfold analyzeCodeFiles.
  now rewrite (every_tree_complete root "" 0 []).
Qed.

Lemma tree_within_limits_is_collected_whole_witness :
  analyzeCodeFiles sampleTree = allFiles "" sampleTree.
Proof.
  apply (tree_within_limits_is_collected_whole sampleTree).
  - apply Nat.leb_le. vm_compute. reflexivity.
  - apply Nat.leb_le. vm_compute. reflexivity.
Defined.

(** *** What is collected is in the tree *)

Lemma sound_nothing dirPath dir files :
  exists added,
    files = (files ++ added)%list
    /\ incl added (allFiles dirPath dir)
    /\ List.length added <= List.length (allFiles dirPath dir).
Proof.
  exists []. rewrite app_nil_r. split; [reflexivity|].
  split; [apply incl_nil_l | simpl; lia].
Qed.

Lemma fold_visit_sound dirPath depth entries :
  Forall sound entries ->
  forall files,
    exists added,
      fold_left (visit dirPath depth) entries files = (files ++ added)%list
      /\ incl added (flat_map (listed dirPath) entries)
      /\ List.length added
         <= List.length (flat_map (listed dirPath) entries).
Proof.
  induction 1 as [|e es He Hes IH]; intros files.
  - exists []. simpl. rewrite app_nil_r.
    split; [reflexivity|]. split; [apply incl_nil_l | lia].
  - cbn [fold_left flat_map].
    assert (Hv : exists added,
               visit dirPath depth files e = (files ++ added)%list
               /\ incl added (listed dirPath e)
               /\ List.length added <= List.length (listed dirPath e)).
    { destruct e as [name stat data | name listing | name].
      - rewrite visit_file. eexists. split; [reflexivity|].
        split; [apply incl_refl | lia].
      - rewrite visit_dir. unfold listed.
        destruct (skipped _).
        + exists []. rewrite app_nil_r. split; [reflexivity|].
          split; [apply incl_nil_l | simpl; lia].
        + apply He.
      - rewrite visit_other. exists []. rewrite app_nil_r.
        split; [reflexivity|]. split; [apply incl_nil_l | simpl; lia]. }
    destruct Hv as (a1 & -> & Hi1 & Hl1).
    destruct (IH (files ++ a1)%list) as (a2 & -> & Hi2 & Hl2).
    exists (a1 ++ a2)%list. rewrite app_assoc. split; [reflexivity|].
    split.
    + apply incl_app; [now apply incl_appl | now apply incl_appr].
    + rewrite !length_app. lia.
Qed.

Lemma every_tree_sound e : sound e.
Proof.
  induction e using entry_induction; intros dirPath depth files;
    try (cbn [collectFiles]; apply sound_nothing).
  - cbn [collectFiles].
    destruct (10 <? depth); [apply sound_nothing|].
    destruct (5000 <? List.length files); apply sound_nothing.
  - rewrite CollectorFacts.collectFiles_listing.
    destruct (10 <? depth); [apply sound_nothing|].
    destruct (5000 <? List.length files); [apply sound_nothing|].
    rewrite allFiles_listing. now apply fold_visit_sound.
Qed.

Lemma listed_sized dirPath e :
  Forall (fun f => (Metrics.size f <= maxFileSize)%N)
         (allFiles (Path.join dirPath (entryName e)) e) ->
  Forall (fun f => (Metrics.size f <= maxFileSize)%N) (listed dirPath e).
Proof.
  intros H. unfold listed. destruct (skipped e); [constructor|].
  destruct e as [name [size|] [content|] | name listing | name];
    try constructor; [|exact H].
  destruct (qualifies _) eqn:Hq; constructor; [|constructor].
  unfold qualifies in Hq. apply andb_prop in Hq as [_ Hq].
  apply negb_true_iff, N.ltb_ge in Hq. exact Hq.
Qed.

Lemma allFiles_sized e : forall dirPath,
  Forall (fun f => (Metrics.size f <= maxFileSize)%N) (allFiles dirPath e).
Proof.
  induction e using entry_induction; intros dirPath;
    try (cbn [allFiles]; constructor).
  rewrite allFiles_listing.
  induction H as [|e es He Hes IH]; cbn [flat_map]; [constructor|].
  apply Forall_app. split; [|exact IH]. apply listed_sized, He.
Qed.

(** X14.  The collector invents nothing: every file it returns is one
    of the qualifying files of the tree, it never returns more files than
    the tree has, and none of them is larger than 1 MiB. *)
Theorem collected_files_are_files_of_the_tree root :
  incl (analyzeCodeFiles root) (allFiles "" root)
  /\ List.length (analyzeCodeFiles root) <= List.length (allFiles "" root)
  /\ Forall (fun f => (Metrics.size f <= maxFileSize)%N)
            (analyzeCodeFiles root).
Proof.
  unfold analyzeCodeFiles.
  destruct (every_tree_sound root "" 0 []) as (added & -> & Hi & Hl).
  cbn [app]. split; [exact Hi|]. split; [exact Hl|].
  rewrite Forall_forall. intros f Hf.
  pose proof (allFiles_sized root "") as Hs. rewrite Forall_forall in Hs.
  apply Hs, Hi, Hf.
Qed.

(** *** What the length guard does guarantee *)

Lemma chainFiles_file name stat data : chainFiles (FileEntry name stat data) = 0.
Proof. reflexivity. Qed.

Lemma fold_visit_capped dirPath depth entries :
  Forall capped entries ->
  forall files,
    List.length (fold_left (visit dirPath depth) entries files)
    <= Nat.max (List.length files)
               (5000 + list_max (map chainFiles entries))
       + List.length (filter qualifies entries).
Proof.
  induction 1 as [|e es He Hes IH]; intros files.
  - simpl. lia.
  - cbn [fold_left map list_max fold_right filter].
    fold (list_max (map chainFiles es)).
    etransitivity; [apply IH|].
    destruct e as [name stat data | name listing | name].
    + rewrite visit_file, length_app, listed_file_length.
      rewrite chainFiles_file.
      destruct (qualifies _); cbn [List.length]; lia.
    + rewrite visit_dir.
      assert (Hq : qualifies (DirEntry name listing) = false) by reflexivity.
      rewrite Hq.
      destruct (skipped _); [lia|].
      specialize (He (Path.join dirPath name) (depth + 1) files). lia.
    + rewrite visit_other.
      assert (Hq : qualifies (OtherEntry name) = false) by reflexivity.
      rewrite Hq. cbn [chainFiles]. lia.
Qed.

Lemma every_tree_capped e : capped e.
Proof.
  induction e using entry_induction; intros dirPath depth files;
    try (cbn [collectFiles]; lia).
  - cbn [collectFiles].
    destruct (10 <? depth); [lia|].
    destruct (5000 <? List.length files); lia.
  - rewrite CollectorFacts.collectFiles_listing, chainFiles_listing.
    destruct (10 <? depth); [lia|].
    destruct (5000 <? List.length files) eqn:E; [lia|].
    apply Nat.ltb_ge in E.
    pose proof (fold_visit_capped dirPath depth entries H files). lia.
Qed.

(** X15.  What the length guard of [collectFiles] does bound: the
    collector returns at most 5000 files plus the qualifying files that
    lie directly in the directories of one chain of nested directories;
    once more than 5000 files are held no further directory is entered,
    but the loops of the directories already entered run to their end. *)
Theorem collected_files_bounded_by_cap_plus_one_chain root :
  List.length (analyzeCodeFiles root) <= 5000 + chainFiles root.
Proof.
  pose proof (every_tree_capped root "" 0 []) as H.
  unfold analyzeCodeFiles. simpl List.length in H. lia.
Qed.

(** *** The two tables of extensions *)

Lemma mapGet_key {V} (m : list (string * V)) k v :
  JS.mapGet m k = Some v -> JS.arrayIncludes (map fst m) k = true.
Proof.
  unfold JS.arrayIncludes.
  induction m as [|[k' v'] m IH]; simpl; [discriminate|].
  destruct (String.eqb k k'); [reflexivity|]. exact IH.
Qed.

Lemma tables_agree_on_their_extensions :
  forallb (fun k =>
             Bool.eqb (JS.arrayIncludes codeExtensions k)
                      (negb (String.eqb (Metrics.getLanguageFromExtension k)
                                        "Other")))
          (map fst Metrics.languageMap ++ codeExtensions) = true.
Proof. vm_compute. reflexivity. Qed.

Lemma keys_are_lower_case :
  forallb (fun k => String.eqb (JS.toLowerCase k) k)
          (map fst Metrics.languageMap) = true.
Proof. vm_compute. reflexivity. Qed.

Lemma arrayIncludes_In l ext : JS.arrayIncludes l ext = true -> In ext l.
Proof.
  intros Hl. unfold JS.arrayIncludes in Hl. apply existsb_exists in Hl.
  destruct Hl as (k & Hk & Heq). apply String.eqb_eq in Heq. now subst.
Qed.

(** An extension the collector accepts (lower-cased, it is in
    [codeExtensions]) has a language of the table when it is written in
    lower case, and [Other] when it is not. *)
Lemma accepted_extension_language ext :
  JS.arrayIncludes codeExtensions (JS.toLowerCase ext) = true ->
  String.eqb (Metrics.getLanguageFromExtension ext) "Other"
  = negb (String.eqb ext (JS.toLowerCase ext)).
Proof.
  intros Hacc.
  destruct (String.eqb ext (JS.toLowerCase ext)) eqn:E; cbn [negb].
  - apply String.eqb_eq in E. rewrite <- E in Hacc.
    pose proof tables_agree_on_their_extensions as H.
    rewrite forallb_forall in H.
    specialize (H ext (in_or_app _ _ _
                         (or_intror (arrayIncludes_In _ _ Hacc)))).
    apply eqb_prop in H. rewrite Hacc in H. symmetry in H.
    now apply negb_true_iff in H.
  - unfold Metrics.getLanguageFromExtension.
    destruct (JS.mapGet Metrics.languageMap ext) as [language|] eqn:G;
      [|reflexivity].
    pose proof keys_are_lower_case as H. rewrite forallb_forall in H.
    specialize (H ext (arrayIncludes_In _ _ (mapGet_key _ _ _ G))).
    apply String.eqb_eq in H. rewrite H, String.eqb_refl in E. discriminate.
Qed.

(** An extension is empty or starts with a dot: the language lookup
    never meets a key the object inherits. *)
Lemma from_lastIndexOf c b i :
  Path.lastIndexOf c b = Some i ->
  exists rest, String.substring i (String.length b - i) b = String c rest.
Proof.
  revert i. induction b as [|d b IH]; intros i; [discriminate|].
  cbn [Path.lastIndexOf].
  destruct (Path.lastIndexOf c b) as [j|].
  - intros [= <-]. destruct (IH j eq_refl) as [rest Hr].
    exists rest. cbn [String.length String.substring Nat.sub]. exact Hr.
  - destruct (Ascii.eqb d c) eqn:E; [|discriminate].
    apply Ascii.eqb_eq in E. subst d. intros [= <-].
    eexists. cbn [String.length String.substring Nat.sub]. reflexivity.
Qed.

Lemma extname_empty_or_dotted p :
  Path.extname p = "" \/ exists rest, Path.extname p = String Path.dot rest.
Proof.
  unfold Path.extname.
  destruct (Path.lastIndexOf Path.dot (Path.basename p)) as [[|i]|] eqn:E;
    [now left | | now left].
  destruct (String.eqb (Path.basename p) ".."); [now left|].
  right. exact (from_lastIndexOf _ _ _ E).
Qed.

(** *** The extension of a joined path *)

Lemma basename_dropTrailing p :
  Path.basename p
  = match Path.lastIndexOf Path.sep (dropTrailing p) with
    | Some i => String.substring (S i)
                  (String.length (dropTrailing p) - S i) (dropTrailing p)
    | None => dropTrailing p
    end.
Proof. reflexivity. Qed.

Lemma dropTrailing_plain name :
  plainName name = true -> dropTrailing name = name.
Proof.
  unfold plainName. intros H. apply andb_true_iff in H. destruct H as [_ H].
  apply negb_true_iff in H.
  induction name as [|c rest IH]; [reflexivity|].
  cbn [hasSeparator] in H. apply orb_false_iff in H. destruct H as [Hc Hr].
  cbn [dropTrailing]. rewrite (IH Hr), Hc. now destruct rest.
Qed.

Lemma dropTrailing_app s name :
  plainName name = true -> dropTrailing (s ++ name) = s ++ name.
Proof.
  intros H. induction s as [|c s IH]; [now apply dropTrailing_plain|].
  cbn [append dropTrailing]. rewrite IH.
  destruct (s ++ name) eqn:E; [|reflexivity].
  unfold plainName in H. destruct s, name; simpl in *; discriminate.
Qed.

Lemma lastIndexOf_plain name :
  hasSeparator name = false -> Path.lastIndexOf Path.sep name = None.
Proof.
  induction name as [|c rest IH]; [reflexivity|].
  cbn [hasSeparator Path.lastIndexOf]. intros H.
  apply orb_false_iff in H. destruct H as [Hc Hr].
  now rewrite (IH Hr), Hc.
Qed.

Lemma lastIndexOf_joined s name :
  hasSeparator name = false ->
  Path.lastIndexOf Path.sep (s ++ String Path.sep name)
  = Some (String.length s).
Proof.
  intros H. induction s as [|c s IH].
  - cbn [append Path.lastIndexOf String.length].
    now rewrite (lastIndexOf_plain name H), Ascii.eqb_refl.
  - cbn [append Path.lastIndexOf String.length]. now rewrite IH.
Qed.

Lemma substring_whole t : String.substring 0 (String.length t) t = t.
Proof. induction t as [|a t IHt]; simpl; [reflexivity | now rewrite IHt]. Qed.

Lemma substring_joined s c name :
  String.substring (S (String.length s))
    (String.length (s ++ String c name) - S (String.length s))
    (s ++ String c name)
  = name.
Proof.
  induction s as [|a s IH].
  - cbn [append].
    replace (String.length (String c name) - S (String.length ""))
      with (String.length name) by (simpl; lia).
    cbn [String.length String.substring]. apply substring_whole.
  - cbn [append].
    replace (String.length (String a (s ++ String c name))
             - S (String.length (String a s)))
      with (String.length (s ++ String c name) - S (String.length s))
      by (simpl; lia).
    cbn [String.length String.substring]. exact IH.
Qed.

Lemma basename_plain name :
  plainName name = true -> Path.basename name = name.
Proof.
  intros H. rewrite basename_dropTrailing, (dropTrailing_plain name H).
  unfold plainName in H. apply andb_true_iff in H. destruct H as [_ H].
  apply negb_true_iff in H. now rewrite (lastIndexOf_plain name H).
Qed.

Lemma basename_join dirPath name :
  plainName name = true ->
  Path.basename (Path.join dirPath name) = name.
Proof.
  intros H. unfold Path.join.
  destruct dirPath as [|c dirPath]; [now apply basename_plain|].
  set (dir := String c dirPath).
  rewrite basename_dropTrailing.
  assert (Ha : (dir ++ String Path.sep "") ++ name
               = dir ++ String Path.sep name).
  { clear. induction dir as [|a d IH]; simpl; [reflexivity|].
    now rewrite IH. }
  rewrite <- Ha, (dropTrailing_app _ name H), Ha.
  unfold plainName in H. apply andb_true_iff in H. destruct H as [_ H].
  apply negb_true_iff in H.
  rewrite (lastIndexOf_joined dir name H). apply substring_joined.
Qed.

Lemma extname_join dirPath name :
  plainName name = true ->
  Path.extname (Path.join dirPath name) = Path.extname name.
Proof.
  intros H. unfold Path.extname.
  now rewrite (basename_join dirPath name H), (basename_plain name H).
Qed.

(** X16.  A file with an upper-case letter in its extension is collected
    and counted as [Other].  For an entry the collector accepts, the file
    it pushes has the path [join(dirPath, name)], whose extension is that
    of the entry name; the collector has tested that extension in lower
    case, the language lookup of the metrics takes it as written: the
    language is one of the table when the extension is in lower case
    and [Other] when it is not. *)
Theorem upper_case_extension_is_collected_as_other
        dirPath depth files name size content :
  plainName name = true ->
  qualifies (FileEntry name (Some size) (Some content)) = true ->
  let pushed := {| Metrics.path := Path.join dirPath name;
                   Metrics.content := content;
                   Metrics.size := size |} in
  visit dirPath depth files (FileEntry name (Some size) (Some content))
  = (files ++ [pushed])%list
  /\ Path.extname (Metrics.path pushed) = Path.extname name
  /\ String.eqb (Metrics.getLanguageFromExtension
                   (Path.extname (Metrics.path pushed))) "Other"
     = negb (String.eqb (Path.extname name)
                        (JS.toLowerCase (Path.extname name))).
Proof.
  intros Hplain Hq. cbv zeta. cbn [Metrics.path].
  rewrite (extname_join dirPath name Hplain).
  split; [|split; [reflexivity|]].
  - rewrite visit_file. unfold listed, skipped. cbn [entryName].
    rewrite Hq. unfold qualifies in Hq.
    apply andb_prop in Hq as [Hq _]. apply andb_prop in Hq as [Hq _].
    apply andb_prop in Hq as [Hdot Hskip].
    apply negb_true_iff in Hdot, Hskip. now rewrite Hdot, Hskip.
  - apply accepted_extension_language.
    unfold qualifies in Hq.
    apply andb_prop in Hq as [Hq _]. apply andb_prop in Hq as [_ Hext].
    exact Hext.
Qed.

Lemma upper_case_extension_is_collected_as_other_witness :
  let pushed := {| Metrics.path := Path.join "src" "A.JS";
                   Metrics.content := "let a = 1;";
                   Metrics.size := 10%N |} in
  visit "src" 1 [] (FileEntry "A.JS" (Some 10%N) (Some "let a = 1;"))
  = ([] ++ [pushed])%list
  /\ Path.extname (Metrics.path pushed) = Path.extname "A.JS"
  /\ String.eqb (Metrics.getLanguageFromExtension
                   (Path.extname (Metrics.path pushed))) "Other"
     = negb (String.eqb (Path.extname "A.JS")
                        (JS.toLowerCase (Path.extname "A.JS"))).
Proof.
  apply (upper_case_extension_is_collected_as_other
           "src" 1 [] "A.JS" 10%N "let a = 1;"); vm_compute; reflexivity.
Defined.

End TreeFacts.

(* ================================================================== *)
(** ** The language table, the largest files and the insights *)

Module ReportFacts.
Import Metrics Measures Report.

(** *** Sorting with a comparator that subtracts keys *)

Section SortedByKey.
Context {A : Type} (cmp : A -> A -> Z) (key : A -> Z).
Hypothesis cmp_key : forall a b, cmp a b = (key b - key a)%Z.

Lemma insertSorted_sorted x l :
  StronglySorted (descending key) l ->
  StronglySorted (descending key) (JS.insertSorted cmp x l).
Proof.
  induction 1 as [|y l Hs IH Hy]; simpl.
  - constructor; constructor.
  - destruct (cmp x y <=? 0)%Z eqn:E.
    + apply Z.leb_le in E. rewrite cmp_key in E.
      constructor; [constructor; assumption|].
      constructor; [unfold descending; lia|].
      rewrite Forall_forall in *. intros z Hz. specialize (Hy z Hz).
      unfold descending in *. lia.
    + apply Z.leb_gt in E. rewrite cmp_key in E.
      constructor; [exact IH|].
      rewrite Forall_forall in *. intros z Hz.
      apply (Permutation_in _ (LanguageFacts.insertSorted_perm cmp x l)) in Hz.
      destruct Hz as [<- | Hz]; [unfold descending; lia | now apply Hy].
Qed.

Lemma sort_sorted l : StronglySorted (descending key) (JS.sort cmp l).
Proof.
  induction l as [|x l IH]; simpl; [constructor|].
  now apply insertSorted_sorted.
Qed.
End SortedByKey.

Lemma sorted_weaken {A} (R R' : A -> A -> Prop) (l : list A) :
  (forall a b, R a b -> R' a b) ->
  StronglySorted R l -> StronglySorted R' l.
Proof.
  intros HR. induction 1 as [|x l Hl IH Hx]; constructor; auto.
  rewrite Forall_forall in *. auto.
Qed.

(** *** The map of language statistics *)

Lemma mapGet_None_keys {V} (m : list (string * V)) k :
  JS.mapGet m k = None -> ~ In k (map fst m).
Proof.
  induction m as [|[k' v'] m IH]; simpl; [tauto|].
  destruct (String.eqb k k') eqn:E; [discriminate|].
  apply String.eqb_neq in E. intros H [Hk | Hk]; [congruence | now apply IH].
Qed.

Lemma mapSet_keys {V} (m : list (string * V)) k v :
  map fst (JS.mapSet m k v)
  = match JS.mapGet m k with
    | Some _ => map fst m
    | None => (map fst m ++ [k])%list
    end.
Proof.
  induction m as [|[k' v'] m IH]; simpl; [reflexivity|].
  destruct (String.eqb k k') eqn:E; simpl.
  - apply String.eqb_eq in E. now subst.
  - rewrite IH. now destruct (JS.mapGet m k).
Qed.

Lemma mapSet_Forall {V} (P : string * V -> Prop) (m : list (string * V)) k v :
  Forall P m -> P (k, v) -> Forall P (JS.mapSet m k v).
Proof.
  induction 1 as [|[k' v'] m Hx Hm IH]; simpl; intros Hkv.
  - repeat constructor; assumption.
  - destruct (String.eqb k k'); constructor; auto.
Qed.

Lemma mapGet_In {V} (m : list (string * V)) k v :
  JS.mapGet m k = Some v -> In (k, v) m.
Proof.
  induction m as [|[k' v'] m IH]; simpl; [discriminate|].
  destruct (String.eqb k k') eqn:E.
  - apply String.eqb_eq in E. intros [= ->]. left. now subst.
  - intros H. right. now apply IH.
Qed.

Lemma filesIn_mapSet m k v :
  filesIn (JS.mapSet m k v)
  + match JS.mapGet m k with Some st => st_files st | None => 0 end
  = filesIn m + st_files v.
Proof.
  induction m as [|[k' v'] m IH]; simpl; [lia|].
  destruct (String.eqb k k'); simpl; lia.
Qed.

Lemma bytesIn_mapSet m k v :
  (bytesIn (JS.mapSet m k v)
   + match JS.mapGet m k with Some st => st_bytes st | None => 0 end
   = bytesIn m + st_bytes v)%N.
Proof.
  induction m as [|[k' v'] m IH]; simpl; [lia|].
  destruct (String.eqb k k'); simpl; lia.
Qed.

Lemma getLanguageFromExtension_known ext :
  In (getLanguageFromExtension ext) languageNames.
Proof.
  unfold getLanguageFromExtension, languageNames.
  destruct (JS.mapGet languageMap ext) as [v|] eqn:E.
  - apply in_or_app. left. apply mapGet_In in E.
    now apply (in_map snd) in E.
  - apply in_or_app. right. now left.
Qed.

Lemma addFile_ok t f : statsOk t -> statsOk (addFile t f).
Proof.
  intros [Hk He]. unfold addFile.
  set (k := getLanguageFromExtension (Path.extname (path f))).
  pose proof (LineFacts.split_length_pos JS.LF (content f)) as Hpos.
  constructor; cbn [t_languageStats].
  - rewrite mapSet_keys.
    destruct (JS.mapGet (t_languageStats t) k) eqn:E; [exact Hk|].
    apply mapGet_None_keys in E.
    apply NoDup_app; [exact Hk | repeat constructor; simpl; tauto |].
    intros x Hx [<- | []]. contradiction.
  - apply mapSet_Forall; [exact He|].
    split; [|apply getLanguageFromExtension_known].
    cbn [snd st_files st_lines].
    destruct (JS.mapGet (t_languageStats t) k) as [st|] eqn:E.
    + apply mapGet_In in E. rewrite Forall_forall in He.
      destruct (He _ E) as [Hst _]. cbn [snd] in Hst. lia.
    + cbn [st_files st_lines]. lia.
Qed.

Lemma fold_addFile_ok fs : forall t,
  statsOk t -> statsOk (fold_left addFile fs t).
Proof.
  induction fs as [|f fs IH]; intros t H; simpl; [exact H|].
  apply IH, addFile_ok, H.
Qed.

Lemma initial_ok : statsOk initial.
Proof. constructor; simpl; constructor. Qed.

Lemma fold_addFile_files fs : forall t,
  filesIn (t_languageStats (fold_left addFile fs t))
  = filesIn (t_languageStats t) + List.length fs.
Proof.
  induction fs as [|f fs IH]; intros t; simpl; [lia|].
  rewrite IH. unfold addFile. cbn [t_languageStats].
  match goal with |- filesIn (JS.mapSet ?m ?k ?v) + _ = _ =>
    pose proof (filesIn_mapSet m k v) as H end.
  destruct (JS.mapGet _ _); cbn [st_files] in *; lia.
Qed.

Lemma fold_size fs : forall n,
  fold_left (fun sum f => (sum + size f)%N) fs n
  = (n + totalBytes fs)%N.
Proof.
  unfold totalBytes.
  induction fs as [|f fs IH]; intros n; simpl; [lia|].
  rewrite IH, (IH (size f)). lia.
Qed.

Lemma totalBytes_cons f fs : totalBytes (f :: fs) = (size f + totalBytes fs)%N.
Proof. unfold totalBytes. cbn [fold_left]. now rewrite fold_size. Qed.

Lemma fold_addFile_bytes fs : forall t,
  bytesIn (t_languageStats (fold_left addFile fs t))
  = (bytesIn (t_languageStats t) + totalBytes fs)%N.
Proof.
  induction fs as [|f fs IH]; intros t.
  - simpl. unfold totalBytes. simpl. lia.
  - cbn [fold_left]. rewrite IH, totalBytes_cons.
    unfold addFile. cbn [t_languageStats].
    match goal with |- (bytesIn (JS.mapSet ?m ?k ?v) + _ = _)%N =>
      pose proof (bytesIn_mapSet m k v) as H end.
    destruct (JS.mapGet _ _); cbn [st_bytes] in *; lia.
Qed.

Lemma sumFiles_perm l l' : Permutation l l' -> sumFiles l = sumFiles l'.
Proof. induction 1; simpl; lia. Qed.

Lemma sumLinesOf_perm l l' : Permutation l l' -> sumLinesOf l = sumLinesOf l'.
Proof. induction 1; simpl; lia. Qed.

Lemma sumBytes_perm l l' : Permutation l l' -> sumBytes l = sumBytes l'.
Proof. induction 1; simpl; lia. Qed.

Section Numbers.
Variable rnd : Q -> Q.

Lemma sums_toLanguage total m :
  sumFiles (map (toLanguage rnd total) m) = filesIn m
  /\ sumLinesOf (map (toLanguage rnd total) m) = sumLines m
  /\ sumBytes (map (toLanguage rnd total) m) = bytesIn m.
Proof.
  induction m as [|e m (IH1 & IH2 & IH3)]; simpl; [auto|].
  rewrite IH1, IH2, IH3. auto.
Qed.

Lemma languages_perm fs :
  Permutation
    (languages (analyzeCodeMetrics rnd fs))
    (map (toLanguage rnd (t_totalLines (fold_left addFile fs initial)))
         (t_languageStats (fold_left addFile fs initial))).
Proof. apply LanguageFacts.sort_perm. Qed.

Lemma language_table fs :
  let m := analyzeCodeMetrics rnd fs in
  NoDup (map language (languages m))
  /\ sumFiles (languages m) = totalFiles m
  /\ sumLinesOf (languages m) = totalLines m
  /\ ((totalBytes fs <= 2 ^ 53)%N ->
      sumBytes (languages m) = totalBytes fs)
  /\ Forall (fun l => 1 <= files l <= lines l
                      /\ In (language l) languageNames)
            (languages m).
Proof.
  cbv zeta. pose proof (languages_perm fs) as Hp.
  set (t := fold_left addFile fs initial) in *.
  destruct (fold_addFile_ok fs initial initial_ok) as [Hk He]. fold t in Hk, He.
  destruct (sums_toLanguage (t_totalLines t) (t_languageStats t))
    as (S1 & S2 & S3).
  split; [|split; [|split; [|split]]].
  - apply (Permutation_NoDup (Permutation_sym (Permutation_map language Hp))).
    now rewrite map_map.
  - rewrite (sumFiles_perm _ _ Hp), S1. unfold t.
    rewrite fold_addFile_files. reflexivity.
  - rewrite (sumLinesOf_perm _ _ Hp), S2. unfold t.
    apply LanguageFacts.languages_partition_lines.
  - intros _. rewrite (sumBytes_perm _ _ Hp), S3. unfold t.
    rewrite fold_addFile_bytes. reflexivity.
  - rewrite Forall_forall. intros l Hl.
    apply (Permutation_in _ Hp) in Hl. apply in_map_iff in Hl.
    destruct Hl as (e & <- & Hin). rewrite Forall_forall in He.
    exact (He e Hin).
Qed.

(** X17.  The language entries partition the project: no language is
    listed twice, the file counts add up to [totalFiles] and the line
    counts to [totalLines]; every entry has at least one file and at
    least as many lines as files, and its name is one of the table or
    [Other].  The byte counts add up to the bytes of the files when these
    are at most 2^53 bytes in all: up to there every sum of sizes the
    program forms is an integer a double holds exactly, beyond it the
    program's sums are rounded and the equation is not claimed. *)
Theorem languages_partition_the_project fs :
  let m := analyzeCodeMetrics rnd fs in
  NoDup (map language (languages m))
  /\ sumFiles (languages m) = totalFiles m
  /\ sumLinesOf (languages m) = totalLines m
  /\ ((totalBytes fs <= 2 ^ 53)%N ->
      sumBytes (languages m) = totalBytes fs)
  /\ Forall (fun l => 1 <= files l <= lines l
                      /\ In (language l) languageNames)
            (languages m).
Proof. exact (language_table fs). Qed.

(** X18.  The language entries are listed by decreasing number of
    lines, so the first entry, the primary language of the insights, has
    the most lines. *)
Theorem languages_listed_by_decreasing_lines fs :
  StronglySorted (fun a b => lines b <= lines a)
                 (languages (analyzeCodeMetrics rnd fs)).
Proof.
  unfold analyzeCodeMetrics. cbn [languages].
  apply (sorted_weaken (descending (fun l => Z.of_nat (lines l)))).
  - unfold descending. intros a b. lia.
  - apply (sort_sorted byLinesDesc). reflexivity.
Qed.

(** X19.  The counters of two batches of files add up: the number of
    files and the four line counters of [analyzeCodeMetrics] on the files
    of both are the sums of the counters on each batch. *)
Theorem counters_of_two_batches_add_up fs gs :
  let both := analyzeCodeMetrics rnd (fs ++ gs) in
  let one := analyzeCodeMetrics rnd fs in
  let other := analyzeCodeMetrics rnd gs in
  totalFiles both = totalFiles one + totalFiles other
  /\ totalLines both = totalLines one + totalLines other
  /\ codeLines both = codeLines one + codeLines other
  /\ commentLines both = commentLines one + commentLines other
  /\ blankLines both = blankLines one + blankLines other.
Proof.
  cbv zeta. unfold analyzeCodeMetrics.
  cbn [totalFiles totalLines codeLines commentLines blankLines].
  destruct (LineFacts.fold_addFile_totals (fs ++ gs) initial)
    as (A1 & A2 & A3 & A4).
  destruct (LineFacts.fold_addFile_totals fs initial) as (B1 & B2 & B3 & B4).
  destruct (LineFacts.fold_addFile_totals gs initial) as (G1 & G2 & G3 & G4).
  rewrite A1, A2, A3, A4, B1, B2, B3, B4, G1, G2, G3, G4.
  rewrite !LineFacts.sumOver_app, length_app. simpl. lia.
Qed.

(** *** The insights *)

Lemma no_language_name_mentions_test :
  forallb (fun n => negb (JS.includes (JS.toLowerCase n) "test"))
          languageNames = true.
Proof. vm_compute. reflexivity. Qed.

Lemma hasTests_false fs : hasTests (analyzeCodeMetrics rnd fs) = false.
Proof.
  unfold hasTests.
  destruct (language_table fs) as (_ & _ & _ & _ & H).
  pose proof no_language_name_mentions_test as Hn.
  rewrite forallb_forall in Hn. rewrite Forall_forall in H.
  apply not_true_is_false. intros Hex. apply existsb_exists in Hex.
  destruct Hex as (l & Hl & Ht). destruct (H l Hl) as [_ Hin].
  specialize (Hn _ Hin). rewrite Ht in Hn. discriminate.
Qed.

Lemma NoDup_firstn {A} n (l : list A) : NoDup l -> NoDup (firstn n l).
Proof.
  intros H. rewrite <- (firstn_skipn n l) in H.
  now apply NoDup_app_remove_r in H.
Qed.

(** X20.  On the metrics of any set of files the insights never find
    tests: no language name of the table contains [test], so the fourth
    strength is always [Growing project] and [Consider adding automated
    tests] is always among the weaknesses.  The technology stack is the
    at most five languages with the most lines, none twice. *)
Theorem insights_never_find_tests repository fs :
  let m := analyzeCodeMetrics rnd fs in
  let insights := generateAIInsights rnd repository m in
  nth_error (strengths insights) 3 = Some "Growing project"
  /\ In "Consider adding automated tests" (weaknesses insights)
  /\ techStack insights = firstn 5 (map language (languages m))
  /\ List.length (techStack insights) <= 5
  /\ NoDup (techStack insights).
Proof.
  cbv zeta. unfold generateAIInsights.
  cbn [strengths weaknesses techStack]. rewrite hasTests_false.
  cbn [nth_error negb]. split; [reflexivity|]. split.
  - apply filter_In. split; [|reflexivity].
    right. left. reflexivity.
  - unfold JS.slice0. rewrite <- firstn_map.
    split; [reflexivity|]. split; [apply firstn_le_length|].
    apply NoDup_firstn. exact (proj1 (language_table fs)).
Qed.

End Numbers.

Lemma languages_partition_the_project_witness :
  let fs := [ {| path := "src/a.js"; content := "x"; size := 1%N |};
              {| path := "b.py";
                 content := "# y" ++ String JS.LF "z"; size := 5%N |};
              {| path := "c.js"; content := ""; size := 0%N |} ] in
  let m := analyzeCodeMetrics Double.round fs in
  NoDup (map language (languages m))
  /\ sumFiles (languages m) = totalFiles m
  /\ sumLinesOf (languages m) = totalLines m
  /\ sumBytes (languages m) = totalBytes fs
  /\ Forall (fun l => 1 <= files l <= lines l
                      /\ In (language l) languageNames)
            (languages m).
Proof.
  intros fs m.
  destruct (languages_partition_the_project Double.round fs)
    as (H1 & H2 & H3 & H4 & H5).
  split; [exact H1|]. split; [exact H2|]. split; [exact H3|].
  split; [|exact H5].
  apply H4. vm_compute. discriminate.
Defined.

(** *** The largest files *)

Lemma sorted_app {A} (R : A -> A -> Prop) (l1 l2 : list A) :
  StronglySorted R (l1 ++ l2) ->
  StronglySorted R l1 /\ Forall (fun a => Forall (R a) l2) l1.
Proof.
  induction l1 as [|x l1 IH]; simpl; intros H.
  - split; constructor.
  - inversion H as [|? ? Hs Hx]; subst. destruct (IH Hs) as [H1 H2].
    apply Forall_app in Hx. destruct Hx as [Hx1 Hx2].
    split; constructor; assumption.
Qed.

(** X21.  [largestFiles] lists the ten largest files (all files when
    there are fewer), largest first: the files split into the listed ones
    and the rest, and no file of the rest is larger than a listed one. *)
Theorem largest_files_are_the_ten_largest files :
  exists top rest,
    Permutation files (top ++ rest)
    /\ largestFiles files = map toLargeFile top
    /\ List.length top = Nat.min 10 (List.length files)
    /\ StronglySorted (fun a b => (size b <= size a)%N) top
    /\ Forall (fun a => Forall (fun b => (size b <= size a)%N) rest) top.
Proof.
  set (sorted := JS.sort bySizeDesc files).
  exists (firstn 10 sorted), (skipn 10 sorted).
  assert (Hp : Permutation sorted files) by apply LanguageFacts.sort_perm.
  assert (Hs : StronglySorted (fun a b => (size b <= size a)%N)
                 (firstn 10 sorted ++ skipn 10 sorted)).
  { rewrite firstn_skipn.
    apply (sorted_weaken (descending (fun f => Z.of_N (size f)))).
    - unfold descending. intros a b. lia.
    - apply (sort_sorted bySizeDesc). reflexivity. }
  apply sorted_app in Hs. destruct Hs as [Hs1 Hs2].
  split; [rewrite firstn_skipn; now apply Permutation_sym|].
  split; [reflexivity|]. split; [|split; assumption].
  rewrite length_firstn, (Permutation_length Hp). reflexivity.
Qed.

(** *** The structure tree *)

Section NodeInduction.
Variable P : Node -> Prop.
Hypothesis Hfile : forall name path size, P (FileNode name path size).
Hypothesis Hdir : forall name path children,
  Forall P children -> P (DirectoryNode name path children).

Lemma node_induction (n : Node) : P n.
Proof.
  revert n. fix IH 1. intros [name path size | name path children].
  - apply Hfile.
  - apply Hdir. induction children as [|c cs IHcs]; constructor;
      [apply IH | exact IHcs].
Qed.
End NodeInduction.

Section FsInduction.
Variable P : FsEntry -> Prop.
Hypothesis Hplain : forall name stat, P (Plain name stat).
Hypothesis Hunreadable : forall name, P (Directory name None).
Hypothesis Hdir : forall name entries,
  Forall P entries -> P (Directory name (Some entries)).

Lemma fs_induction (e : FsEntry) : P e.
Proof.
  revert e. fix IH 1. intros [name stat | name [entries|]].
  - apply Hplain.
  - apply Hdir. induction entries as [|x es IHes]; constructor;
      [apply IH | exact IHes].
  - apply Hunreadable.
Qed.
End FsInduction.

Lemma fold_count (f : Node -> nat) l : forall a,
  fold_left (fun count child => count + f child) l a
  = a + list_sum (map f l).
Proof.
  induction l as [|x l IH]; intros a; simpl; [lia|]. rewrite IH. lia.
Qed.

Lemma fold_max (f : Node -> nat) l : forall a,
  fold_left (fun m child => Nat.max m (f child)) l a
  = Nat.max a (list_max (map f l)).
Proof.
  induction l as [|x l IH]; intros a; simpl; [lia|]. rewrite IH. lia.
Qed.

Lemma countDirectories_dir name path children :
  countDirectories (DirectoryNode name path children)
  = 1 + list_sum (map countDirectories children).
Proof. cbn [countDirectories]. apply fold_count. Qed.

Lemma calculateMaxDepth_dir name path children d :
  calculateMaxDepth (DirectoryNode name path children) d
  = Nat.max d (list_max (map (fun c => calculateMaxDepth c (d + 1))
                             children)).
Proof.
  cbn [calculateMaxDepth].
  apply (fold_max (fun c => calculateMaxDepth c (d + 1))).
Qed.

Lemma maxDepth_shift node : forall d,
  calculateMaxDepth node d = d + calculateMaxDepth node 0.
Proof.
  induction node using node_induction; intros d; [simpl; lia|].
  rewrite !calculateMaxDepth_dir.
  induction H as [|c cs Hc Hcs IH]; [simpl; lia|].
  cbn [map list_max fold_right].
  fold (list_max (map (fun c => calculateMaxDepth c (d + 1)) cs)).
  fold (list_max (map (fun c => calculateMaxDepth c (0 + 1)) cs)).
  rewrite (Hc (d + 1)), (Hc (0 + 1)). lia.
Qed.

Lemma maxDepth_le_directories node : forall d,
  calculateMaxDepth node d <= d + countDirectories node.
Proof.
  induction node using node_induction; intros d; [simpl; lia|].
  rewrite calculateMaxDepth_dir, countDirectories_dir.
  induction H as [|c cs Hc Hcs IH]; [simpl; lia|].
  cbn [map list_max fold_right list_sum].
  fold (list_max (map (fun c => calculateMaxDepth c (d + 1)) cs)).
  fold (list_sum (map countDirectories cs)).
  specialize (Hc (d + 1)). lia.
Qed.

(** X22.  The depth the handler reports never exceeds the number of
    directories it reports, which counts the root and so is at least 1;
    and starting [calculateMaxDepth] at depth [d] only adds [d]. *)
Theorem depth_at_most_directories repoPath root d :
  let structure := analyzeRepositoryStructure repoPath root in
  1 <= countDirectories structure
  /\ calculateMaxDepth structure 0 <= countDirectories structure
  /\ calculateMaxDepth structure d = d + calculateMaxDepth structure 0.
Proof.
  cbv zeta. split; [|split].
  - unfold analyzeRepositoryStructure. rewrite countDirectories_dir. lia.
  - apply (maxDepth_le_directories _ 0).
  - apply maxDepth_shift.
Qed.

Lemma ignored_false e : ignored e = false -> shown (fsName e).
Proof.
  unfold ignored, shown. intros H. apply orb_false_iff in H.
  destruct H as [H1 H2]. split; [exact H1|]. now apply String.eqb_neq.
Qed.

Lemma walkDirectory_shown e : forall dirPath,
  Forall shown (namesBelow (DirectoryNode "root" dirPath (walkDirectory dirPath e))).
Proof.
  induction e using fs_induction; intros dirPath;
    try (cbn [walkDirectory namesBelow flat_map]; constructor).
  cbn [walkDirectory].
  induction H as [|x xs Hx Hxs IH]; [constructor|].
  destruct (ignored x) eqn:Hi; [exact IH|].
  apply ignored_false in Hi.
  destruct x as [child [size|] | child listing]; cbn [fsName] in *.
  - cbn [namesBelow flat_map app]. constructor; [exact Hi | exact IH].
  - constructor.
  - cbn [namesBelow flat_map]. cbn [namesBelow flat_map] in IH.
    constructor; [exact Hi|]. apply Forall_app. split; [|exact IH].
    specialize (Hx (Path.join dirPath child)).
    cbn [namesBelow] in Hx. exact Hx.
Qed.

(** X23.  No node of the structure tree below the root has a name that
    starts with a dot or is [node_modules], at any depth. *)
Theorem structure_hides_dot_entries_and_node_modules repoPath root :
  Forall shown (namesBelow (analyzeRepositoryStructure repoPath root)).
Proof.
  unfold analyzeRepositoryStructure.
  exact (walkDirectory_shown root repoPath).
Qed.

Lemma walkDirectory_app dirPath name es1 es2 :
  statsSucceed es1 = true ->
  walkDirectory dirPath (Directory name (Some (es1 ++ es2)%list))
  = (walkDirectory dirPath (Directory name (Some es1))
     ++ walkDirectory dirPath (Directory name (Some es2)))%list.
Proof.
  unfold statsSucceed.
  cbn [walkDirectory]. induction es1 as [|x es1 IH]; [reflexivity|].
  cbn [forallb app]. intros H. apply andb_true_iff in H.
  destruct H as [Hx H]. specialize (IH H).
  destruct (ignored x); [exact IH|].
  destruct x as [n [size|] | n listing]; [| discriminate |];
    cbn [app]; now rewrite IH.
Qed.

(** X24.  A [stat] that fails ends the listing of its directory: the
    entries after it are left out of the tree, whatever they are, and the
    directory keeps the children listed before it. *)
Theorem failed_stat_ends_the_listing dirPath name before file after :
  statsSucceed before = true ->
  ignored (Plain file None) = false ->
  walkDirectory dirPath
    (Directory name (Some (before ++ Plain file None :: after)%list))
  = walkDirectory dirPath (Directory name (Some before)).
Proof.
  intros Hb Hi. rewrite walkDirectory_app by exact Hb.
  cbn [walkDirectory]. rewrite Hi. now rewrite app_nil_r.
Qed.

Lemma failed_stat_ends_the_listing_witness :
  walkDirectory "/tmp/repo"
    (Directory "repo"
       (Some ([Plain "a.txt" (Some 1%N)]
              ++ Plain "broken" None :: [Plain "b.txt" (Some 2%N)])%list))
  = walkDirectory "/tmp/repo"
      (Directory "repo" (Some [Plain "a.txt" (Some 1%N)])).
Proof.
  apply (failed_stat_ends_the_listing "/tmp/repo" "repo"
           [Plain "a.txt" (Some 1%N)] "broken" [Plain "b.txt" (Some 2%N)]);
    reflexivity.
Defined.

End ReportFacts.

(* ================================================================== *)
(** ** The body extractors *)

Module BodyFacts.
Import Bodies.

Lemma substring_all t : String.substring 0 (String.length t) t = t.
Proof. induction t as [|a t IHt]; simpl; [reflexivity | now rewrite IHt]. Qed.

Lemma substring_from i n s :
  String.substring i n s = take n (from i s).
Proof.
  unfold take, from. revert i n. induction s as [|c s IH]; intros i n.
  - destruct i, n; reflexivity.
  - destruct i as [|i].
    + now rewrite Nat.sub_0_r, substring_all.
    + simpl. apply IH.
Qed.

Lemma take_length k s : k <= String.length s -> String.length (take k s) = k.
Proof.
  unfold take. revert k. induction s as [|c s IH]; intros [|k] H; simpl in *;
    try reflexivity; try lia.
  rewrite IH; lia.
Qed.

Lemma take_take k n s : k <= n -> take k (take n s) = take k s.
Proof.
  unfold take. revert k n. induction s as [|c s IH]; intros [|k] [|n] H;
    simpl; try reflexivity; try lia.
  rewrite IH; [reflexivity | lia].
Qed.

Lemma take_all s : take (String.length s) s = s.
Proof. unfold take. induction s as [|c s IH]; simpl; [|rewrite IH]; auto. Qed.

Lemma take_prefix k s : String.prefix (take k s) s = true.
Proof.
  unfold take. revert k. induction s as [|c s IH]; intros [|k]; simpl;
    try reflexivity.
  destruct (ascii_dec c c); [apply IH | congruence].
Qed.

Lemma scanBraces_nil b : scanBraces b "" = 0.
Proof. cbn [scanBraces]. now destruct (0 <? b)%Z. Qed.

Lemma scanBraces_stop b s : (b <= 0)%Z -> scanBraces b s = 0.
Proof.
  intros H. destruct s; cbn [scanBraces];
    now replace (0 <? b)%Z with false by (symmetry; apply Z.ltb_ge; lia).
Qed.

Lemma scanBraces_step b c s :
  (0 < b)%Z -> scanBraces b (String c s) = S (scanBraces (next b c) s).
Proof.
  intros H. cbn [scanBraces]. unfold next.
  replace (0 <? b)%Z with true by (symmetry; apply Z.ltb_lt; lia).
  destruct (Ascii.eqb c "{") eqn:E; [|reflexivity].
  apply Ascii.eqb_eq in E. subst. reflexivity.
Qed.

Lemma braceLevel_step b c s :
  braceLevel b (String c s) = braceLevel (next b c) s.
Proof. reflexivity. Qed.

Lemma take_step k c s : take (S k) (String c s) = String c (take k s).
Proof. reflexivity. Qed.

Lemma take_0 s : take 0 s = "".
Proof. now destruct s. Qed.

(** The loop stops at the first index where the brace count is 0, or
    at the end of the text. *)
Lemma scanBraces_spec s : forall b,
  (0 < b)%Z ->
  let n := scanBraces b s in
  n <= String.length s
  /\ (braceLevel b (take n s) = 0%Z \/ n = String.length s)
  /\ (forall k, k < n -> (0 < braceLevel b (take k s))%Z)
  /\ scanBraces b (take n s) = n.
Proof.
  induction s as [|c s IH]; intros b Hb; cbv zeta.
  - rewrite scanBraces_nil, take_0, scanBraces_nil.
    repeat split; auto; intros; lia.
  - rewrite (scanBraces_step b c s Hb), take_step.
    rewrite (scanBraces_step b c _ Hb), braceLevel_step.
    cbn [String.length].
    destruct (Z.ltb_spec 0 (next b c)) as [Hpos | Hzero].
    + destruct (IH (next b c) Hpos) as (H1 & H2 & H3 & H4).
      split; [lia|]. split; [destruct H2; [left | right]; auto|].
      split.
      * intros [|k] Hk; [rewrite take_0; exact Hb|].
        rewrite take_step, braceLevel_step. apply H3. lia.
      * now rewrite H4.
    + rewrite (scanBraces_stop _ s Hzero), take_0, scanBraces_nil.
      assert (Hb' : next b c = 0%Z).
      { unfold next in *.
        destruct (Ascii.eqb c "{"), (Ascii.eqb c "}"); lia. }
      split; [lia|]. split; [left; exact Hb'|].
      split; [|reflexivity].
      intros [|k] Hk; [rewrite take_0; exact Hb | lia].
Qed.

(** X25.  [extractFunctionBody] returns the text from [startIndex] up
    to and including the brace that closes the block it starts in: the
    shortest piece of what is left at whose end the brace count, 1 at the
    start, is 0; when there is no such piece it returns all that is left.
    Extracting again from the result gives the result. *)
Theorem function_body_ends_at_the_closing_brace startIndex content :
  let body := extractFunctionBody startIndex content in
  String.prefix body (from startIndex content) = true
  /\ (braceLevel 1 body = 0%Z \/ body = from startIndex content)
  /\ (forall k, k < String.length body ->
                (0 < braceLevel 1 (take k body))%Z)
  /\ extractFunctionBody 0 body = body.
Proof.
  cbv zeta. unfold extractFunctionBody.
  set (rest := from startIndex content).
  replace (startIndex + scanBraces 1 rest - startIndex)
    with (scanBraces 1 rest) by lia.
  rewrite substring_from. fold rest.
  destruct (scanBraces_spec rest 1 ltac:(lia)) as (H1 & H2 & H3 & H4).
  set (n := scanBraces 1 rest) in *.
  split; [apply take_prefix|]. split.
  - destruct H2 as [H2 | H2]; [now left | right].
    rewrite H2. apply take_all.
  - split.
    + intros k Hk. rewrite take_length in Hk by exact H1.
      rewrite take_take by lia. now apply H3.
    + replace (0 + scanBraces 1 (from 0 (take n rest)) - 0)
        with (scanBraces 1 (from 0 (take n rest))) by lia.
      rewrite substring_from.
      assert (Hf : forall t, from 0 t = t).
      { intros t. unfold from. rewrite Nat.sub_0_r. apply take_all. }
      rewrite !Hf, H4. apply take_take. lia.
Qed.

End BodyFacts.

(* ================================================================== *)
(** ** The line classifiers side by side *)

Module ClassifierFacts.
Import Lines.

Lemma blanks_cons l ls :
  blanks (l :: ls) = (if isBlank l then 1 else 0) + blanks ls.
Proof. unfold blanks. simpl. now destruct (isBlank l). Qed.

Lemma metrics_blank ls : forall c,
  Metrics.fileBlank (fold_left Metrics.countLine ls c)
  = Metrics.fileBlank c + blanks ls.
Proof.
  induction ls as [|l ls IH]; intros c; [simpl; unfold blanks; simpl; lia|].
  cbn [fold_left]. rewrite IH, blanks_cons.
  unfold Metrics.countLine, isBlank.
  destruct (String.eqb (JS.trim l) ""); [simpl; lia|].
  destruct (_ || _); simpl; lia.
Qed.

Lemma analyzer_blank patterns ls : forall st,
  CodeAnalyzer.blank (fold_left (CodeAnalyzer.stepLine patterns) ls st)
  = CodeAnalyzer.blank st + blanks ls.
Proof.
  induction ls as [|l ls IH]; intros st; [simpl; unfold blanks; simpl; lia|].
  cbn [fold_left]. rewrite IH, blanks_cons.
  unfold CodeAnalyzer.stepLine, isBlank.
  destruct (String.eqb (JS.trim l) ""); [simpl; lia|].
  cbv zeta.
  destruct (if CodeAnalyzer.hasToken _ _ then true else _); [simpl; lia|].
  destruct (existsb _ _); simpl; lia.
Qed.

Lemma step_together p r l :
  together p r ->
  together (CodeParser.stepLine p l) (RepositoryAnalyzer.stepLine r l).
Proof.
  intros (Hb & Hf & Hc & Hk).
  unfold CodeParser.stepLine, RepositoryAnalyzer.stepLine, together.
  destruct (String.eqb (JS.trim l) ""); [simpl; repeat split; auto; lia|].
  destruct (JS.startsWith (JS.trim l) "/*" || JS.startsWith (JS.trim l) "/**");
    [simpl; repeat split; auto; lia|].
  rewrite <- Hf.
  destruct (CodeParser.inMultilineComment p) eqn:Hm;
    [simpl; rewrite <- ?Hf, ?Hm; repeat split; auto; lia|].
  destruct (JS.startsWith (JS.trim l) "//");
    [simpl; rewrite <- ?Hf, ?Hm; repeat split; auto; lia|].
  cbn [orb].
  destruct (JS.startsWith (JS.trim l) "#" || JS.startsWith (JS.trim l) "--");
    simpl; rewrite <- ?Hf, ?Hm; repeat split; auto; lia.
Qed.

Lemma fold_together ls : forall p r,
  together p r ->
  together (fold_left CodeParser.stepLine ls p)
           (fold_left RepositoryAnalyzer.stepLine ls r).
Proof.
  induction ls as [|l ls IH]; intros p r H; [exact H|].
  apply IH, step_together, H.
Qed.

Lemma parser_blank ls : forall st,
  CodeParser.blankLines (fold_left CodeParser.stepLine ls st)
  = CodeParser.blankLines st + blanks ls.
Proof.
  induction ls as [|l ls IH]; intros st; [simpl; unfold blanks; simpl; lia|].
  cbn [fold_left]. rewrite IH, blanks_cons.
  unfold CodeParser.stepLine, isBlank.
  destruct (String.eqb (JS.trim l) ""); [simpl; lia|].
  destruct (_ || _); [simpl; lia|].
  destruct (CodeParser.inMultilineComment st); [simpl; lia|].
  destruct (JS.startsWith _ _); simpl; lia.
Qed.

(** X26.  The four line classifiers agree on the blank lines of a text,
    the lines that are empty once trimmed; they differ only in how they
    split the other lines between code and comments.  Of the two that
    follow block comments, [RepositoryAnalyzer] counts no fewer comment
    lines and no more code lines than [CodeParser]. *)
Theorem classifiers_agree_on_blank_lines content filePath :
  let lines := JS.split JS.LF content in
  Metrics.fileBlank (Metrics.countLines lines) = blanks lines
  /\ CodeParser.m_blankLines (CodeParser.getCodeMetrics content)
     = blanks lines
  /\ RepositoryAnalyzer.m_blankLines
       (RepositoryAnalyzer.calculateCodeMetrics content) = blanks lines
  /\ CodeAnalyzer.blank (CodeAnalyzer.analyzeLines lines filePath)
     = blanks lines
  /\ CodeParser.m_commentLines (CodeParser.getCodeMetrics content)
     <= RepositoryAnalyzer.m_commentLines
          (RepositoryAnalyzer.calculateCodeMetrics content)
  /\ RepositoryAnalyzer.m_codeLines
       (RepositoryAnalyzer.calculateCodeMetrics content)
     <= CodeParser.m_codeLines (CodeParser.getCodeMetrics content).
Proof.
  cbv zeta.
  unfold Metrics.countLines, CodeParser.getCodeMetrics,
    RepositoryAnalyzer.calculateCodeMetrics, CodeAnalyzer.analyzeLines.
  cbn [CodeParser.m_blankLines CodeParser.m_commentLines
       CodeParser.m_codeLines RepositoryAnalyzer.m_blankLines
       RepositoryAnalyzer.m_commentLines RepositoryAnalyzer.m_codeLines].
  set (lines := JS.split JS.LF content).
  match goal with
  | |- context [fold_left CodeParser.stepLine lines ?p0] =>
      match goal with
      | |- context [fold_left RepositoryAnalyzer.stepLine lines ?r0] =>
          assert (Ht : together p0 r0) by (repeat split; simpl; lia);
          pose proof (fold_together lines p0 r0 Ht) as (Hb & _ & Hc & Hk)
      end
  end.
  rewrite metrics_blank, analyzer_blank, <- Hb, parser_blank. simpl.
  repeat split; auto.
Qed.

(** *** Complexity and comments *)

Lemma step_quiet st l :
  quietState st -> quietState (RepositoryAnalyzer.stepLine st l).
Proof.
  unfold quietState, RepositoryAnalyzer.stepLine. intros H.
  destruct (String.eqb _ _); [exact H|].
  destruct (_ || _); [exact H|].
  destruct (RepositoryAnalyzer.inMultilineComment st); [exact H|].
  destruct (_ || _); [exact H|]. simpl. discriminate.
Qed.

(** X27.  In [RepositoryAnalyzer.calculateCodeMetrics] only code lines
    add complexity: a text without a code line, however many keywords its
    comments hold, has complexity 1. *)
Theorem comments_add_no_complexity content :
  RepositoryAnalyzer.m_codeLines
    (RepositoryAnalyzer.calculateCodeMetrics content) = 0 ->
  RepositoryAnalyzer.m_complexity
    (RepositoryAnalyzer.calculateCodeMetrics content) = 1.
Proof.
  unfold RepositoryAnalyzer.calculateCodeMetrics.
  cbn [RepositoryAnalyzer.m_codeLines RepositoryAnalyzer.m_complexity].
  generalize (JS.split JS.LF content). intros ls.
  match goal with
  | |- context [fold_left RepositoryAnalyzer.stepLine ls ?s0] =>
      assert (H0 : quietState s0) by (intros _; reflexivity);
      generalize dependent s0
  end.
  induction ls as [|l ls IH]; intros s0 H0; [exact H0|].
  cbn [fold_left]. apply IH, step_quiet, H0.
Qed.

Lemma comments_add_no_complexity_witness :
  RepositoryAnalyzer.m_complexity
    (RepositoryAnalyzer.calculateCodeMetrics commentedOut) = 1.
Proof.
  apply (comments_add_no_complexity commentedOut). vm_compute. reflexivity.
Defined.

End ClassifierFacts.
